(** * CineScope recommender: the TMDB proxy server ([mcp_server.py])

    A shallow embedding of the upstream-access layer of the server: the
    response cache, the retrying HTTP client, the result normaliser, the
    three query operations and the dispatcher, followed by the properties
    the specification states about them.

    Conventions of the embedding.
    - Python values that travel as JSON are the inductive type [pyval];
      a [dict] is an association list in insertion order (key order is
      observable: one of the properties is about it).
    - A Python [float] is an IEEE 754 binary64 number, written with the
      standard library's [spec_float]; arithmetic is [SFmul], [SFsub], ...
      at precision 53.
    - A Python [str] is a [string] whose characters are read as code points
      below 256.
    - Exceptions are values of type [exc]; pure code returns [result A],
      effectful code runs in the monad [M] (environment, state, exception).
    - [json.dumps] returns the serialised text as its sequence of lexical
      tokens ([json_text]); the server only ever stores and compares these
      texts.  Arguments and payloads are JSON values, on which [json.dumps]
      does not raise; their integers stay within the 4300 digits beyond which
      the interpreter refuses to convert between [int] and [str].
    - The surroundings are an environment [env]: the credential, what the
      n-th HTTP attempt observes and what the n-th reading of the clock
      returns.  The state holds the cache, the two counters that index the
      environment, and a trace of the requests, sleeps and cache accesses.
    - Calls to the logger are left out: they change neither the results nor
      the cache.  Calls of the dispatcher are run one after the other. *)

From Stdlib Require Import ZArith String Ascii List SpecFloat Lia.
From stdpp Require Import base option gmap strings list sorting pretty.

Open Scope string_scope.
Open Scope list_scope.
Open Scope Z_scope.

(* ================================================================== *)
(** * Python values                                                    *)
(* ================================================================== *)

(** binary64 *)
Definition prec : Z := 53.
Definition emax : Z := 1024.

Definition float_of_Z (z : Z) : spec_float := binary_normalize prec emax z 0 false.
Definition float_mul : spec_float → spec_float → spec_float := SFmul prec emax.
Definition float_sub : spec_float → spec_float → spec_float := SFsub prec emax.
(** [a > b] on floats *)
Definition float_gt (a b : spec_float) : bool := SFltb b a.

Definition float_is_zero (f : spec_float) : bool :=
  match f with S754_zero _ => true | _ => false end.
Definition float_is_finite (f : spec_float) : bool :=
  match f with S754_zero _ | S754_finite _ _ _ => true | _ => false end.

#[warnings="-register-all"]
Inductive pyval : Type :=
  | PNone
  | PBool (b : bool)
  | PInt (z : Z)
  | PFloat (f : spec_float)
  | PStr (s : string)
  | PList (l : list pyval)
  | PDict (d : list (string * pyval)).

(** A [dict] as the code sees it: [Dict[str, Any]]. *)
Abbreviation dict := (list (string * pyval)).

(** Python dictionaries hold one value per key. *)
Definition dict_wf (d : dict) : Prop := NoDup (d.*1).

Fixpoint dict_get (k : string) (d : dict) : option pyval :=
  match d with
  | [] => None
  | (k', v) :: d' => if String.eqb k k' then Some v else dict_get k d'
  end.

(** [d[k] = v]: the value is replaced in place, a new key goes last. *)
Fixpoint dict_set (k : string) (v : pyval) (d : dict) : dict :=
  match d with
  | [] => [(k, v)]
  | (k', v') :: d' =>
      if String.eqb k k' then (k, v) :: d' else (k', v') :: dict_set k v d'
  end.

(** ** Exceptions *)

Inductive exc_class : Type :=
  | AttributeError
  | KeyError
  | TypeError
  | ValueError
  | OverflowError
  (** [httpx.RequestError] and its subclasses *)
  | RequestError
  | OtherException (name : string).

Inductive exc : Type :=
  (** [TMDBError(message, code, status)] *)
  | TMDBError (message : string) (code : string) (status : Z)
  (** any other exception, with [str(e)] *)
  | PyError (cls : exc_class) (message : string).

Inductive result (A : Type) : Type :=
  | Ok (a : A)
  | Raise (e : exc).
Arguments Ok {A} a.
Arguments Raise {A} e.

#[global] Instance result_ret : MRet result := λ A a, Ok a.
#[global] Instance result_bind : MBind result := λ A B f r,
  match r with
  | Ok a => f a
  | Raise e => Raise e
  end.

#[global] Instance result_fmap : FMap result := λ A B f r,
  match r with
  | Ok a => Ok (f a)
  | Raise e => Raise e
  end.

(** [str(e)] *)
Definition exc_message (e : exc) : string :=
  match e with
  | TMDBError m _ _ => m
  | PyError _ m => m
  end.

(** ** Built-ins used by the server *)

Definition type_name (v : pyval) : string :=
  match v with
  | PNone => "NoneType"
  | PBool _ => "bool"
  | PInt _ => "int"
  | PFloat _ => "float"
  | PStr _ => "str"
  | PList _ => "list"
  | PDict _ => "dict"
  end.

Definition no_attribute {A} (v : pyval) (attr : string) : result A :=
  Raise (PyError AttributeError
           ("'" +:+ type_name v +:+ "' object has no attribute '" +:+ attr +:+ "'")).

(** truth value of an object *)
Definition truthy (v : pyval) : bool :=
  match v with
  | PNone => false
  | PBool b => b
  | PInt z => negb (z =? 0)
  | PFloat f => negb (float_is_zero f)
  | PStr s => negb (String.eqb s "")
  | PList l => match l with [] => false | _ => true end
  | PDict d => match d with [] => false | _ => true end
  end.

(** [a or b] *)
Definition py_or (a b : pyval) : pyval := if truthy a then a else b.

(** [obj.get(k, default)] *)
Definition py_get (obj : pyval) (k : string) (dflt : pyval) : result pyval :=
  match obj with
  | PDict d => Ok (default dflt (dict_get k d))
  | _ => no_attribute obj "get"
  end.

(** [obj[k]] for a key the code writes as a literal *)
Definition py_getitem (obj : pyval) (k : string) : result pyval :=
  match obj with
  | PDict d =>
      match dict_get k d with
      | Some v => Ok v
      | None => Raise (PyError KeyError ("'" +:+ k +:+ "'"))
      end
  | _ => Raise (PyError TypeError ("'" +:+ type_name obj +:+ "' object is not subscriptable"))
  end.

(** [isinstance(v, int)]: [bool] is a subclass of [int]. *)
Definition isinstance_int (v : pyval) : bool :=
  match v with
  | PInt _ | PBool _ => true
  | _ => false
  end.

(** [v == s] for a string literal [s] *)
Definition py_eq_str (v : pyval) (s : string) : bool :=
  match v with
  | PStr t => String.eqb t s
  | _ => false
  end.

(** [v in (s1, s2)] *)
Definition py_in2 (v : pyval) (s1 s2 : string) : bool :=
  py_eq_str v s1 || py_eq_str v s2.

(** iteration over an object: [for item in v] *)
Definition py_iter (v : pyval) : result (list pyval) :=
  match v with
  | PList l => Ok l
  | PStr s => Ok ((λ c, PStr (String c "")) <$> list_ascii_of_string s)
  | PDict d => Ok ((λ kv, PStr kv.1) <$> d)
  | _ => Raise (PyError TypeError ("'" +:+ type_name v +:+ "' object is not iterable"))
  end.

(** *** Strings *)

Definition code (c : ascii) : Z := Z.of_N (N_of_ascii c).

(** [str.isspace] on one character (code points below 256) *)
Definition is_space (c : ascii) : bool :=
  let n := code c in
  ((9 <=? n) && (n <=? 13)) || ((28 <=? n) && (n <=? 32)) || (n =? 133) || (n =? 160).

Definition is_digit (c : ascii) : bool :=
  let n := code c in (48 <=? n) && (n <=? 57).

Definition digit_value (c : ascii) : Z := code c - 48.

Fixpoint lstrip (s : string) : string :=
  match s with
  | String c s' => if is_space c then lstrip s' else s
  | EmptyString => EmptyString
  end.

Definition rstrip (s : string) : string := String.rev (lstrip (String.rev s)).

(** [s.strip()] *)
Definition strip (s : string) : string := rstrip (lstrip s).

(** White space as [int] and [float] skip it around a literal: the ASCII
    white space, and the two other white-space characters below 256, which
    the conversion first turns into spaces.  The separators U+001C..U+001F,
    which [str.isspace] and [str.strip] count as white space, are not
    skipped. *)
Definition is_number_space (c : ascii) : bool :=
  let n := code c in
  ((9 <=? n) && (n <=? 13)) || (n =? 32) || (n =? 133) || (n =? 160).

Fixpoint number_lstrip (s : string) : string :=
  match s with
  | String c s' => if is_number_space c then number_lstrip s' else s
  | EmptyString => EmptyString
  end.

(** the literal that [int(s)] and [float(s)] read: [s] without the white
    space around it *)
Definition number_strip (s : string) : string :=
  String.rev (number_lstrip (String.rev (number_lstrip s))).

(** [s.split(sep)[0]] for a one-character separator *)
Fixpoint split_first (sep : ascii) (s : string) : string :=
  match s with
  | String c s' => if Ascii.eqb c sep then EmptyString else String c (split_first sep s')
  | EmptyString => EmptyString
  end.

(** [sep.join(l)] *)
Fixpoint join (sep : string) (l : list string) : string :=
  match l with
  | [] => ""
  | [s] => s
  | s :: l' => s +:+ sep +:+ join sep l'
  end.

Definition hex_digit (n : Z) : ascii :=
  if n <? 10 then ascii_of_N (Z.to_N (48 + n)) else ascii_of_N (Z.to_N (87 + n)).

Definition has_char (c : ascii) (s : string) : bool :=
  existsb (Ascii.eqb c) (list_ascii_of_string s).

(** [repr(s)] of a string *)
Definition repr_char (quote : ascii) (c : ascii) : string :=
  let n := code c in
  if Ascii.eqb c quote || Ascii.eqb c "\" then String "\" (String c "")
  else if n =? 9 then "\t"
  else if n =? 10 then "\n"
  else if n =? 13 then "\r"
  else if (n <? 32) || ((127 <=? n) && (n <=? 160)) || (n =? 173)
       then String "\" (String "x" (String (hex_digit (n / 16)) (String (hex_digit (n mod 16)) "")))
  else String c "".

(** the double-quote character *)
Definition dquote : ascii := ascii_of_N 34.

Definition py_repr_str (s : string) : string :=
  let quote : ascii :=
    if has_char "'" s && negb (has_char dquote s) then dquote else "'"%char in
  String quote
    (fold_right (λ c acc, repr_char quote c +:+ acc) (String quote "") (list_ascii_of_string s)).

(** *** Numbers *)

(** Digits with single underscores between them, as [int] and [float]
    accept them; [seen] tells that the previous character was a digit. *)
Fixpoint parse_digits (acc : Z) (seen : bool) (s : string) : option Z :=
  match s with
  | EmptyString => if seen then Some acc else None
  | String c s' =>
      if is_digit c then parse_digits (10 * acc + digit_value c) true s'
      else if Ascii.eqb c "_" then (if seen then parse_digits acc false s' else None)
      else None
  end.

(** the literal of [int(s)], base 10 *)
Definition parse_int (s : string) : option Z :=
  match number_strip s with
  | String "-" s' => Z.opp <$> parse_digits 0 false s'
  | String "+" s' => parse_digits 0 false s'
  | s' => parse_digits 0 false s'
  end.

(** The run of digits and underscores that a literal starts with, as the
    conversion scans it before it looks at what follows: the number of its
    digits, or [None] when two underscores meet or an underscore ends the
    run. *)
Fixpoint digit_run (prev_underscore : bool) (count : Z) (s : string) : option Z :=
  match s with
  | String c s' =>
      if is_digit c then digit_run false (count + 1) s'
      else if Ascii.eqb c "_" then
        (if prev_underscore then None else digit_run true count s')
      else if prev_underscore then None else Some count
  | EmptyString => if prev_underscore then None else Some count
  end.

(** [sys.get_int_max_str_digits()], as the interpreter starts *)
Definition MAX_STR_DIGITS : Z := 4300.

(** the digits [int(s)] would have to convert, when the scan of the literal
    gets as far as counting them (a literal does not start with an
    underscore) *)
Definition literal_digits (s : string) : option Z :=
  let unsigned :=
    match number_strip s with
    | String "-" s' => s'
    | String "+" s' => s'
    | s' => s'
    end in
  match unsigned with
  | String "_" _ => None
  | _ => digit_run false 0 unsigned
  end.

(** the conversion gives up on a literal of more than 4300 digits, before it
    looks at what follows the digits *)
Definition exceeds_digit_limit (s : string) : option Z :=
  match literal_digits s with
  | Some n => if MAX_STR_DIGITS <? n then Some n else None
  | None => None
  end.

(** [int(v)] *)
Definition py_int (v : pyval) : result Z :=
  match v with
  | PInt z => Ok z
  | PBool b => Ok (if b then 1 else 0)
  | PFloat f =>
      match f with
      | S754_zero _ => Ok 0
      | S754_finite s m e =>
          let a := if 0 <=? e then Z.pos m * 2 ^ e else Z.pos m / 2 ^ (- e) in
          Ok (if s then - a else a)
      | S754_infinity _ =>
          Raise (PyError OverflowError "cannot convert float infinity to integer")
      | S754_nan =>
          Raise (PyError ValueError "cannot convert float NaN to integer")
      end
  | PStr s =>
      match exceeds_digit_limit s with
      | Some n =>
          Raise (PyError ValueError
                   ("Exceeds the limit (4300 digits) for integer string conversion: value has "
                      +:+ pretty n
                      +:+ " digits; use sys.set_int_max_str_digits() to increase the limit"))
      | None =>
          match parse_int s with
          | Some z => Ok z
          | None =>
              Raise (PyError ValueError
                       ("invalid literal for int() with base 10: " +:+ py_repr_str s))
          end
      end
  | _ =>
      Raise (PyError TypeError
               ("int() argument must be a string, a bytes-like object or a real number, not '"
                  +:+ type_name v +:+ "'"))
  end.

(** [float(z)] of an integer *)
Definition float_of_int (z : Z) : result spec_float :=
  let f := float_of_Z z in
  if float_is_finite f then Ok f
  else Raise (PyError OverflowError "int too large to convert to float").

(** Underscores of a float literal stand between two digits and are dropped. *)
Fixpoint drop_underscores (prev : option ascii) (s : string) : option string :=
  match s with
  | EmptyString => if bool_decide (prev = Some "_"%char) then None else Some EmptyString
  | String c s' =>
      if Ascii.eqb c "_" then
        match prev with
        | Some p => if is_digit p then drop_underscores (Some c) s' else None
        | None => None
        end
      else if bool_decide (prev = Some "_"%char) && negb (is_digit c) then None
      else String c <$> drop_underscores (Some c) s'
  end.

Fixpoint take_digits (s : string) : list Z * string :=
  match s with
  | String c s' =>
      if is_digit c then let '(ds, r) := take_digits s' in (digit_value c :: ds, r)
      else ([], s)
  | EmptyString => ([], EmptyString)
  end.

Definition digits_value (ds : list Z) : Z := fold_left (λ acc d, 10 * acc + d) ds 0.

Definition lower (c : ascii) : ascii :=
  let n := code c in
  if (65 <=? n) && (n <=? 90) then ascii_of_N (Z.to_N (n + 32)) else c.

Definition lower_string (s : string) : string :=
  string_of_list_ascii (lower <$> list_ascii_of_string s).

(** the decimal number [sign d * 10^e], correctly rounded to binary64 *)
Definition float_of_decimal (sign : bool) (d e : Z) : spec_float :=
  match d with
  | Z0 => S754_zero sign
  | Zneg _ => S754_nan
  | Zpos _ =>
      if 0 <=? e then binary_normalize prec emax (if sign then - (d * 10 ^ e) else d * 10 ^ e) 0 false
      else
        let '(q, e', l) := SFdiv_core_binary prec emax d 0 (10 ^ (- e)) 0 in
        binary_round_aux prec emax sign q e' l
  end.

(** exponent part of a float literal: empty, or [e], a sign and digits *)
Definition parse_exponent (s : string) : option Z :=
  match s with
  | EmptyString => Some 0
  | String c s' =>
      if Ascii.eqb (lower c) "e" then
        let '(neg, s'') :=
          match s' with
          | String "-" r => (true, r)
          | String "+" r => (false, r)
          | _ => (false, s')
          end in
        match take_digits s'' with
        | ((_ :: _) as ds, EmptyString) => Some (if neg then - digits_value ds else digits_value ds)
        | _ => None
        end
      else None
  end.

(** the literal of [float(s)] *)
Definition parse_float (s : string) : option spec_float :=
  s1 ← drop_underscores None (number_strip s);
  let '(sign, s2) :=
    match s1 with
    | String "-" r => (true, r)
    | String "+" r => (false, r)
    | _ => (false, s1)
    end in
  let w := lower_string s2 in
  if String.eqb w "inf" || String.eqb w "infinity" then Some (S754_infinity sign)
  else if String.eqb w "nan" then Some S754_nan
  else
    let '(ip, r1) := take_digits s2 in
    let '(fp, r2) :=
      match r1 with
      | String "." r => take_digits r
      | _ => ([], r1)
      end in
    match ip ++ fp with
    | [] => None
    | ds =>
        ex ← parse_exponent r2;
        Some (float_of_decimal sign (digits_value ds) (ex - Z.of_nat (length fp)))
    end.

(** [float(v)] *)
Definition py_float (v : pyval) : result spec_float :=
  match v with
  | PFloat f => Ok f
  | PInt z => float_of_int z
  | PBool b => Ok (float_of_Z (if b then 1 else 0))
  | PStr s =>
      match parse_float s with
      | Some f => Ok f
      | None =>
          Raise (PyError ValueError ("could not convert string to float: " +:+ py_repr_str s))
      end
  | _ =>
      Raise (PyError TypeError
               ("float() argument must be a string or a real number, not '"
                  +:+ type_name v +:+ "'"))
  end.

(** [str(z)] *)
Definition str_of_int (z : Z) : string := pretty z.

(** [format(f, ".1f")] of a float: one digit after the point, the exact
    value rounded half to even. *)
Definition format_1f (f : spec_float) : string :=
  match f with
  | S754_nan => "nan"
  | S754_infinity s => if s then "-inf" else "inf"
  | S754_zero s => if s then "-0.0" else "0.0"
  | S754_finite s m e =>
      let num := if 0 <=? e then 10 * Z.pos m * 2 ^ e else 10 * Z.pos m in
      let den := if 0 <=? e then 1 else 2 ^ (- e) in
      let q := num / den in
      let r := num mod den in
      let n := if (den <? 2 * r) || ((den =? 2 * r) && Z.odd q) then q + 1 else q in
      (if s then "-" else "") +:+ str_of_int (n / 10) +:+ "." +:+ str_of_int (n mod 10)
  end.

(** [f"{v:.1f}"] *)
Definition py_format_1f (v : pyval) : result string :=
  match v with
  | PFloat f => Ok (format_1f f)
  | PInt z => format_1f <$> float_of_int z
  | PBool b => Ok (format_1f (float_of_Z (if b then 1 else 0)))
  | PStr _ =>
      Raise (PyError ValueError "Unknown format code 'f' for object of type 'str'")
  | _ =>
      Raise (PyError TypeError
               ("unsupported format string passed to " +:+ type_name v +:+ ".__format__"))
  end.


(* ================================================================== *)
(** * [json.dumps]                                                     *)
(* ================================================================== *)

(** The serialised text, token by token.  Two texts are equal exactly when
    their token sequences are. *)
Inductive json_token : Type :=
  | TNull
  | TTrue
  | TFalse
  | TInt (z : Z)
  | TFloat (f : spec_float)
  | TStr (s : string)
  | TLBrace
  | TRBrace
  | TLBrack
  | TRBrack
  | TComma
  | TColon.

Abbreviation json_text := (list json_token).

#[global] Instance spec_float_eq_dec : EqDecision spec_float.
Proof. solve_decision. Defined.

#[global] Instance json_token_eq_dec : EqDecision json_token.
Proof. solve_decision. Defined.

Definition spec_float_code (f : spec_float) : bool + bool + unit + bool * positive * Z :=
  match f with
  | S754_zero s => inl (inl (inl s))
  | S754_infinity s => inl (inl (inr s))
  | S754_nan => inl (inr tt)
  | S754_finite s m e => inr (s, m, e)
  end.

Definition spec_float_decode (c : bool + bool + unit + bool * positive * Z) : spec_float :=
  match c with
  | inl (inl (inl s)) => S754_zero s
  | inl (inl (inr s)) => S754_infinity s
  | inl (inr _) => S754_nan
  | inr (s, m, e) => S754_finite s m e
  end.

#[global] Instance spec_float_countable : Countable spec_float.
Proof.
  refine (inj_countable' spec_float_code spec_float_decode _).
  intros []; reflexivity.
Defined.

Definition json_token_code (t : json_token) : nat + Z + spec_float + string :=
  match t with
  | TNull => inl (inl (inl 0%nat))
  | TTrue => inl (inl (inl 1%nat))
  | TFalse => inl (inl (inl 2%nat))
  | TLBrace => inl (inl (inl 3%nat))
  | TRBrace => inl (inl (inl 4%nat))
  | TLBrack => inl (inl (inl 5%nat))
  | TRBrack => inl (inl (inl 6%nat))
  | TComma => inl (inl (inl 7%nat))
  | TColon => inl (inl (inl 8%nat))
  | TInt z => inl (inl (inr z))
  | TFloat f => inl (inr f)
  | TStr s => inr s
  end.

Definition json_token_decode (c : nat + Z + spec_float + string) : json_token :=
  match c with
  | inl (inl (inl 0%nat)) => TNull
  | inl (inl (inl 1%nat)) => TTrue
  | inl (inl (inl 2%nat)) => TFalse
  | inl (inl (inl 3%nat)) => TLBrace
  | inl (inl (inl 4%nat)) => TRBrace
  | inl (inl (inl 5%nat)) => TLBrack
  | inl (inl (inl 6%nat)) => TRBrack
  | inl (inl (inl 7%nat)) => TComma
  | inl (inl (inl _)) => TColon
  | inl (inl (inr z)) => TInt z
  | inl (inr f) => TFloat f
  | inr s => TStr s
  end.

#[global] Instance json_token_countable : Countable json_token.
Proof.
  refine (inj_countable' json_token_code json_token_decode _).
  intros []; reflexivity.
Defined.

(** order of the keys under [sort_keys=True]: the items are sorted, and the
    keys of a dictionary differ, so the keys decide *)
Definition item_le {A} (a b : string * A) : Prop := String.le a.1 b.1.

#[global] Instance item_le_dec {A} : RelDecision (@item_le A).
Proof. intros a b. unfold item_le. apply _. Defined.

Definition sort_items {A} (l : list (string * A)) : list (string * A) :=
  merge_sort item_le l.

(** the texts of the elements with a comma between them *)
Fixpoint comma_sep (l : list json_text) : json_text :=
  match l with
  | [] => []
  | [t] => t
  | t :: l' => t ++ TComma :: comma_sep l'
  end.

Definition item_text (kt : string * json_text) : json_text :=
  TStr kt.1 :: TColon :: kt.2.

(** [json.dumps(v, sort_keys=sort_keys)] *)
Fixpoint json_dumps (sort_keys : bool) (v : pyval) : json_text :=
  match v with
  | PNone => [TNull]
  | PBool b => [if b then TTrue else TFalse]
  | PInt z => [TInt z]
  | PFloat f => [TFloat f]
  | PStr s => [TStr s]
  | PList l => TLBrack :: comma_sep (map (json_dumps sort_keys) l) ++ [TRBrack]
  | PDict d =>
      let items := map (λ kv, match kv with (k, x) => (k, json_dumps sort_keys x) end) d in
      let items := if sort_keys then sort_items items else items in
      TLBrace :: comma_sep (map item_text items) ++ [TRBrace]
  end.

(* ================================================================== *)
(** * The world of the server                                          *)
(* ================================================================== *)

(** What one HTTP attempt observes. *)
Record response : Type := Response {
  status_code : Z;
  (** [resp.json()]: the message of the [ValueError] it raises, or the value *)
  json : string + pyval;
}.

Inductive attempt_outcome : Type :=
  (** [client.get] raises: [httpx.RequestError] on a network failure *)
  | Fails (cls : exc_class) (message : string)
  | Responds (resp : response).

Abbreviation cache_key := (string * json_text)%type.
Abbreviation cache_entry := (spec_float * pyval)%type.

Inductive event : Type :=
  (** [client.get(url, params=params)] *)
  | EvRequest (url : string) (params : dict)
  (** [asyncio.sleep(seconds)] *)
  | EvSleep (seconds : spec_float)
  (** [_cache.get(key)] *)
  | EvCacheGet (key : cache_key)
  (** [_cache.pop(key, None)] *)
  | EvCachePop (key : cache_key)
  (** [_cache[key] = entry] *)
  | EvCacheSet (key : cache_key) (entry : cache_entry).

(** What the process is started with and what its surroundings answer:
    the credential, the outcome of the n-th HTTP attempt, and the n-th
    reading of the clock. *)
Record env : Type := Env {
  TMDB_API_KEY : option string;
  net : nat → attempt_outcome;
  clock : nat → spec_float;
  utcnow : nat → string;
}.

Record state : Type := State {
  _cache : gmap cache_key cache_entry;
  (** clock readings taken so far *)
  ticks : nat;
  (** HTTP attempts made so far *)
  sent : nat;
  (** what happened, oldest first *)
  trace : list event;
}.

(** cache empty at startup *)
Definition initial_state : state :=
  {| _cache := ∅; ticks := 0; sent := 0; trace := [] |}.

Definition M (A : Type) : Type := env → state → result A * state.

#[global] Instance M_ret : MRet M := λ A a _ s, (Ok a, s).
#[global] Instance M_bind : MBind M := λ A B f m e s,
  match m e s with
  | (Ok a, s') => f a e s'
  | (Raise x, s') => (Raise x, s')
  end.

Definition raise {A} (x : exc) : M A := λ _ s, (Raise x, s).

Definition lift {A} (r : result A) : M A := λ _ s, (r, s).

(** [try: m  except ... as x: handler x] *)
Definition try_except {A} (m : M A) (handler : exc → M A) : M A := λ e s,
  match m e s with
  | (Ok a, s') => (Ok a, s')
  | (Raise x, s') => handler x e s'
  end.

Definition log (ev : event) (s : state) : state :=
  {| _cache := _cache s; ticks := ticks s; sent := sent s; trace := trace s ++ [ev] |}.

(** [time.time()] *)
Definition time_time : M spec_float := λ e s,
  (Ok (clock e (ticks s)),
   {| _cache := _cache s; ticks := S (ticks s); sent := sent s; trace := trace s |}).

(** [datetime.now(timezone.utc).isoformat()] *)
Definition datetime_now_isoformat : M string := λ e s,
  (Ok (utcnow e (ticks s)),
   {| _cache := _cache s; ticks := S (ticks s); sent := sent s; trace := trace s |}).

(** [await client.get(url, params=params)] on a fresh client *)
Definition client_get (url : string) (params : dict) : M response := λ e s,
  let s' := {| _cache := _cache s; ticks := ticks s; sent := S (sent s);
               trace := trace s ++ [EvRequest url params] |} in
  match net e (sent s) with
  | Fails cls msg => (Raise (PyError cls msg), s')
  | Responds resp => (Ok resp, s')
  end.

(** [await asyncio.sleep(seconds)] *)
Definition asyncio_sleep (seconds : spec_float) : M unit := λ _ s,
  (Ok tt, log (EvSleep seconds) s).

Definition get_api_key : M (option string) := λ e s, (Ok (TMDB_API_KEY e), s).

(** [_cache.get(key)] *)
Definition cache_lookup (key : cache_key) : M (option cache_entry) := λ _ s,
  (Ok (_cache s !! key), log (EvCacheGet key) s).

(** [_cache.pop(key, None)] *)
Definition cache_pop (key : cache_key) : M unit := λ _ s,
  (Ok tt,
   {| _cache := delete key (_cache s); ticks := ticks s; sent := sent s;
      trace := trace s ++ [EvCachePop key] |}).

(** [_cache[key] = entry] *)
Definition cache_store (key : cache_key) (entry : cache_entry) : M unit := λ _ s,
  (Ok tt,
   {| _cache := <[key := entry]> (_cache s); ticks := ticks s; sent := sent s;
      trace := trace s ++ [EvCacheSet key entry] |}).

(** [len(_cache)] *)
Definition cache_len : M Z := λ _ s, (Ok (Z.of_nat (size (_cache s))), s).

(* ================================================================== *)
(** * Basic config and the cache                                       *)
(* ================================================================== *)

Definition TMDB_BASE_URL : string := "https://api.themoviedb.org/3".
Definition CACHE_TTL_SECONDS : Z := 300.
Definition MAX_RETRIES : Z := 3.
Definition INITIAL_BACKOFF_SECONDS : spec_float := float_of_Z 1.

(** [(tool_name, json.dumps(args, sort_keys=True))] *)
Definition make_key (tool_name : string) (args : dict) : cache_key :=
  (tool_name, json_dumps true (PDict args)).

(** The result is the cached data, or [None]. *)
Definition _cache_get (tool_name : string) (args : dict) : M pyval :=
  let key := make_key tool_name args in
  entry ← cache_lookup key;
  match entry with
  | None => mret PNone
  | Some (ts, data) =>
      now ← time_time;
      if float_gt (float_sub now ts) (float_of_Z CACHE_TTL_SECONDS) then
        cache_pop key;;
        mret PNone
      else mret data
  end.

Definition _cache_set (tool_name : string) (args : dict) (data : pyval) : M unit :=
  let key := make_key tool_name args in
  now ← time_time;
  cache_store key (now, data).

(* ================================================================== *)
(** * TMDB client helpers                                              *)
(* ================================================================== *)

Definition key_configured (k : option string) : bool :=
  match k with
  | Some s => negb (String.eqb s "")
  | None => false
  end.

(** The body of the [for attempt in range(1, MAX_RETRIES + 1)] loop, over
    the attempts still to make. *)
Fixpoint tmdb_attempts (attempts : list Z) (backoff : spec_float)
    (url : string) (params : dict) : M pyval :=
  match attempts with
  | [] =>
      (* Should not reach here, loop either returns or raises *)
      raise (TMDBError "Exhausted TMDB retries" "UNKNOWN_ERROR" 500)
  | attempt :: rest =>
      let retry : M pyval :=
        asyncio_sleep backoff;;
        tmdb_attempts rest (float_mul backoff (float_of_Z 2)) url params in
      try_except
        (resp ← client_get url params; mret (Some resp))
        (λ x,
           match x with
           | PyError RequestError _ => mret None
           | _ => raise x
           end)
      ≫= λ got,
      match got with
      | None =>
          (* Network/socket/DNS errors *)
          if attempt =? MAX_RETRIES then
            raise (TMDBError "Network error talking to TMDB" "NETWORK_ERROR" 500)
          else retry
      | Some resp =>
          (* Rate limit (429) – transient *)
          if status_code resp =? 429 then
            if attempt =? MAX_RETRIES then
              raise (TMDBError "TMDB rate limit reached after retries" "RATE_LIMIT" 429)
            else retry
          (* 5xx – treat as transient *)
          else if 500 <=? status_code resp then
            if attempt =? MAX_RETRIES then
              raise (TMDBError "TMDB service unavailable" "UPSTREAM_ERROR" (status_code resp))
            else retry
          (* Other 4xx – permanent *)
          else if 400 <=? status_code resp then
            raise (TMDBError ("TMDB returned " +:+ str_of_int (status_code resp))
                     "BAD_REQUEST" (status_code resp))
          else
            (* Success – parse JSON *)
            match json resp with
            | inr body => mret body
            | inl msg =>
                raise (TMDBError ("Failed to parse TMDB JSON: " +:+ msg) "JSON_ERROR" 500)
            end
      end
  end.

Definition _tmdb_get (path : string) (params : dict) : M pyval :=
  api_key ← get_api_key;
  if negb (key_configured api_key) then
    raise (TMDBError "TMDB_API_KEY missing in environment" "CONFIG_ERROR" 500)
  else
    let url := TMDB_BASE_URL +:+ path in
    let params := dict_set "api_key" (PStr (default "" api_key)) params in
    let backoff := INITIAL_BACKOFF_SECONDS in
    tmdb_attempts (seqZ 1 MAX_RETRIES) backoff url params.

(** [item.get(k)] *)
Definition get_none (obj : pyval) (k : string) : result pyval := py_get obj k PNone.

(** Normalise TMDB search/discover results to the spec. *)
Definition _map_search_item (item : pyval) (item_type : pyval) : result pyval :=
  t1 ← get_none item "title";
  title ← (if truthy t1 then Ok t1
           else t2 ← get_none item "name"; Ok (py_or t2 (PStr "")));
  d1 ← get_none item "release_date";
  date_field ← (if truthy d1 then Ok d1 else get_none item "first_air_date");
  year ← (if truthy date_field then
            match date_field with
            | PStr s => PInt <$> py_int (PStr (split_first "-" s))
            | _ => no_attribute date_field "split"
            end
          else Ok PNone);
  va ← get_none item "vote_average";
  rating ← py_float (py_or va (PFloat (S754_zero false)));
  id ← (raw ← py_getitem item "id"; py_int raw);
  overview ← py_get item "overview" (PStr "");
  poster_path ← get_none item "poster_path";
  Ok (PDict [("id", PInt id);
             ("title", title);
             ("type", item_type);
             ("year", year);
             ("rating", PFloat rating);
             ("overview", overview);
             ("poster_path", poster_path)]).

(** [[f(x) for x in l]] *)
Fixpoint result_map {A B} (f : A → result B) (l : list A) : result (list B) :=
  match l with
  | [] => Ok []
  | x :: l' => y ← f x; ys ← result_map f l'; Ok (y :: ys)
  end.

(** [args.get(k)] *)
Definition arg (args : dict) (k : string) : pyval := default PNone (dict_get k args).

Definition validation_error {A} (message : string) : M A :=
  raise (TMDBError message "VALIDATION_ERROR" 400).

(** [v.strip()] *)
Definition py_strip (v : pyval) : result string :=
  match v with
  | PStr s => Ok (strip s)
  | _ => no_attribute v "strip"
  end.

(** the year filter shared by search and discover *)
Definition with_year (year item_type : pyval) (params : dict) : M dict :=
  match year with
  | PNone => mret params
  | _ =>
      if negb (isinstance_int year) then validation_error "year must be an integer"
      else if py_eq_str item_type "movie" then mret (dict_set "primary_release_year" year params)
      else mret (dict_set "first_air_date_year" year params)
  end.

Definition _search_title (args : dict) : M pyval :=
  query ← lift (py_strip (default (PStr "") (dict_get "query" args)));
  if String.eqb query "" then validation_error "query is required"
  else
    let item_type := py_or (arg args "type") (PStr "movie") in
    if negb (py_in2 item_type "movie" "tv") then
      validation_error "type must be 'movie' or 'tv'"
    else
      let year := arg args "year" in
      let language := py_or (arg args "language") (PStr "en-US") in
      let params : dict :=
        [("query", PStr query); ("language", language); ("include_adult", PBool false)] in
      params ← with_year year item_type params;
      let path := if py_eq_str item_type "movie" then "/search/movie" else "/search/tv" in
      data ← _tmdb_get path params;
      results ← lift (py_get data "results" (PList []));
      if negb (truthy results) then
        raise (TMDBError ("No results for query '" +:+ query +:+ "'") "TITLE_NOT_FOUND" 404)
      else
        items ← lift (py_iter results);
        mapped ← lift (result_map (λ item, _map_search_item item item_type) items);
        fetched_at ← time_time;
        mret (PDict [("results", PList mapped);
                     ("source", PStr "TMDB");
                     ("fetched_at", PFloat fetched_at)]).

(** one turn of the loop of [_get_recommendations]: the record appended to
    [recs] *)
Definition recommendation (item_type : pyval) (item : pyval) : result pyval :=
  base ← _map_search_item item item_type;
  va ← get_none item "vote_average";
  reason1 ← (if truthy va then
               raw ← py_getitem item "vote_average";
               shown ← py_format_1f raw;
               Ok ["high user rating " +:+ shown]
             else Ok []);
  pop ← get_none item "popularity";
  let reason := reason1 ++ (if truthy pop then ["popular among similar viewers"] else []) in
  id ← py_getitem base "id";
  title ← py_getitem base "title";
  year ← py_getitem base "year";
  Ok (PDict [("id", id);
             ("title", title);
             ("year", year);
             ("reason", match reason with [] => PNone | _ => PStr (join "; " reason) end)]).

Definition _get_recommendations (args : dict) : M pyval :=
  media_id ←
    match py_int (arg args "id") with
    | Ok z => mret z
    | Raise (PyError TypeError _) | Raise (PyError ValueError _) =>
        validation_error "id must be an integer"
    | Raise x => raise x
    end;
  let item_type := arg args "type" in
  if negb (py_in2 item_type "movie" "tv") then
    validation_error "type must be 'movie' or 'tv'"
  else
    let path :=
      if py_eq_str item_type "movie"
      then "/movie/" +:+ str_of_int media_id +:+ "/recommendations"
      else "/tv/" +:+ str_of_int media_id +:+ "/recommendations" in
    let params : dict := [("language", PStr "en-US")] in
    data ← _tmdb_get path params;
    results ← lift (py_get data "results" (PList []));
    items ← lift (py_iter results);
    recs ← lift (result_map (recommendation item_type) items);
    fetched_at ← time_time;
    mret (PDict [("results", PList recs);
                 ("source", PStr "TMDB");
                 ("fetched_at", PFloat fetched_at)]).

Definition _discover (args : dict) : M pyval :=
  let item_type := arg args "type" in
  if negb (py_in2 item_type "movie" "tv") then
    validation_error "type must be 'movie' or 'tv'"
  else
    let genre_names := py_or (arg args "genre") (PList []) in
    let year := arg args "year" in
    let language := py_or (arg args "language") (PStr "en-US") in
    let sort_by := py_or (arg args "sort_by") (PStr "popularity") in
    if negb (py_in2 sort_by "popularity" "vote_average") then
      validation_error "sort_by must be 'popularity' or 'vote_average'"
    else
      let sort_name := match sort_by with PStr s => s | _ => "" end in
      let params : dict :=
        [("language", language);
         ("include_adult", PBool false);
         ("sort_by", PStr (sort_name +:+ ".desc"))] in
      params ← with_year year item_type params;
      let path := if py_eq_str item_type "movie" then "/discover/movie" else "/discover/tv" in
      data ← _tmdb_get path params;
      results ← lift (py_get data "results" (PList []));
      items ← lift (py_iter results);
      mapped ← lift (result_map (λ item, _map_search_item item item_type) items);
      fetched_at ← time_time;
      mret (PDict [("results", PList mapped);
                   ("source", PStr "TMDB");
                   ("fetched_at", PFloat fetched_at)]).

(* ================================================================== *)
(** * MCP tool wiring                                                  *)
(* ================================================================== *)

Record CallToolResult : Type := {
  (** the text of the one [TextContent] *)
  content : json_text;
  isError : bool;
}.

(** the payload of the health check *)
Definition health_payload (configured : bool) (entries : Z) (timestamp : string) : pyval :=
  PDict [("status", PStr "ok");
         ("tmdb_api_key_configured", PBool configured);
         ("cache_entries", PInt entries);
         ("timestamp_utc", PStr timestamp)].

(** the [if name == ... elif ...] chain of the dispatcher *)
Definition dispatch (name : string) (arguments : dict) : M pyval :=
  if String.eqb name "search_title" then _search_title arguments
  else if String.eqb name "get_recommendations" then _get_recommendations arguments
  else if String.eqb name "discover" then _discover arguments
  else raise (TMDBError ("Unknown tool: " +:+ name) "UNKNOWN_TOOL" 400).

(** the [try] block of the dispatcher: the payload it answers with *)
Definition call_tool_body (name : string) (arguments : dict) : M pyval :=
  cached ← _cache_get name arguments;
  payload ←
    match cached with
    | PNone =>
        payload ← dispatch name arguments;
        _cache_set name arguments payload;;
        mret payload
    | _ => mret cached
    end;
  time_time;;
  mret payload.

Definition error_envelope (code message : string) : pyval :=
  PDict [("error", PStr code); ("message", PStr message); ("source", PStr "TMDB")].

Definition internal_error_envelope (message : string) : pyval :=
  PDict [("error", PStr "INTERNAL_ERROR"); ("message", PStr message)].

(** Dispatch tool calls, with logging, caching and error handling. *)
Definition call_tool (name : string) (arguments : dict) : M CallToolResult :=
  if String.eqb name "health" then
    api_key ← get_api_key;
    entries ← cache_len;
    timestamp ← datetime_now_isoformat;
    let payload := health_payload (key_configured api_key) entries timestamp in
    mret {| content := json_dumps false payload; isError := false |}
  else
    time_time;;
    try_except
      (payload ← call_tool_body name arguments;
       mret {| content := json_dumps false payload; isError := false |})
      (λ x,
         match x with
         | TMDBError message code _ =>
             mret {| content := json_dumps false (error_envelope code message);
                     isError := true |}
         | PyError _ message =>
             mret {| content := json_dumps false (internal_error_envelope message);
                     isError := true |}
         end).

(* ================================================================== *)
(** * Notions used by the properties                                   *)
(* ================================================================== *)

Arguments make_key : simpl never.
Arguments float_gt : simpl never.
Arguments float_sub : simpl never.
Arguments float_of_Z : simpl never.

(** the state after one more HTTP attempt *)
Definition after_request (url : string) (params : dict) (s : state) : state :=
  {| _cache := _cache s; ticks := ticks s; sent := S (sent s);
     trace := trace s ++ [EvRequest url params] |}.

(** What an attempt that may be retried raises when it was the last one:
    a network failure, a 429, a status of 500 or more.  [None] for the
    outcomes that end the loop at once. *)
Definition transient (o : attempt_outcome) : option exc :=
  match o with
  | Fails RequestError _ =>
      Some (TMDBError "Network error talking to TMDB" "NETWORK_ERROR" 500)
  | Fails _ _ => None
  | Responds resp =>
      if status_code resp =? 429 then
        Some (TMDBError "TMDB rate limit reached after retries" "RATE_LIMIT" 429)
      else if 500 <=? status_code resp then
        Some (TMDBError "TMDB service unavailable" "UPSTREAM_ERROR" (status_code resp))
      else None
  end.

Definition net_event (ev : event) : Prop :=
  match ev with
  | EvRequest _ _ | EvSleep _ => True
  | _ => False
  end.

(** From [s] to [s'] the cache is left alone: only HTTP attempts, sleeps and
    clock readings happened. *)
Definition net_step (s s' : state) : Prop :=
  _cache s' = _cache s
  ∧ ∃ evs, trace s' = trace s ++ evs ∧ Forall net_event evs
           ∧ (ticks s ≤ ticks s')%nat.

(** the codes a [TMDBError] is raised with *)
Definition classified_codes : list string :=
  ["CONFIG_ERROR"; "VALIDATION_ERROR"; "TITLE_NOT_FOUND"; "NETWORK_ERROR";
   "RATE_LIMIT"; "UPSTREAM_ERROR"; "BAD_REQUEST"; "JSON_ERROR"; "UNKNOWN_TOOL";
   "UNKNOWN_ERROR"].

(** a result that, when it is a [TMDBError], carries one of these codes *)
Definition classified {A} (r : result A) : Prop :=
  match r with
  | Raise (TMDBError _ code _) => code ∈ classified_codes
  | _ => True
  end.

(** a result that is no [TMDBError] *)
Definition unclassified {A} (r : result A) : Prop :=
  match r with
  | Raise (TMDBError _ _ _) => False
  | _ => True
  end.

(** an operation that leaves the cache alone and raises classified errors
    with known codes only *)
Definition tame {A} (m : M A) : Prop :=
  ∀ e s, net_step s (m e s).2 ∧ classified (m e s).1.

(** the state after one more reading of the clock *)
Definition after_tick (s : state) : state :=
  {| _cache := _cache s; ticks := S (ticks s); sent := sent s; trace := trace s |}.

(** the state after [_cache_set]: the entry stamped with the clock reading *)
Definition after_set (key : cache_key) (data : pyval) (e : env) (s : state) : state :=
  {| _cache := <[key := (clock e (ticks s), data)]> (_cache s);
     ticks := S (ticks s); sent := sent s;
     trace := trace s ++ [EvCacheSet key (clock e (ticks s), data)] |}.

Definition success (payload : pyval) : CallToolResult :=
  {| content := json_dumps false payload; isError := false |}.

(** the envelope an exception is answered with *)
Definition envelope_of (x : exc) : pyval :=
  match x with
  | TMDBError message code _ => error_envelope code message
  | PyError _ message => internal_error_envelope message
  end.

Definition failure (x : exc) : CallToolResult :=
  {| content := json_dumps false (envelope_of x); isError := true |}.

(** The ways a call of the dispatcher can go. *)
Inductive call_outcome (name : string) (arguments : dict) (e : env) (s : state)
  : CallToolResult → state → Prop :=
  | call_health :
      name = "health" →
      call_outcome name arguments e s
        (success (health_payload (key_configured (TMDB_API_KEY e))
                    (Z.of_nat (size (_cache s))) (utcnow e (ticks s))))
        (after_tick s)
  | call_hit data s1 :
      name ≠ "health" →
      _cache_get name arguments e (after_tick s) = (Ok data, s1) →
      data ≠ PNone →
      call_outcome name arguments e s (success data) (after_tick s1)
  | call_fresh s1 payload s2 :
      name ≠ "health" →
      _cache_get name arguments e (after_tick s) = (Ok PNone, s1) →
      dispatch name arguments e s1 = (Ok payload, s2) →
      call_outcome name arguments e s (success payload)
        (after_tick (after_set (make_key name arguments) payload e s2))
  | call_failed s1 x s2 :
      name ≠ "health" →
      _cache_get name arguments e (after_tick s) = (Ok PNone, s1) →
      dispatch name arguments e s1 = (Raise x, s2) →
      call_outcome name arguments e s (failure x) s2.

(** the operations that go through the cache *)
Definition data_operations : list string :=
  ["search_title"; "get_recommendations"; "discover"].

(** States of a server that started with an empty cache and has answered
    calls one after the other. *)
Inductive reachable (e : env) : state → Prop :=
  | reachable_initial : reachable e initial_state
  | reachable_call s name arguments :
      reachable e s → dict_wf arguments →
      reachable e (call_tool name arguments e s).2.

Definition cache_write (ev : event) : Prop :=
  match ev with
  | EvCacheSet _ _ => True
  | _ => False
  end.

(** every cached key was derived for one of the data operations *)
Definition cache_names_ok (s : state) : Prop :=
  ∀ key, is_Some (_cache s !! key) → key.1 ∈ data_operations.

(** an operation whose payloads are dictionaries *)
Definition returns_dict (m : M pyval) : Prop :=
  ∀ e s payload s', m e s = (Ok payload, s') → ∃ d, payload = PDict d.

(** ** What the operations accept *)

(** [year] passes the check of search and discover: absent, or an [int] *)
Definition year_ok (year : pyval) : bool :=
  match year with
  | PNone => true
  | _ => isinstance_int year
  end.

(** arguments with which [_search_title] gets as far as the request *)
Definition search_title_accepts (args : dict) : bool :=
  match default (PStr "") (dict_get "query" args) with
  | PStr q =>
      negb (String.eqb (strip q) "")
      && py_in2 (py_or (arg args "type") (PStr "movie")) "movie" "tv"
      && year_ok (arg args "year")
  | _ => false
  end.

Definition get_recommendations_accepts (args : dict) : bool :=
  match py_int (arg args "id") with
  | Ok _ => py_in2 (arg args "type") "movie" "tv"
  | Raise _ => false
  end.

Definition discover_accepts (args : dict) : bool :=
  py_in2 (arg args "type") "movie" "tv"
  && py_in2 (py_or (arg args "sort_by") (PStr "popularity")) "popularity" "vote_average"
  && year_ok (arg args "year").

(** the year filter as the request carries it *)
Definition year_param (item_type year : pyval) : dict :=
  match year with
  | PNone => []
  | _ => [(if py_eq_str item_type "movie" then "primary_release_year"
           else "first_air_date_year", year)]
  end.

(** a response the client takes as a success, with a decoded body *)
Definition answers_with (e : env) (s : state) (body : pyval) : Prop :=
  key_configured (TMDB_API_KEY e) = true
  ∧ ∃ status, net e (sent s) = Responds (Response status (inr body)) ∧ status < 400.

(** the upstream client, called in [s], returns the decoded body [body]
    (after however many attempts) *)
Definition fetch_returns (e : env) (s : state) (body : pyval) : Prop :=
  ∀ path params, (_tmdb_get path params e s).1 = Ok body.

(** the provider returned a result list of length zero *)
Definition no_results (body : pyval) : Prop :=
  ∃ d, body = PDict d ∧ default (PList []) (dict_get "results" d) = PList [].

(** ** Records the normaliser handles *)

(** the date the year is read from: [release_date], else [first_air_date] *)
Definition date_field (item : dict) : pyval :=
  py_or (arg item "release_date") (arg item "first_air_date").

(** the title: [title], else [name], else the empty string *)
Definition title_of (item : dict) : pyval :=
  py_or (arg item "title") (py_or (arg item "name") (PStr "")).

(** A record with an [id] that [int] converts, a date that is falsy or a
    string whose part before the first dash [int] converts, and a
    [vote_average] that is falsy or that [float] converts. *)
Definition normalizable (item : dict) : Prop :=
  (∃ raw n, dict_get "id" item = Some raw ∧ py_int raw = Ok n)
  ∧ (truthy (date_field item) = false
     ∨ ∃ s y, date_field item = PStr s ∧ py_int (PStr (split_first "-" s)) = Ok y)
  ∧ (∃ f, py_float (py_or (arg item "vote_average") (PFloat (S754_zero false))) = Ok f).

(** the events of the retry loop for one request: attempts at [url] with
    [params], and sleeps *)
Definition requests_only (url : string) (params : dict) (evs : list event) : Prop :=
  Forall (λ ev, ev = EvRequest url params ∨ ∃ seconds, ev = EvSleep seconds) evs.

(** the items of a dictionary as [json.dumps] writes them: key and text of
    the value, sorted by key under [sort_keys] *)
Definition dumped_items (sort_keys : bool) (d : dict) : list (string * json_text) :=
  let items := map (λ kv, match kv with (k, x) => (k, json_dumps sort_keys x) end) d in
  if sort_keys then sort_items items else items.

(** what the dispatcher routes to gets as far as the request *)
Definition accepts (name : string) (args : dict) : bool :=
  if String.eqb name "search_title" then search_title_accepts args
  else if String.eqb name "get_recommendations" then get_recommendations_accepts args
  else if String.eqb name "discover" then discover_accepts args
  else false.

(** values the checks of the operations cannot tell apart: equal, or two
    lists, or two dictionaries, both empty or both not *)
Definition same_shape (v v' : pyval) : Prop :=
  match v, v' with
  | PList l, PList l' => l = [] ↔ l' = []
  | PDict d, PDict d' => d = [] ↔ d' = []
  | PList _, _ | PDict _, _ | _, PList _ | _, PDict _ => False
  | _, _ => v = v'
  end.

(** every cached key was derived from arguments the operation accepts *)
Definition cache_keys_accepted (s : state) : Prop :=
  ∀ name text entry,
    _cache s !! (name, text) = Some entry →
    ∀ args, dict_wf args → json_dumps true (PDict args) = text → accepts name args = true.

(** Arguments the validation of an operation turns down: for
    [search_title], a query that is absent or a blank string, or (the query
    being a string) a type that is truthy and is neither movie nor tv, or a
    year that is not [None] and is no [int]; for [get_recommendations], an id
    that [int] refuses with [TypeError] or [ValueError], or (the id being
    good) a type that is neither movie nor tv; for [discover], a type that is
    neither movie nor tv, a [sort_by] that is truthy and is neither popularity
    nor vote_average, or a year that is not [None] and is no [int]. *)
Definition validation_rejects (name : string) (args : dict) : bool :=
  if String.eqb name "search_title" then
    match default (PStr "") (dict_get "query" args) with
    | PStr _ => negb (search_title_accepts args)
    | _ => false
    end
  else if String.eqb name "get_recommendations" then
    match py_int (arg args "id") with
    | Ok _ => negb (py_in2 (arg args "type") "movie" "tv")
    | Raise (PyError TypeError _) | Raise (PyError ValueError _) => true
    | Raise _ => false
    end
  else if String.eqb name "discover" then negb (discover_accepts args)
  else false.

Definition validation_envelope (message : string) : CallToolResult :=
  {| content := json_dumps false (error_envelope "VALIDATION_ERROR" message);
     isError := true |}.

(** the state after a cache lookup that finds a live entry *)
Definition after_get (key : cache_key) (s : state) : state :=
  {| _cache := _cache s; ticks := S (ticks s); sent := sent s;
     trace := trace s ++ [EvCacheGet key] |}.

(** the state after a cache lookup that finds an expired entry *)
Definition after_evict (key : cache_key) (s : state) : state :=
  {| _cache := delete key (_cache s); ticks := S (ticks s); sent := sent s;
     trace := trace s ++ [EvCacheGet key; EvCachePop key] |}.

(** ** Concrete surroundings for the examples *)

(** An environment in which the provider answers every request with one
    film, and the clock stands still. *)
Definition demo_env : env :=
  {| TMDB_API_KEY := Some "k";
     net := λ _, Responds (Response 200 (inr (PDict
              [("results", PList [PDict [("id", PInt 123); ("title", PStr "Inception");
                                         ("release_date", PStr "2010-07-16")]])])));
     clock := λ _, float_of_Z 1700000000;
     utcnow := λ _, "2023-11-14T22:13:20+00:00" |}.

(** An environment in which the provider finds nothing. *)
Definition empty_env : env :=
  {| TMDB_API_KEY := Some "k";
     net := λ _, Responds (Response 200 (inr (PDict [("page", PInt 1);
                                                     ("results", PList [])])));
     clock := λ _, float_of_Z 1700000000;
     utcnow := λ _, "2023-11-14T22:13:20+00:00" |}.

(** A state whose cache holds, for a search, a payload stored at time 0. *)
Definition stale_state : state :=
  {| _cache := {[ make_key "search_title" [("query", PStr "Inception")]
                   := (float_of_Z 0, PDict [("results", PList [])]) ]};
     ticks := 0; sent := 0; trace := [] |}.

(** the stub of the repository's test: one film *)
Definition inception : pyval :=
  PDict [("id", PInt 123); ("title", PStr "Inception"); ("overview", PStr "Dream heist.");
         ("release_date", PStr "2010-07-16");
         ("vote_average", PFloat (S754_finite false 4953959590107546 (-49)));
         ("poster_path", PStr "/poster.jpg")].

Definition test_env : env :=
  {| TMDB_API_KEY := Some "k";
     net := λ _, Responds (Response 200 (inr (PDict [("results", PList [inception])])));
     clock := λ _, float_of_Z 1700000000;
     utcnow := λ _, "2023-11-14T22:13:20+00:00" |}.

(* ================================================================== *)
(** * Further notions: the client in every environment                 *)
(* ================================================================== *)

(** What [_tmdb_get] makes of the attempt it stops at: the error of a
    transient failure (when it was the last attempt allowed), the exception
    of the HTTP client, [BAD_REQUEST] for a status from 400 on, [JSON_ERROR]
    for a body that does not parse, the body otherwise. *)
Definition attempt_result (o : attempt_outcome) : result pyval :=
  match transient o with
  | Some x => Raise x
  | None =>
      match o with
      | Fails cls msg => Raise (PyError cls msg)
      | Responds resp =>
          if 400 <=? status_code resp then
            Raise (TMDBError ("TMDB returned " +:+ str_of_int (status_code resp))
                     "BAD_REQUEST" (status_code resp))
          else
            match json resp with
            | inr body => Ok body
            | inl msg =>
                Raise (TMDBError ("Failed to parse TMDB JSON: " +:+ msg) "JSON_ERROR" 500)
            end
      end
  end.

(** the number of attempts of one fetch started in [s]: it stops at the
    first attempt that is not transient, and at the third anyway *)
Definition attempts_made (e : env) (s : state) : nat :=
  match transient (net e (sent s)) with
  | None => 1
  | Some _ =>
      match transient (net e (S (sent s))) with
      | None => 2
      | Some _ => 3
      end
  end.

(** the events of a fetch of [n] attempts: the requests, with the sleeps of
    1.0 and 2.0 seconds between them *)
Definition retry_events (request : event) (n : nat) : list event :=
  match n with
  | 0%nat => []
  | 1%nat => [request]
  | 2%nat => [request; EvSleep (float_of_Z 1); request]
  | _ => [request; EvSleep (float_of_Z 1); request; EvSleep (float_of_Z 2); request]
  end.

(** the request [_tmdb_get] sends for [path] and [params] *)
Definition request_of (e : env) (path : string) (params : dict) : event :=
  EvRequest (TMDB_BASE_URL +:+ path)
    (dict_set "api_key" (PStr (default "" (TMDB_API_KEY e))) params).

(** the state after a fetch of [n] attempts *)
Definition after_fetch (e : env) (path : string) (params : dict) (n : nat) (s : state)
  : state :=
  {| _cache := _cache s; ticks := ticks s; sent := (sent s + n)%nat;
     trace := trace s ++ retry_events (request_of e path params) n |}.

(** An environment whose first answer is a 503 and whose later ones are the
    film. *)
Definition flaky_env : env :=
  {| TMDB_API_KEY := Some "k";
     net := λ n, match n with
                 | 0%nat => Responds (Response 503 (inl "unavailable"))
                 | _ => Responds (Response 200 (inr (PDict [("results", PList [inception])])))
                 end;
     clock := λ _, float_of_Z 1700000000;
     utcnow := λ _, "2023-11-14T22:13:20+00:00" |}.


(** The path and the parameters (before [api_key] is added) of the request
    an operation builds from arguments it accepts. *)
Definition request_target (name : string) (args : dict) : option (string * dict) :=
  if String.eqb name "search_title" then
    match default (PStr "") (dict_get "query" args) with
    | PStr q =>
        let item_type := py_or (arg args "type") (PStr "movie") in
        Some (if py_eq_str item_type "movie" then "/search/movie" else "/search/tv",
              [("query", PStr (strip q));
               ("language", py_or (arg args "language") (PStr "en-US"));
               ("include_adult", PBool false)]
              ++ year_param item_type (arg args "year"))
    | _ => None
    end
  else if String.eqb name "get_recommendations" then
    match py_int (arg args "id") with
    | Ok media_id =>
        Some (if py_eq_str (arg args "type") "movie"
              then "/movie/" +:+ str_of_int media_id +:+ "/recommendations"
              else "/tv/" +:+ str_of_int media_id +:+ "/recommendations",
              [("language", PStr "en-US")])
    | Raise _ => None
    end
  else if String.eqb name "discover" then
    match py_or (arg args "sort_by") (PStr "popularity") with
    | PStr sort =>
        Some (if py_eq_str (arg args "type") "movie" then "/discover/movie"
              else "/discover/tv",
              [("language", py_or (arg args "language") (PStr "en-US"));
               ("include_adult", PBool false);
               ("sort_by", PStr (sort +:+ ".desc"))]
              ++ year_param (arg args "type") (arg args "year"))
    | _ => None
    end
  else None.

(** [s'] differs from [s] by clock readings only *)
Definition same_but_clock (s s' : state) : Prop :=
  _cache s' = _cache s ∧ sent s' = sent s ∧ trace s' = trace s
  ∧ (ticks s ≤ ticks s')%nat.

(** ** What the operations make of the body *)

(** the type an operation labels its items with: [search_title] defaults
    to movie, the others take the argument as it is *)
Definition item_type_of (name : string) (args : dict) : pyval :=
  if String.eqb name "search_title" then py_or (arg args "type") (PStr "movie")
  else arg args "type".

(** what an operation makes of one item of the provider *)
Definition normalise (name : string) (args : dict) (item : pyval) : result pyval :=
  if String.eqb name "get_recommendations" then recommendation (item_type_of name args) item
  else _map_search_item item (item_type_of name args).

(** the query as [_search_title] sends and reports it *)
Definition query_of (args : dict) : string :=
  match default (PStr "") (dict_get "query" args) with
  | PStr q => strip q
  | _ => ""
  end.

(** What an operation makes of the decoded body: the list under [results]
    (the empty list when the key is missing), which [_search_title] refuses
    when it is falsy, item by item. *)
Definition collect (name : string) (args : dict) (body : pyval) : result (list pyval) :=
  results ← py_get body "results" (PList []);
  if String.eqb name "search_title" && negb (truthy results) then
    Raise (TMDBError ("No results for query '" +:+ query_of args +:+ "'")
             "TITLE_NOT_FOUND" 404)
  else
    items ← py_iter results;
    result_map (normalise name args) items.

(** the payload of a data operation *)
Definition operation_payload (results : list pyval) (fetched_at : spec_float) : pyval :=
  PDict [("results", PList results);
         ("source", PStr "TMDB");
         ("fetched_at", PFloat fetched_at)].

(** the codes [_tmdb_get] gives up with after the last attempt *)
Definition transient_codes : list string :=
  ["NETWORK_ERROR"; "RATE_LIMIT"; "UPSTREAM_ERROR"].

(** ** Values without objects inside *)

(** a scalar, or a list of such values: what the advertised schemas allow
    as an argument *)
Fixpoint flat (v : pyval) : bool :=
  match v with
  | PDict _ => false
  | PList l => forallb flat l
  | _ => true
  end.

(** ** The advertised tools *)

Record Tool : Type := {
  name : string;
  description : string;
  inputSchema : pyval;
}.

(** Advertise the three tools + their JSON schemas to the agent. *)
Definition list_tools : list Tool :=
  [ {| name := "search_title";
       description := "Search for a movie or TV show by title.";
       inputSchema :=
         PDict [("type", PStr "object");
                ("properties",
                 PDict [("query", PDict [("type", PStr "string")]);
                        ("type", PDict [("type", PStr "string");
                                        ("enum", PList [PStr "movie"; PStr "tv"])]);
                        ("year", PDict [("type", PStr "integer")]);
                        ("language", PDict [("type", PStr "string")])]);
                ("required", PList [PStr "query"])] |};
    {| name := "get_recommendations";
       description := "Get TMDB recommendations given a title id and type.";
       inputSchema :=
         PDict [("type", PStr "object");
                ("properties",
                 PDict [("id", PDict [("type", PStr "integer")]);
                        ("type", PDict [("type", PStr "string");
                                        ("enum", PList [PStr "movie"; PStr "tv"])])]);
                ("required", PList [PStr "id"; PStr "type"])] |};
    {| name := "discover";
       description := "Discover movies or TV shows by filters like genre/year/language.";
       inputSchema :=
         PDict [("type", PStr "object");
                ("properties",
                 PDict [("type", PDict [("type", PStr "string");
                                        ("enum", PList [PStr "movie"; PStr "tv"])]);
                        ("genre", PDict [("type", PStr "array");
                                         ("items", PDict [("type", PStr "string")])]);
                        ("year", PDict [("type", PStr "integer")]);
                        ("language", PDict [("type", PStr "string")]);
                        ("sort_by", PDict [("type", PStr "string");
                                           ("enum", PList [PStr "popularity";
                                                           PStr "vote_average"])])]);
                ("required", PList [PStr "type"])] |};
    {| name := "health";
       description := "Checks if the MCP server is running and TMDB key is configured.";
       inputSchema :=
         PDict [("type", PStr "object");
                ("properties", PDict []);
                ("additionalProperties", PBool false)] |} ].

(** the keys a schema lists under [required] *)
Definition required (schema : pyval) : list string :=
  match schema with
  | PDict d =>
      match dict_get "required" d with
      | Some (PList l) => omap (λ v, match v with PStr k => Some k | _ => None end) l
      | _ => []
      end
  | _ => []
  end.

(** the values a schema allows for the property [k], when it lists them
    under [enum] *)
Definition enum_of (schema : pyval) (k : string) : option (list pyval) :=
  match schema with
  | PDict d =>
      match dict_get "properties" d with
      | Some (PDict props) =>
          match dict_get k props with
          | Some (PDict p) =>
              match dict_get "enum" p with
              | Some (PList l) => Some l
              | _ => None
              end
          | _ => None
          end
      | _ => None
      end
  | _ => None
  end.

(** An environment without the credential. *)
Definition unconfigured_env : env :=
  {| TMDB_API_KEY := None;
     net := λ _, Responds (Response 200 (inr (PDict [("results", PList [inception])])));
     clock := λ _, float_of_Z 1700000000;
     utcnow := λ _, "2023-11-14T22:13:20+00:00" |}.

(* ================================================================== *)
(** * The upstream client                                              *)
(* ================================================================== *)

Lemma backoff_doubles_once :
  float_mul INITIAL_BACKOFF_SECONDS (float_of_Z 2) = float_of_Z 2.
Proof. vm_compute. reflexivity. Qed.

(** One turn of the retry loop, by what the attempt observes. *)
Lemma tmdb_attempts_cons attempt rest backoff url params e s :
  tmdb_attempts (attempt :: rest) backoff url params e s =
    let s1 := after_request url params s in
    let retry :=
      tmdb_attempts rest (float_mul backoff (float_of_Z 2)) url params e
        (log (EvSleep backoff) s1) in
    match net e (sent s) with
    | Fails RequestError _ =>
        if attempt =? MAX_RETRIES
        then (Raise (TMDBError "Network error talking to TMDB" "NETWORK_ERROR" 500), s1)
        else retry
    | Fails cls msg => (Raise (PyError cls msg), s1)
    | Responds resp =>
        if status_code resp =? 429 then
          if attempt =? MAX_RETRIES
          then (Raise (TMDBError "TMDB rate limit reached after retries" "RATE_LIMIT" 429), s1)
          else retry
        else if 500 <=? status_code resp then
          if attempt =? MAX_RETRIES
          then (Raise (TMDBError "TMDB service unavailable" "UPSTREAM_ERROR" (status_code resp)), s1)
          else retry
        else if 400 <=? status_code resp then
          (Raise (TMDBError ("TMDB returned " +:+ str_of_int (status_code resp))
                    "BAD_REQUEST" (status_code resp)), s1)
        else
          match json resp with
          | inr body => (Ok body, s1)
          | inl msg => (Raise (TMDBError ("Failed to parse TMDB JSON: " +:+ msg) "JSON_ERROR" 500), s1)
          end
    end.
Proof.
  cbn [tmdb_attempts]. unfold mbind, M_bind, try_except, client_get, after_request.
  destruct (net e (sent s)) as [cls msg|resp].
  - destruct cls; try reflexivity.
    cbn. destruct (attempt =? MAX_RETRIES); reflexivity.
  - cbn. destruct (status_code resp =? 429).
    { destruct (attempt =? MAX_RETRIES); reflexivity. }
    destruct (500 <=? status_code resp).
    { destruct (attempt =? MAX_RETRIES); reflexivity. }
    destruct (400 <=? status_code resp); [reflexivity|].
    destruct (json resp); reflexivity.
Qed.

(** A turn that observes a transient failure: give up on the last attempt,
    otherwise sleep, double the backoff and go on. *)
Lemma tmdb_attempts_transient attempt rest backoff url params e s x :
  transient (net e (sent s)) = Some x →
  tmdb_attempts (attempt :: rest) backoff url params e s =
    if attempt =? MAX_RETRIES then (Raise x, after_request url params s)
    else tmdb_attempts rest (float_mul backoff (float_of_Z 2)) url params e
           (log (EvSleep backoff) (after_request url params s)).
Proof.
  intros Hx. rewrite tmdb_attempts_cons. cbn zeta. unfold transient in Hx.
  destruct (net e (sent s)) as [cls msg|resp].
  - destruct cls; try discriminate. by inv Hx.
  - destruct (status_code resp =? 429); [by inv Hx|].
    destruct (500 <=? status_code resp); [by inv Hx|discriminate].
Qed.

(** C1.  With the credential configured: when each of the three attempts
    observes HTTP 429, the client makes exactly three attempts, sleeping 1.0
    then 2.0 between them, and fails with [RATE_LIMIT]; when the first attempt
    observes a 4xx status other than 429, it fails at once with [BAD_REQUEST]
    after that single attempt.  More generally, three transient failures in a
    row (network failure, 429 or 5xx, in any mix) end after the third attempt
    with the error of that last attempt. *)
Theorem tmdb_get_retry_budget (e : env) (s : state) (path : string) (params : dict) :
  key_configured (TMDB_API_KEY e) = true →
  let url := TMDB_BASE_URL +:+ path in
  let sent_params := dict_set "api_key" (PStr (default "" (TMDB_API_KEY e))) params in
  let exhausted :=
    {| _cache := _cache s; ticks := ticks s; sent := (sent s + 3)%nat;
       trace := trace s ++ [EvRequest url sent_params; EvSleep (float_of_Z 1);
                            EvRequest url sent_params; EvSleep (float_of_Z 2);
                            EvRequest url sent_params] |} in
  ((∀ i, (i < 3)%nat → ∃ body, net e (sent s + i)%nat = Responds (Response 429 body)) →
   _tmdb_get path params e s =
     (Raise (TMDBError "TMDB rate limit reached after retries" "RATE_LIMIT" 429), exhausted))
  ∧
  (∀ status body,
     net e (sent s) = Responds (Response status body) →
     400 ≤ status < 500 → status ≠ 429 →
     _tmdb_get path params e s =
       (Raise (TMDBError ("TMDB returned " +:+ str_of_int status) "BAD_REQUEST" status),
        {| _cache := _cache s; ticks := ticks s; sent := S (sent s);
           trace := trace s ++ [EvRequest url sent_params] |}))
  ∧
  (∀ x,
     is_Some (transient (net e (sent s))) →
     is_Some (transient (net e (sent s + 1)%nat)) →
     transient (net e (sent s + 2)%nat) = Some x →
     _tmdb_get path params e s = (Raise x, exhausted)).
Proof.
  intros Hkey url sent_params exhausted.
  assert (Hrun : _tmdb_get path params e s =
            tmdb_attempts [1; 2; 3] INITIAL_BACKOFF_SECONDS url sent_params e s).
  { unfold _tmdb_get, mbind, M_bind, get_api_key. rewrite Hkey. reflexivity. }
  rewrite Hrun. clear Hrun.
  assert (Hthree : ∀ x,
            is_Some (transient (net e (sent s))) →
            is_Some (transient (net e (sent s + 1)%nat)) →
            transient (net e (sent s + 2)%nat) = Some x →
            tmdb_attempts [1; 2; 3] INITIAL_BACKOFF_SECONDS url sent_params e s
              = (Raise x, exhausted)).
  { intros x [x0 H0] [x1 H1] H2.
    replace (sent s + 1)%nat with (S (sent s)) in H1 by lia.
    replace (sent s + 2)%nat with (S (S (sent s))) in H2 by lia.
    rewrite (tmdb_attempts_transient _ _ _ _ _ _ _ x0) by exact H0.
    cbn [Z.eqb Pos.eqb MAX_RETRIES].
    rewrite (tmdb_attempts_transient _ _ _ _ _ _ _ x1) by exact H1.
    cbn [Z.eqb Pos.eqb MAX_RETRIES].
    rewrite (tmdb_attempts_transient _ _ _ _ _ _ _ x) by exact H2.
    cbn [Z.eqb Pos.eqb MAX_RETRIES].
    rewrite backoff_doubles_once. unfold exhausted, after_request, log. cbn.
    f_equal. f_equal; [lia|].
    rewrite <- !app_assoc. reflexivity. }
  split; [|split].
  - intros H429.
    destruct (H429 0%nat) as [b0 H0]; [lia|].
    destruct (H429 1%nat) as [b1 H1]; [lia|].
    destruct (H429 2%nat) as [b2 H2]; [lia|].
    rewrite Nat.add_0_r in H0.
    apply Hthree; rewrite ?H0, ?H1, ?H2; by eexists || done.
  - intros status body Hnet Hrange Hne.
    rewrite tmdb_attempts_cons, Hnet. cbn -[float_mul float_of_Z tmdb_attempts str_of_int].
    destruct (Z.eqb_spec status 429) as [->|_]; [done|].
    destruct (Z.leb_spec 500 status); [lia|].
    destruct (Z.leb_spec 400 status); [|lia].
    reflexivity.
  - exact Hthree.
Qed.

Lemma tmdb_get_retry_budget_witness :
  let e := {| TMDB_API_KEY := Some "k";
              net := λ _, Responds (Response 429 (inl "rate limited"));
              clock := λ _, float_of_Z 0; utcnow := λ _, "" |} in
  let e' := {| TMDB_API_KEY := Some "k";
              net := λ _, Responds (Response 404 (inl "not found"));
              clock := λ _, float_of_Z 0; utcnow := λ _, "" |} in
  (_tmdb_get "/search/movie" [("query", PStr "x")] e initial_state).1 =
    Raise (TMDBError "TMDB rate limit reached after retries" "RATE_LIMIT" 429)
  ∧ sent (_tmdb_get "/search/movie" [("query", PStr "x")] e initial_state).2 = 3%nat
  ∧ (_tmdb_get "/search/movie" [("query", PStr "x")] e' initial_state).1 =
    Raise (TMDBError "TMDB returned 404" "BAD_REQUEST" 404)
  ∧ sent (_tmdb_get "/search/movie" [("query", PStr "x")] e' initial_state).2 = 1%nat.
Proof.
  intros e e'.
  assert (H429 : ∀ i, (i < 3)%nat →
            ∃ body, net e (sent initial_state + i)%nat = Responds (Response 429 body)).
  { intros i _. by eexists. }
  rewrite (proj1 (tmdb_get_retry_budget e initial_state "/search/movie"
                    [("query", PStr "x")] eq_refl) H429).
  rewrite (proj1 (proj2 (tmdb_get_retry_budget e' initial_state "/search/movie"
                           [("query", PStr "x")] eq_refl))
             404 (inl "not found") eq_refl); [|lia|lia].
  repeat split.
Defined.

(* ================================================================== *)
(** * What the operations may do to the state                          *)
(* ================================================================== *)

(** Only clock readings, HTTP attempts and sleeps separate [s'] from [s]. *)
Lemma net_step_refl s : net_step s s.
Proof.
  split; [done|]. exists []. split; [by rewrite app_nil_r|]. split; [constructor|lia].
Qed.

Lemma net_step_trans s1 s2 s3 : net_step s1 s2 → net_step s2 s3 → net_step s1 s3.
Proof.
  intros (Hc1 & evs1 & Ht1 & Hf1 & ?) (Hc2 & evs2 & Ht2 & Hf2 & ?).
  split; [congruence|]. exists (evs1 ++ evs2).
  split; [by rewrite Ht2, Ht1, app_assoc|].
  split; [by apply Forall_app|lia].
Qed.

Ltac known_code := cbn; apply list_elem_of_In; cbn; tauto.

Lemma tame_ret {A} (a : A) : tame (mret a).
Proof. intros e s. split; [apply net_step_refl|done]. Qed.

Lemma tame_raise_py {A} cls msg : tame (@raise A (PyError cls msg)).
Proof. intros e s. split; [apply net_step_refl|done]. Qed.

Lemma tame_raise_tmdb {A} msg code status :
  code ∈ classified_codes → tame (@raise A (TMDBError msg code status)).
Proof. intros Hc e s. split; [apply net_step_refl|done]. Qed.

Lemma tame_validation_error {A} msg : tame (@validation_error A msg).
Proof. apply tame_raise_tmdb. known_code. Qed.

Lemma tame_lift {A} (r : result A) : unclassified r → tame (lift r).
Proof. intros Hr e s. split; [apply net_step_refl|]. by destruct r as [|[]]. Qed.

Lemma tame_bind {A B} (m : M A) (f : A → M B) :
  tame m → (∀ a, tame (f a)) → tame (m ≫= f).
Proof.
  intros Hm Hf e s. specialize (Hm e s).
  unfold mbind, M_bind. destruct (m e s) as [[a|x] s1]; [|done].
  destruct Hm as [Hs1 _]. specialize (Hf a e s1).
  destruct (f a e s1) as [r s2]. cbn in *.
  destruct Hf as [Hs2 Hr]. split; [by eapply net_step_trans|done].
Qed.

Lemma tame_time_time : tame time_time.
Proof.
  intros e s. split; [|done]. split; [done|]. exists [].
  split; [by rewrite app_nil_r|]. split; [constructor|cbn; lia].
Qed.

Lemma tame_asyncio_sleep d : tame (asyncio_sleep d).
Proof.
  intros e s. split; [|done]. split; [done|]. exists [EvSleep d].
  split; [done|]. split; [by repeat constructor|cbn; lia].
Qed.

Lemma tame_get_api_key : tame get_api_key.
Proof. intros e s. split; [apply net_step_refl|done]. Qed.

Lemma net_step_after_request url params s : net_step s (after_request url params s).
Proof.
  split; [done|]. exists [EvRequest url params].
  split; [done|]. split; [by repeat constructor|cbn; lia].
Qed.

Lemma tame_tmdb_attempts attempts backoff url params :
  tame (tmdb_attempts attempts backoff url params).
Proof.
  revert backoff. induction attempts as [|attempt rest IH]; intros backoff e s.
  { split; [apply net_step_refl|]. known_code. }
  rewrite tmdb_attempts_cons. cbn zeta.
  pose proof (net_step_after_request url params s) as H1.
  assert (Hretry : net_step s (log (EvSleep backoff) (after_request url params s))).
  { eapply net_step_trans; [exact H1|].
    apply (tame_asyncio_sleep backoff e (after_request url params s)). }
  specialize (IH (float_mul backoff (float_of_Z 2)) e
                (log (EvSleep backoff) (after_request url params s))).
  assert (Hgo : net_step s
            (tmdb_attempts rest (float_mul backoff (float_of_Z 2)) url params e
               (log (EvSleep backoff) (after_request url params s))).2
          ∧ classified (tmdb_attempts rest (float_mul backoff (float_of_Z 2)) url params e
               (log (EvSleep backoff) (after_request url params s))).1).
  { destruct IH as [IH1 IH2]. split; [by eapply net_step_trans|done]. }
  clear IH.
  destruct (net e (sent s)) as [cls msg|resp].
  - destruct cls; try (split; [exact H1|done]).
    destruct (attempt =? MAX_RETRIES); [|exact Hgo].
    split; [exact H1|]. known_code.
  - destruct (status_code resp =? 429).
    { destruct (attempt =? MAX_RETRIES); [|exact Hgo].
      split; [exact H1|]. known_code. }
    destruct (500 <=? status_code resp).
    { destruct (attempt =? MAX_RETRIES); [|exact Hgo].
      split; [exact H1|]. known_code. }
    destruct (400 <=? status_code resp).
    { split; [exact H1|]. known_code. }
    destruct (json resp); (split; [exact H1|]); [known_code|done].
Qed.

Lemma tame_tmdb_get path params : tame (_tmdb_get path params).
Proof.
  unfold _tmdb_get. apply tame_bind; [apply tame_get_api_key|]. intros k.
  destruct (negb (key_configured k)).
  - apply tame_raise_tmdb. known_code.
  - apply tame_tmdb_attempts.
Qed.

(** ** The pure helpers raise built-in exceptions only *)

Lemma unclassified_bind {A B} (r : result A) (f : A → result B) :
  unclassified r → (∀ a, unclassified (f a)) → unclassified (r ≫= f).
Proof. destruct r as [a|[]]; cbn; auto. Qed.

Lemma unclassified_fmap {A B} (g : A → B) (r : result A) :
  unclassified r → unclassified (g <$> r).
Proof. by destruct r as [a|[]]. Qed.

Lemma unclassified_no_attribute {A} v attr : unclassified (@no_attribute A v attr).
Proof. done. Qed.

Lemma unclassified_py_get obj k dflt : unclassified (py_get obj k dflt).
Proof. by destruct obj. Qed.

Lemma unclassified_py_getitem obj k : unclassified (py_getitem obj k).
Proof. destruct obj; try done. cbn. by destruct (dict_get k d). Qed.

Lemma unclassified_py_int v : unclassified (py_int v).
Proof.
  destruct v as [| | |f|s| |]; try done.
  - by destruct f.
  - cbn. destruct (exceeds_digit_limit s); [done|]. by destruct (parse_int s).
Qed.

Lemma unclassified_float_of_int z : unclassified (float_of_int z).
Proof. unfold float_of_int. by destruct (float_is_finite _). Qed.

Lemma unclassified_py_float v : unclassified (py_float v).
Proof.
  destruct v as [| |z| |s| |]; try done.
  - apply unclassified_float_of_int.
  - cbn. by destruct (parse_float s).
Qed.

Lemma unclassified_py_format_1f v : unclassified (py_format_1f v).
Proof.
  destruct v as [| |z| | | |]; try done.
  apply unclassified_fmap, unclassified_float_of_int.
Qed.

Lemma unclassified_py_iter v : unclassified (py_iter v).
Proof. by destruct v. Qed.

Lemma unclassified_py_strip v : unclassified (py_strip v).
Proof. by destruct v. Qed.

Lemma unclassified_result_map {A B} (f : A → result B) l :
  (∀ a, unclassified (f a)) → unclassified (result_map f l).
Proof.
  intros Hf. induction l as [|x l IH]; [done|]. cbn [result_map].
  apply unclassified_bind; [apply Hf|]. intros y.
  apply unclassified_bind; [apply IH|]. done.
Qed.

Create HintDb builtins.

#[local] Hint Resolve unclassified_py_get unclassified_py_getitem unclassified_py_int
  unclassified_py_float unclassified_py_format_1f unclassified_py_iter
  unclassified_py_strip unclassified_no_attribute : builtins.

Ltac pure_steps :=
  repeat first
    [ apply unclassified_bind; [|intros ?]
    | apply unclassified_fmap
    | solve [unfold get_none; auto with builtins]
    | match goal with |- unclassified (if ?b then _ else _) => destruct b end
    | match goal with |- unclassified (match ?v with _ => _ end) => destruct v end
    | exact I ].

Lemma unclassified_map_search_item item item_type :
  unclassified (_map_search_item item item_type).
Proof. unfold _map_search_item. pure_steps. Qed.

Lemma unclassified_recommendation item_type item :
  unclassified (recommendation item_type item).
Proof.
  unfold recommendation.
  apply unclassified_bind; [apply unclassified_map_search_item|]. intros base.
  pure_steps.
Qed.

(** ** The three operations and the routing are tame *)

Lemma tame_with_year year item_type params : tame (with_year year item_type params).
Proof.
  unfold with_year.
  destruct year; try apply tame_ret;
    destruct (negb (isinstance_int _)); try apply tame_validation_error;
    destruct (py_eq_str item_type "movie"); apply tame_ret.
Qed.

Ltac tame_steps :=
  repeat first
    [ apply tame_ret
    | apply tame_validation_error
    | apply tame_time_time
    | apply tame_tmdb_get
    | apply tame_with_year
    | apply tame_raise_py
    | apply tame_raise_tmdb; known_code
    | apply tame_lift;
      first [ apply unclassified_result_map; intros ?;
              first [apply unclassified_map_search_item | apply unclassified_recommendation]
            | solve [auto with builtins] ]
    | apply tame_bind; [|intros ?]
    | match goal with |- tame (if ?b then _ else _) => destruct b end ].

Lemma tame_search_title args : tame (_search_title args).
Proof. unfold _search_title. tame_steps. Qed.

Lemma tame_get_recommendations args : tame (_get_recommendations args).
Proof.
  unfold _get_recommendations.
  apply tame_bind.
  { pose proof (unclassified_py_int (arg args "id")) as Hu.
    destruct (py_int (arg args "id")) as [z|[|cls msg]]; [apply tame_ret|done|].
    destruct cls; first [apply tame_validation_error | apply tame_raise_py]. }
  intros media_id. tame_steps.
Qed.

Lemma tame_discover args : tame (_discover args).
Proof. unfold _discover. cbn zeta. tame_steps. Qed.

Lemma tame_dispatch name args : tame (dispatch name args).
Proof.
  unfold dispatch.
  destruct (String.eqb name "search_title"); [apply tame_search_title|].
  destruct (String.eqb name "get_recommendations"); [apply tame_get_recommendations|].
  destruct (String.eqb name "discover"); [apply tame_discover|].
  apply tame_raise_tmdb. known_code.
Qed.

(* ================================================================== *)
(** * The response cache                                               *)
(* ================================================================== *)

(** ** Key derivation *)

#[local] Instance item_le_trans {A} : Transitive (@item_le A).
Proof. intros a b c. unfold item_le. apply transitivity. Qed.

#[local] Instance item_le_total {A} : Total (@item_le A).
Proof. intros a b. unfold item_le. apply total, _. Qed.

Lemma NoDup_fst_unique {A} (l : list (string * A)) k v1 v2 :
  NoDup l.*1 → (k, v1) ∈ l → (k, v2) ∈ l → v1 = v2.
Proof.
  induction l as [|[k' v'] l IH]; intros Hnd H1 H2; [by inv H1|].
  apply NoDup_cons in Hnd as [Hnotin Hnd].
  apply elem_of_cons in H1 as [H1|H1]; apply elem_of_cons in H2 as [H2|H2].
  - congruence.
  - inv H1. destruct Hnotin. apply list_elem_of_fmap. by exists (k', v2).
  - inv H2. destruct Hnotin. apply list_elem_of_fmap. by exists (k', v1).
  - by apply IH.
Qed.

Lemma sort_items_perm {A} (l1 l2 : list (string * A)) :
  NoDup l1.*1 → l1 ≡ₚ l2 → sort_items l1 = sort_items l2.
Proof.
  intros Hnd Hperm. unfold sort_items.
  apply (StronglySorted_unique_strong item_le).
  - intros [k1 v1] [k2 v2] H1 H2 Hle1 Hle2.
    unfold item_le in *. cbn in *.
    assert (k1 = k2) as -> by (by apply (anti_symm String.le)).
    rewrite merge_sort_Permutation in H1.
    rewrite merge_sort_Permutation, <- Hperm in H2.
    f_equal. by eapply NoDup_fst_unique.
  - apply StronglySorted_merge_sort; apply _.
  - apply StronglySorted_merge_sort; apply _.
  - by rewrite !merge_sort_Permutation.
Qed.

Lemma make_key_permutation tool_name (args1 args2 : dict) :
  dict_wf args1 → args1 ≡ₚ args2 → make_key tool_name args1 = make_key tool_name args2.
Proof.
  intros Hwf Hperm. unfold make_key. f_equal. cbn [json_dumps].
  do 4 f_equal. apply sort_items_perm.
  - unfold dict_wf in Hwf. change map with (@fmap list _). rewrite <- list_fmap_compose.
    erewrite list_fmap_ext; [exact Hwf|]. by intros ? [k v].
  - by apply Permutation_map.
Qed.

(** ** Reads and writes *)


Lemma cache_get_absent tool_name args e s :
  _cache s !! make_key tool_name args = None →
  _cache_get tool_name args e s = (Ok PNone, log (EvCacheGet (make_key tool_name args)) s).
Proof.
  intros Hm. unfold _cache_get, mbind, M_bind, cache_lookup. by rewrite Hm.
Qed.

Lemma cache_get_present tool_name args e s ts data :
  _cache s !! make_key tool_name args = Some (ts, data) →
  _cache_get tool_name args e s =
    if float_gt (float_sub (clock e (ticks s)) ts) (float_of_Z CACHE_TTL_SECONDS)
    then (Ok PNone, after_evict (make_key tool_name args) s)
    else (Ok data, after_get (make_key tool_name args) s).
Proof.
  intros Hm. unfold _cache_get, mbind, M_bind, cache_lookup. rewrite Hm.
  cbn -[float_gt float_sub float_of_Z make_key].
  destruct (float_gt _ _); cbn -[make_key]; [|reflexivity].
  unfold after_evict. by rewrite <- app_assoc.
Qed.

Lemma cache_set_run tool_name args data e s :
  _cache_set tool_name args data e s =
    (Ok tt,
     {| _cache := <[make_key tool_name args := (clock e (ticks s), data)]> (_cache s);
        ticks := S (ticks s); sent := sent s;
        trace := trace s ++ [EvCacheSet (make_key tool_name args) (clock e (ticks s), data)] |}).
Proof. reflexivity. Qed.

(* ================================================================== *)
(** * The serialised text determines the value                         *)
(* ================================================================== *)

(** Induction on values, with the elements of lists and dictionaries. *)
Lemma pyval_nested_ind (P : pyval → Prop) :
  P PNone →
  (∀ b, P (PBool b)) →
  (∀ z, P (PInt z)) →
  (∀ f, P (PFloat f)) →
  (∀ s, P (PStr s)) →
  (∀ l, Forall P l → P (PList l)) →
  (∀ d, Forall (λ kv, P kv.2) d → P (PDict d)) →
  ∀ v, P v.
Proof.
  intros HNone HBool HInt HFloat HStr HList HDict.
  fix IH 1. intros [| b | z | f | s | l | d].
  - exact HNone.
  - apply HBool.
  - apply HInt.
  - apply HFloat.
  - apply HStr.
  - apply HList. induction l as [|x l IHl]; constructor; [apply IH|exact IHl].
  - apply HDict. induction d as [|[k x] d IHd]; constructor; [apply IH|exact IHd].
Qed.

(** the tokens a value can start with *)
Definition value_start (t : json_token) : Prop :=
  match t with
  | TRBrace | TRBrack | TComma | TColon => False
  | _ => True
  end.

Lemma json_dumps_head sort_keys v :
  ∃ t ts, json_dumps sort_keys v = t :: ts ∧ value_start t.
Proof. destruct v as [|[]| | | | |]; cbn; by eexists _, _. Qed.

Ltac mem :=
  repeat first
    [ progress rewrite elem_of_app
    | progress rewrite elem_of_cons
    | match goal with
      | H : _ |- _ => first [rewrite elem_of_app in H | rewrite elem_of_cons in H]
      end ];
  tauto.

(** Elements rendered with commas between them and closed by [close] can be
    read back one by one. *)
Lemma comma_sep_inj {X} (render : X → json_text) (close : json_token)
    (xs xs' : list X) (r r' : json_text) :
  close ≠ TComma →
  (∀ x, x ∈ xs ++ xs' → ∃ t ts, render x = t :: ts ∧ t ≠ close) →
  (∀ x x' q q', x ∈ xs → x' ∈ xs' →
     render x ++ q = render x' ++ q' → x = x' ∧ q = q') →
  comma_sep (render <$> xs) ++ close :: r = comma_sep (render <$> xs') ++ close :: r' →
  xs = xs' ∧ r = r'.
Proof.
  intros Hclose. revert xs'.
  induction xs as [|x xs IH]; intros xs' Hhead Hinj Heq.
  - destruct xs' as [|x' xs']; cbn in Heq.
    + by inv Heq.
    + destruct (Hhead x') as (t & ts & Hx' & Ht); [mem|].
      destruct xs'; cbn in Heq; rewrite Hx' in Heq; cbn in Heq; by inv Heq.
  - destruct xs' as [|x' xs'].
    + destruct (Hhead x) as (t & ts & Hx & Ht); [mem|].
      destruct xs; cbn in Heq; rewrite Hx in Heq; cbn in Heq; by inv Heq.
    + assert (Hstep : ∀ (ys : list X), comma_sep (render <$> x :: ys)
               = render x ++ match ys with [] => [] | _ => TComma :: comma_sep (render <$> ys) end).
      { intros [|y ys]; cbn; [by rewrite app_nil_r|done]. }
      assert (Hstep' : ∀ (ys : list X), comma_sep (render <$> x' :: ys)
               = render x' ++ match ys with [] => [] | _ => TComma :: comma_sep (render <$> ys) end).
      { intros [|y ys]; cbn; [by rewrite app_nil_r|done]. }
      rewrite Hstep, Hstep', <- !app_assoc in Heq.
      apply Hinj in Heq as [-> Heq]; [|mem..].
      destruct xs as [|y ys], xs' as [|y' ys']; cbn in Heq.
      * by inv Heq.
      * by inv Heq.
      * by inv Heq.
      * inv Heq. 
        destruct (IH (y' :: ys')) as [Hxs Hr].
        -- intros z Hz. apply Hhead. mem.
        -- intros z z' q q' Hz Hz'. apply Hinj; mem.
        -- done.
        -- by rewrite Hxs.
Qed.

Lemma json_dumps_dict sort_keys d :
  json_dumps sort_keys (PDict d)
    = TLBrace :: comma_sep (item_text <$> dumped_items sort_keys d) ++ [TRBrace].
Proof. reflexivity. Qed.

Lemma json_dumps_list sort_keys l :
  json_dumps sort_keys (PList l)
    = TLBrack :: comma_sep (id <$> (json_dumps sort_keys <$> l)) ++ [TRBrack].
Proof. cbn [json_dumps]. by rewrite list_fmap_id. Qed.

Lemma dumped_items_elem sort_keys d k t :
  (k, t) ∈ dumped_items sort_keys d ↔ ∃ v, (k, v) ∈ d ∧ t = json_dumps sort_keys v.
Proof.
  unfold dumped_items.
  assert (Hmap : (k, t) ∈ map (λ kv : string * pyval,
                      match kv with (k0, x) => (k0, json_dumps sort_keys x) end) d
                 ↔ ∃ v, (k, v) ∈ d ∧ t = json_dumps sort_keys v).
  { change map with (@fmap list _). rewrite list_elem_of_fmap. split.
    - intros ([k0 v] & Heq & Hin). inv Heq. by exists v.
    - intros (v & Hin & ->). by exists (k, v). }
  destruct sort_keys; [|exact Hmap].
  unfold sort_items. by rewrite merge_sort_Permutation.
Qed.

(** The text of a value ends where it ends: what follows it in a longer text
    is determined. *)
Lemma json_dumps_self_delimiting sort_keys v :
  ∀ v' r r',
    json_dumps sort_keys v ++ r = json_dumps sort_keys v' ++ r' →
    json_dumps sort_keys v = json_dumps sort_keys v' ∧ r = r'.
Proof.
  induction v as [|b|z|f|s|l IH|d IH] using pyval_nested_ind; intros v' r r' Heq.
  1-5: destruct v' as [|b'| | | | |]; try destruct b; try destruct b';
       cbn in Heq; by inv Heq.
  - destruct v' as [|[]| | | |l'|]; try (cbn in Heq; by inv Heq).
    rewrite !json_dumps_list in Heq |- *. cbn in Heq. inv Heq.
    rewrite <- !app_assoc in H0. cbn in H0.
    apply comma_sep_inj in H0 as [Hl Hr]; [by rewrite Hl|done| |].
    + intros x Hx. apply elem_of_app in Hx as [Hx|Hx];
        apply list_elem_of_fmap in Hx as (v0 & -> & _);
        destruct (json_dumps_head sort_keys v0) as (t & ts & -> & Ht);
        exists t, ts; (split; [done|]); by intros ->.
    + intros x x' q q' Hx Hx' Hq.
      apply list_elem_of_fmap in Hx as (v0 & -> & Hv0).
      apply list_elem_of_fmap in Hx' as (v0' & -> & _).
      rewrite Forall_forall in IH. by apply (IH v0 Hv0 v0').
  - destruct v' as [|[]| | | | |d']; try (cbn in Heq; by inv Heq).
    rewrite !json_dumps_dict in Heq |- *. cbn in Heq. inv Heq.
    rewrite <- !app_assoc in H0. cbn in H0.
    apply comma_sep_inj in H0 as [Hl Hr]; [by rewrite Hl|done| |].
    + intros [k t] _. by exists (TStr k), (TColon :: t).
    + intros [k t] [k' t'] q q' Hx Hx' Hq.
      apply dumped_items_elem in Hx as (v0 & Hv0 & ->).
      apply dumped_items_elem in Hx' as (v0' & _ & ->).
      unfold item_text in Hq. cbn in Hq. inv Hq.
      rewrite Forall_forall in IH.
      destruct (IH (k', v0) Hv0 v0' q q') as [E1 E2]; [done|].
      cbn in E1. by rewrite E1, E2.
Qed.

(** With keys sorted, equal texts mean the same keys, each with a value of
    the same text. *)
Lemma key_text_lookup (a b : dict) k :
  dict_wf a → dict_wf b →
  json_dumps true (PDict a) = json_dumps true (PDict b) →
  json_dumps true <$> dict_get k a = json_dumps true <$> dict_get k b.
Proof.
  intros Ha Hb Heq. rewrite !json_dumps_dict in Heq. inv Heq.
  assert (Hitems : dumped_items true a = dumped_items true b).
  { assert (H1 : comma_sep (item_text <$> dumped_items true a) ++ TRBrace :: []
                 = comma_sep (item_text <$> dumped_items true b) ++ TRBrace :: []) by done.
    apply comma_sep_inj in H1 as [Hl _]; [done|done| |].
    - intros [k0 t] _. by exists (TStr k0), (TColon :: t).
    - intros [k0 t] [k0' t'] q q' Hx Hx' Hq.
      apply dumped_items_elem in Hx as (v0 & Hv0 & ->).
      apply dumped_items_elem in Hx' as (v0' & _ & ->).
      unfold item_text in Hq. cbn in Hq. inv Hq.
      by destruct (json_dumps_self_delimiting true v0 v0' q q') as [-> ->]. }
  clear H0.
  assert (Hget : ∀ (d : dict) v, dict_wf d →
            dict_get k d = Some v ↔ (k, v) ∈ d).
  { intros d v Hd. induction d as [|[k0 v0] d IHd]; cbn.
    - split; [done|]. intros H. by apply elem_of_nil in H.
    - apply NoDup_cons in Hd as [Hnotin Hd].
      destruct (String.eqb_spec k k0) as [->|Hne].
      + split.
        * intros [= ->]. by left.
        * intros Hin. apply elem_of_cons in Hin as [[= ->]|Hin]; [done|].
          destruct Hnotin. apply list_elem_of_fmap. by exists (k0, v).
      + rewrite IHd by done. split.
        * intros Hin. by right.
        * intros Hin. apply elem_of_cons in Hin as [[= -> ->]|Hin]; done. }
  assert (Hdir : ∀ (d d' : dict), dict_wf d → dict_wf d' →
            dumped_items true d = dumped_items true d' →
            ∀ v, dict_get k d = Some v →
                 ∃ v', dict_get k d' = Some v' ∧ json_dumps true v' = json_dumps true v).
  { intros d d' Hd Hd' Hsame v Hv. apply Hget in Hv; [|done].
    assert (Hin : (k, json_dumps true v) ∈ dumped_items true d).
    { apply dumped_items_elem. by exists v. }
    rewrite Hsame in Hin. apply dumped_items_elem in Hin as (v' & Hv' & Htext).
    exists v'. split; [by apply Hget|done]. }
  destruct (dict_get k a) as [va|] eqn:Hka.
  - destruct (Hdir a b Ha Hb Hitems va Hka) as (vb & -> & Htext). cbn. by rewrite Htext.
  - destruct (dict_get k b) as [vb|] eqn:Hkb; [|done].
    destruct (Hdir b a Hb Ha (eq_sym Hitems) vb Hkb) as (va & Hva & _). congruence.
Qed.

Lemma dumped_items_nil sort_keys d : dumped_items sort_keys d = [] → d = [].
Proof.
  intros H. destruct d as [|[k v] d]; [done|].
  assert (Hin : (k, json_dumps sort_keys v) ∈ dumped_items sort_keys ((k, v) :: d)).
  { apply dumped_items_elem. exists v. split; [by left|done]. }
  rewrite H in Hin. by apply elem_of_nil in Hin.
Qed.

Lemma json_dumps_same_shape v v' :
  json_dumps true v = json_dumps true v' → same_shape v v'.
Proof.
  intros Heq.
  destruct v as [|b| | | |l|d], v' as [|b'| | | |l'|d'];
    try destruct b; try destruct b'; try (cbn in Heq; by inv Heq).
  - cbn [same_shape]. destruct l as [|x l], l' as [|x' l']; try done.
    + exfalso. cbn in Heq. destruct (json_dumps_head true x') as (t & ts & Hx & Ht).
      destruct l'; cbn in Heq; rewrite Hx in Heq; cbn in Heq; inv Heq; done.
    + exfalso. cbn in Heq. destruct (json_dumps_head true x) as (t & ts & Hx & Ht).
      destruct l; cbn in Heq; rewrite Hx in Heq; cbn in Heq; inv Heq; done.
  - cbn [same_shape]. rewrite !json_dumps_dict in Heq.
    destruct (dumped_items true d) as [|[k t] its] eqn:Hd;
      destruct (dumped_items true d') as [|[k' t'] its'] eqn:Hd'.
    + apply dumped_items_nil in Hd, Hd'. by subst.
    + exfalso. destruct its'; cbn in Heq; inv Heq.
    + exfalso. destruct its; cbn in Heq; inv Heq.
    + split; intros ->; cbn in Hd, Hd'; discriminate.
Qed.

(** ** The checks of the operations see the shape only *)

Lemma same_shape_truthy v v' : same_shape v v' → truthy v = truthy v'.
Proof.
  intros H.
  destruct v as [| | | | |l|d], v' as [| | | | |l'|d']; cbn in H |- *;
    try done; try (by inv H).
  - destruct l, l'; try done; destruct H as [H1 H2];
      [by specialize (H1 eq_refl)|by specialize (H2 eq_refl)].
  - destruct d, d'; try done; destruct H as [H1 H2];
      [by specialize (H1 eq_refl)|by specialize (H2 eq_refl)].
Qed.

Lemma same_shape_eq_str v v' s : same_shape v v' → py_eq_str v s = py_eq_str v' s.
Proof. intros H. destruct v, v'; cbn in H |- *; try done; by inv H. Qed.

Lemma same_shape_in2 v v' s1 s2 : same_shape v v' → py_in2 v s1 s2 = py_in2 v' s1 s2.
Proof. intros H. unfold py_in2. by rewrite !(same_shape_eq_str v v'). Qed.

Lemma same_shape_year_ok v v' : same_shape v v' → year_ok v = year_ok v'.
Proof. intros H. destruct v, v'; cbn in H |- *; try done; by inv H. Qed.

Lemma same_shape_py_int v v' : same_shape v v' → py_int v = py_int v'.
Proof. intros H. destruct v, v'; cbn in H |- *; try done; by inv H. Qed.

Lemma same_shape_refl v : same_shape v v.
Proof. by destruct v. Qed.

Lemma same_shape_py_or v v' dflt :
  same_shape v v' → same_shape (py_or v dflt) (py_or v' dflt).
Proof.
  intros H. unfold py_or. rewrite <- (same_shape_truthy _ _ H).
  destruct (truthy v); [done|apply same_shape_refl].
Qed.

Lemma same_key_same_shape (a b : dict) k dflt :
  dict_wf a → dict_wf b →
  json_dumps true (PDict a) = json_dumps true (PDict b) →
  same_shape (default dflt (dict_get k a)) (default dflt (dict_get k b)).
Proof.
  intros Ha Hb Heq. pose proof (key_text_lookup a b k Ha Hb Heq) as Hk.
  destruct (dict_get k a) as [va|], (dict_get k b) as [vb|]; try done.
  - apply json_dumps_same_shape.
    unfold fmap, option_fmap, option_map in Hk. by injection Hk.
  - apply same_shape_refl.
Qed.

(** Arguments with the same cache key are accepted alike. *)
Lemma same_key_accepts name (a b : dict) :
  dict_wf a → dict_wf b →
  json_dumps true (PDict a) = json_dumps true (PDict b) →
  accepts name a = accepts name b.
Proof.
  intros Ha Hb Heq.
  assert (Harg : ∀ k, same_shape (arg a k) (arg b k)).
  { intros k. by apply same_key_same_shape. }
  unfold accepts.
  destruct (String.eqb name "search_title").
  { unfold search_title_accepts.
    pose proof (same_key_same_shape a b "query" (PStr "") Ha Hb Heq) as Hq.
    rewrite (same_shape_in2 _ _ _ _ (same_shape_py_or _ _ (PStr "movie") (Harg "type"))).
    rewrite (same_shape_year_ok _ _ (Harg "year")).
    destruct (default (PStr "") (dict_get "query" a)),
             (default (PStr "") (dict_get "query" b)); cbn in Hq; try done.
    by inv Hq. }
  destruct (String.eqb name "get_recommendations").
  { unfold get_recommendations_accepts.
    rewrite (same_shape_py_int _ _ (Harg "id")).
    by rewrite (same_shape_in2 _ _ _ _ (Harg "type")). }
  destruct (String.eqb name "discover"); [|done].
  unfold discover_accepts.
  rewrite (same_shape_in2 _ _ _ _ (Harg "type")).
  rewrite (same_shape_in2 _ _ _ _ (same_shape_py_or _ _ (PStr "popularity") (Harg "sort_by"))).
  by rewrite (same_shape_year_ok _ _ (Harg "year")).
Qed.

(* ================================================================== *)
(** * The dispatcher                                                   *)
(* ================================================================== *)

Lemma cache_get_cases tool_name args e s :
  let key := make_key tool_name args in
  (_cache s !! key = None
   ∧ _cache_get tool_name args e s = (Ok PNone, log (EvCacheGet key) s))
  ∨ (∃ ts data,
       _cache s !! key = Some (ts, data)
       ∧ float_gt (float_sub (clock e (ticks s)) ts) (float_of_Z CACHE_TTL_SECONDS) = true
       ∧ _cache_get tool_name args e s = (Ok PNone, after_evict key s))
  ∨ (∃ ts data,
       _cache s !! key = Some (ts, data)
       ∧ float_gt (float_sub (clock e (ticks s)) ts) (float_of_Z CACHE_TTL_SECONDS) = false
       ∧ _cache_get tool_name args e s = (Ok data, after_get key s)).
Proof.
  intros key. destruct (_cache s !! key) as [[ts data]|] eqn:Hm.
  - right. rewrite (cache_get_present _ _ _ _ _ _ Hm). fold key.
    destruct (float_gt _ _) eqn:Hgt; [left|right]; by exists ts, data.
  - left. split; [done|]. by apply cache_get_absent.
Qed.

(** Every call goes one of the four ways. *)
Lemma call_tool_outcome name args e s :
  ∃ r s', call_tool name args e s = (Ok r, s') ∧ call_outcome name args e s r s'.
Proof.
  unfold call_tool. destruct (String.eqb_spec name "health") as [->|Hname].
  { eexists _, _. split; [reflexivity|]. by apply call_health. }
  unfold try_except, mbind at 1, M_bind at 1. cbn [time_time].
  change {| _cache := _cache s; ticks := S (ticks s); sent := sent s; trace := trace s |}
    with (after_tick s).
  unfold call_tool_body. unfold mbind, M_bind.
  destruct (_cache_get name args e (after_tick s)) as [[cached|x] s1] eqn:Hget.
  2:{ destruct (cache_get_cases name args e (after_tick s))
        as [[_ H]|[(?&?&_&_&H)|(?&?&_&_&H)]]; congruence. }
  destruct cached;
    try (eexists _, _; (split; [reflexivity|]);
         by apply (call_hit name args e s _ s1 Hname Hget)).
  destruct (dispatch name args e s1) as [[payload|x] s2] eqn:Hd.
  - rewrite cache_set_run. eexists _, _. split; [reflexivity|].
    by apply (call_fresh name args e s s1 payload s2).
  - destruct x; eexists _, _; (split; [reflexivity|]);
      by apply (call_failed name args e s s1 _ s2 Hname Hget Hd).
Qed.

Ltac forall_events :=
  repeat (apply Forall_cons_2; [cbn; tauto|]); apply Forall_nil_2.

(** A lookup reads, at most evicts, and never writes. *)
Lemma cache_get_frame tool_name args e s r s1 :
  _cache_get tool_name args e s = (r, s1) →
  ∃ evs, trace s1 = trace s ++ evs
         ∧ Forall (λ ev, ¬ cache_write ev) evs
         ∧ (∀ key entry, _cache s1 !! key = Some entry → _cache s !! key = Some entry)
         ∧ sent s1 = sent s.
Proof.
  intros Hget.
  destruct (cache_get_cases tool_name args e s)
    as [[_ H]|[(ts&data&_&_&H)|(ts&data&_&_&H)]];
    rewrite H in Hget; inv Hget.
  - exists [EvCacheGet (make_key tool_name args)].
    split; [done|]. split; [forall_events|]. split; [auto|reflexivity].
  - exists [EvCacheGet (make_key tool_name args); EvCachePop (make_key tool_name args)].
    split; [done|]. split; [forall_events|]. split; [|done].
    cbn. intros key entry Hl. by apply lookup_delete_Some in Hl as [_ Hl].
  - exists [EvCacheGet (make_key tool_name args)].
    split; [done|]. split; [forall_events|]. split; [auto|reflexivity].
Qed.

Lemma net_event_not_write ev : net_event ev → ¬ cache_write ev.
Proof. destruct ev; cbn; tauto. Qed.

Lemma dispatch_frame name args e s r s2 :
  dispatch name args e s = (r, s2) →
  _cache s2 = _cache s
  ∧ ∃ evs, trace s2 = trace s ++ evs ∧ Forall (λ ev, ¬ cache_write ev) evs
           ∧ Forall net_event evs.
Proof.
  intros Hd. destruct (tame_dispatch name args e s) as [[Hc (evs & Ht & Hn & _)] _].
  rewrite Hd in *. cbn in *. split; [done|]. exists evs. repeat split; auto.
  eapply Forall_impl; [exact Hn|]. apply net_event_not_write.
Qed.

Lemma unknown_tool_raises name args e s :
  name ∉ data_operations →
  dispatch name args e s =
    (Raise (TMDBError ("Unknown tool: " +:+ name) "UNKNOWN_TOOL" 400), s).
Proof.
  intros Hn. unfold dispatch.
  destruct (String.eqb_spec name "search_title") as [->|_].
  { destruct Hn. apply list_elem_of_In. cbn. tauto. }
  destruct (String.eqb_spec name "get_recommendations") as [->|_].
  { destruct Hn. apply list_elem_of_In. cbn. tauto. }
  destruct (String.eqb_spec name "discover") as [->|_].
  { destruct Hn. apply list_elem_of_In. cbn. tauto. }
  reflexivity.
Qed.

(** C6.  Whatever the call, the state and the environment: the dispatcher
    writes the cache only after the routed operation returned a payload, and
    writes that payload under the key of the call; a call that ends in an
    error envelope writes nothing, and every entry present afterwards was
    present before. *)
Theorem errors_never_cached name args e s :
  ∃ r s' evs,
    call_tool name args e s = (Ok r, s')
    ∧ trace s' = trace s ++ evs
    ∧ (∀ key entry, EvCacheSet key entry ∈ evs →
         isError r = false
         ∧ key = make_key name args
         ∧ content r = json_dumps false entry.2
         ∧ ∃ s1 s2, dispatch name args e s1 = (Ok entry.2, s2))
    ∧ (isError r = true →
         Forall (λ ev, ¬ cache_write ev) evs
         ∧ ∀ key entry, _cache s' !! key = Some entry → _cache s !! key = Some entry).
Proof.
  destruct (call_tool_outcome name args e s) as (r & s' & Hrun & Hout).
  exists r, s'. destruct Hout as [Hn|data s1 Hn Hget Hdata|s1 payload s2 Hn Hget Hd|s1 x s2 Hn Hget Hd].
  - exists []. split; [done|]. split; [by rewrite app_nil_r|]. split.
    + intros key entry Hin. by apply elem_of_nil in Hin.
    + intros Herr. done.
  - destruct (cache_get_frame _ _ _ _ _ _ Hget) as (evs & Ht & Hnw & Hsub & _).
    exists evs. split; [done|]. split; [done|]. split.
    + intros key entry Hin. rewrite Forall_forall in Hnw. by destruct (Hnw _ Hin).
    + intros Herr. done.
  - destruct (cache_get_frame _ _ _ _ _ _ Hget) as (evs1 & Ht1 & Hnw1 & Hsub1 & _).
    destruct (dispatch_frame _ _ _ _ _ _ Hd) as (Hc2 & evs2 & Ht2 & Hnw2 & _).
    exists (evs1 ++ evs2 ++
            [EvCacheSet (make_key name args) (clock e (ticks s2), payload)]).
    split; [done|]. split.
    { cbn. rewrite Ht2, Ht1. cbn. by rewrite <- !app_assoc. }
    split; [|done].
    intros key entry Hin. rewrite Forall_forall in Hnw1, Hnw2.
    apply elem_of_app in Hin as [Hin|Hin]; [by destruct (Hnw1 _ Hin)|].
    apply elem_of_app in Hin as [Hin|Hin]; [by destruct (Hnw2 _ Hin)|].
    apply list_elem_of_singleton in Hin. inv Hin. cbn.
    split; [done|]. split; [done|]. split; [done|]. by exists s1, s2.
  - destruct (cache_get_frame _ _ _ _ _ _ Hget) as (evs1 & Ht1 & Hnw1 & Hsub1 & _).
    destruct (dispatch_frame _ _ _ _ _ _ Hd) as (Hc2 & evs2 & Ht2 & Hnw2 & _).
    exists (evs1 ++ evs2). split; [done|]. split.
    { rewrite Ht2, Ht1. cbn. by rewrite <- !app_assoc. }
    assert (Hnw : Forall (λ ev, ¬ cache_write ev) (evs1 ++ evs2)) by by apply Forall_app.
    split.
    + intros key entry Hin. rewrite Forall_forall in Hnw. by destruct (Hnw _ Hin).
    + intros _. split; [done|]. intros key entry Hl. rewrite Hc2 in Hl.
      by apply Hsub1 in Hl.
Qed.

(** ** Reachable states *)

Lemma cache_names_ok_call name args e s :
  cache_names_ok s → cache_names_ok (call_tool name args e s).2.
Proof.
  intros Hok. destruct (call_tool_outcome name args e s) as (r & s' & Hrun & Hout).
  rewrite Hrun. cbn.
  destruct Hout as [Hn|data s1 Hn Hget Hdata|s1 payload s2 Hn Hget Hd|s1 x s2 Hn Hget Hd].
  - exact Hok.
  - destruct (cache_get_frame _ _ _ _ _ _ Hget) as (evs & _ & _ & Hsub & _).
    intros key [entry Hl]. apply Hok. exists entry. by apply Hsub in Hl.
  - destruct (cache_get_frame _ _ _ _ _ _ Hget) as (evs & _ & _ & Hsub & _).
    destruct (dispatch_frame _ _ _ _ _ _ Hd) as (Hc2 & _).
    intros key [entry Hl]. cbn in Hl.
    destruct (decide (key = make_key name args)) as [->|Hne].
    + cbn. destruct (decide (name ∈ data_operations)) as [|Hno]; [done|].
      rewrite (unknown_tool_raises _ _ _ _ Hno) in Hd. done.
    + rewrite lookup_insert_ne in Hl by done. rewrite Hc2 in Hl.
      apply Hok. exists entry. by apply Hsub in Hl.
  - destruct (cache_get_frame _ _ _ _ _ _ Hget) as (evs & _ & _ & Hsub & _).
    destruct (dispatch_frame _ _ _ _ _ _ Hd) as (Hc2 & _).
    intros key [entry Hl]. rewrite Hc2 in Hl.
    apply Hok. exists entry. by apply Hsub in Hl.
Qed.

Lemma reachable_cache_names_ok e s : reachable e s → cache_names_ok s.
Proof.
  induction 1 as [|s name args _ IH _].
  - intros key [entry Hl]. cbn in Hl. by rewrite lookup_empty in Hl.
  - by apply cache_names_ok_call.
Qed.

Lemma internal_error_not_classified : "INTERNAL_ERROR" ∉ classified_codes.
Proof. intros Hin. apply list_elem_of_In in Hin. cbn in Hin. intuition discriminate. Qed.


(** On a miss the answer is made from what the routed operation does. *)
Lemma call_tool_miss name args e s s1 :
  name ≠ "health" →
  _cache_get name args e (after_tick s) = (Ok PNone, s1) →
  call_tool name args e s =
    match dispatch name args e s1 with
    | (Ok payload, s2) =>
        (Ok (success payload), after_tick (after_set (make_key name args) payload e s2))
    | (Raise x, s2) => (Ok (failure x), s2)
    end.
Proof.
  intros Hname Hget.
  destruct (call_tool_outcome name args e s) as (r & s' & Hrun & Hout).
  rewrite Hrun.
  destruct Hout as [Hn|data s1' Hn Hget' Hdata|s1' payload s2 Hn Hget' Hd|s1' x s2 Hn Hget' Hd];
    try done; rewrite Hget in Hget'; inv Hget'; try done; by rewrite Hd.
Qed.

(** On a hit the cached payload is the answer. *)
Lemma call_tool_hit name args e s data s1 :
  name ≠ "health" →
  _cache_get name args e (after_tick s) = (Ok data, s1) →
  data ≠ PNone →
  call_tool name args e s = (Ok (success data), after_tick s1).
Proof.
  intros Hname Hget Hdata.
  destruct (call_tool_outcome name args e s) as (r & s' & Hrun & Hout).
  rewrite Hrun.
  destruct Hout as [Hn|data' s1' Hn Hget' Hdata'|s1' payload s2 Hn Hget' Hd|s1' x s2 Hn Hget' Hd];
    try done; rewrite Hget in Hget'; by inv Hget'.
Qed.

(** C5.  A lookup that finds an entry older than 300 seconds (the clock
    reading taken by the lookup minus the entry's timestamp exceeds 300)
    returns [None] and removes the entry from the map; the dispatcher then
    answers from a fresh run of the operation.  A lookup that finds a younger
    entry returns its data and leaves the map as it is.  Nothing else expires
    entries: an entry is gone after a call only if the call looked up that
    very key and found the entry too old. *)
Theorem cache_entry_expires_on_read name args e :
  (∀ s ts data,
     _cache s !! make_key name args = Some (ts, data) →
     float_gt (float_sub (clock e (ticks s)) ts) (float_of_Z 300) = true →
     ∃ s',
       _cache_get name args e s = (Ok PNone, s')
       ∧ _cache s' = delete (make_key name args) (_cache s)
       ∧ _cache s' !! make_key name args = None
       ∧ trace s' = trace s ++ [EvCacheGet (make_key name args);
                                EvCachePop (make_key name args)])
  ∧ (∀ s ts data,
       name ≠ "health" →
       _cache s !! make_key name args = Some (ts, data) →
       float_gt (float_sub (clock e (S (ticks s))) ts) (float_of_Z 300) = true →
       call_tool name args e s =
         match dispatch name args e (after_evict (make_key name args) (after_tick s)) with
         | (Ok payload, s2) =>
             (Ok (success payload), after_tick (after_set (make_key name args) payload e s2))
         | (Raise x, s2) => (Ok (failure x), s2)
         end)
  ∧ (∀ s ts data,
       _cache s !! make_key name args = Some (ts, data) →
       float_gt (float_sub (clock e (ticks s)) ts) (float_of_Z 300) = false →
       ∃ s',
         _cache_get name args e s = (Ok data, s')
         ∧ _cache s' = _cache s
         ∧ trace s' = trace s ++ [EvCacheGet (make_key name args)])
  ∧ (∀ s key entry,
       _cache s !! key = Some entry →
       _cache (call_tool name args e s).2 !! key = None →
       key = make_key name args
       ∧ float_gt (float_sub (clock e (S (ticks s))) entry.1) (float_of_Z 300) = true).
Proof.
  split; [|split; [|split]].
  - intros s ts data Hl Hold. exists (after_evict (make_key name args) s).
    rewrite (cache_get_present _ _ _ _ _ _ Hl).
    change (float_of_Z CACHE_TTL_SECONDS) with (float_of_Z 300). rewrite Hold.
    split; [done|]. split; [done|]. split; [|done]. cbn. apply lookup_delete_eq.
  - intros s ts data Hname Hl Hold. apply call_tool_miss; [done|].
    rewrite (cache_get_present _ _ _ _ ts data) by done.
    change (float_of_Z CACHE_TTL_SECONDS) with (float_of_Z 300). cbn [after_tick ticks].
    by rewrite Hold.
  - intros s ts data Hl Hyoung. exists (after_get (make_key name args) s).
    rewrite (cache_get_present _ _ _ _ _ _ Hl).
    change (float_of_Z CACHE_TTL_SECONDS) with (float_of_Z 300). by rewrite Hyoung.
  - intros s key [ts data] Hl Hgone.
    destruct (call_tool_outcome name args e s) as (r & s' & Hrun & Hout).
    rewrite Hrun in Hgone. cbn [snd] in Hgone.
    assert (Hlookup : ∀ r1 s1,
              _cache_get name args e (after_tick s) = (r1, s1) →
              _cache s1 !! key = None →
              key = make_key name args
              ∧ float_gt (float_sub (clock e (S (ticks s))) ts) (float_of_Z 300) = true).
    { intros r1 s1 Hget Hnone.
      destruct (cache_get_cases name args e (after_tick s))
        as [[_ H]|[(ts'&data'&Hl'&Hold&H)|(ts'&data'&_&_&H)]];
        rewrite H in Hget; inv Hget; cbn in Hnone; try congruence.
      destruct (decide (key = make_key name args)) as [->|Hne].
      - cbn in Hl'. rewrite Hl in Hl'. by inv Hl'.
      - rewrite lookup_delete_ne in Hnone by done. congruence. }
    destruct Hout as [Hn|data' s1 Hn Hget Hdata|s1 payload s2 Hn Hget Hd|s1 x s2 Hn Hget Hd].
    + cbn in Hgone. congruence.
    + by eapply Hlookup.
    + destruct (dispatch_frame _ _ _ _ _ _ Hd) as (Hc2 & _).
      cbn in Hgone. apply lookup_insert_None in Hgone as [Hgone _].
      rewrite Hc2 in Hgone. by eapply Hlookup.
    + destruct (dispatch_frame _ _ _ _ _ _ Hd) as (Hc2 & _).
      rewrite Hc2 in Hgone. by eapply Hlookup.
Qed.

(** ** Payloads are dictionaries *)

Lemma returns_dict_ret d : returns_dict (mret (PDict d)).
Proof. intros e s p s' H. inv H. by eexists. Qed.

Lemma returns_dict_raise x : returns_dict (raise x).
Proof. intros e s p s' H. inv H. Qed.

Lemma returns_dict_bind {A} (m : M A) (f : A → M pyval) :
  (∀ a, returns_dict (f a)) → returns_dict (m ≫= f).
Proof.
  intros Hf e s p s' H. unfold mbind, M_bind in H.
  destruct (m e s) as [[a|x] s1]; [|done]. by eapply Hf.
Qed.

Ltac dict_steps :=
  repeat first
    [ apply returns_dict_ret
    | apply returns_dict_raise
    | apply returns_dict_bind; intros ?
    | match goal with |- returns_dict (if ?b then _ else _) => destruct b end ].

Lemma returns_dict_dispatch name args : returns_dict (dispatch name args).
Proof.
  unfold dispatch, _search_title, _get_recommendations, _discover, validation_error.
  cbn zeta. dict_steps.
Qed.

Lemma dispatch_payload_not_none name args e s payload s' :
  dispatch name args e s = (Ok payload, s') → payload ≠ PNone.
Proof. intros H. by destruct (returns_dict_dispatch _ _ _ _ _ _ H) as [d ->]. Qed.

(** C4.  Two argument objects with the same key-value pairs in a different
    order derive the same cache key, for every operation name.  Hence what
    [_cache_set] stored for the first is what [_cache_get] returns for the
    second while the entry is there and no older than the TTL; and through the
    dispatcher (for the names that go through the cache: every name but
    [health]) a call with the second after a successful call with the first is
    answered with the same payload by the cache lookup alone: no HTTP attempt,
    no write. *)
Theorem reordered_arguments_hit name (args1 args2 : dict) :
  dict_wf args1 → args1 ≡ₚ args2 →
  make_key name args1 = make_key name args2
  ∧ (∀ e s data s2,
       _cache s2 !! make_key name args1
         = _cache (_cache_set name args1 data e s).2 !! make_key name args1 →
       float_gt (float_sub (clock e (ticks s2)) (clock e (ticks s))) (float_of_Z 300) = false →
       _cache_get name args2 e s2 = (Ok data, after_get (make_key name args1) s2))
  ∧ (∀ e s r s1,
       name ≠ "health" →
       call_tool name args1 e s = (Ok r, s1) → isError r = false →
       ∃ ts payload,
         _cache s1 !! make_key name args1 = Some (ts, payload)
         ∧ r = success payload
         ∧ ∀ s2,
             _cache s2 !! make_key name args1 = Some (ts, payload) →
             float_gt (float_sub (clock e (S (ticks s2))) ts) (float_of_Z 300) = false →
             call_tool name args2 e s2
               = (Ok r, after_tick (after_get (make_key name args1) (after_tick s2)))).
Proof.
  intros Hwf Hperm.
  split; [by apply make_key_permutation|]. split.
  - intros e s data s2 Hsame Hyoung. rewrite cache_set_run in Hsame. cbn in Hsame.
    rewrite lookup_insert_eq in Hsame.
    rewrite (cache_get_present name args2 e s2 (clock e (ticks s)) data)
      by (by rewrite <- (make_key_permutation name _ _ Hwf Hperm)).
    change (float_of_Z CACHE_TTL_SECONDS) with (float_of_Z 300).
    by rewrite Hyoung, (make_key_permutation name _ _ Hwf Hperm).
  - intros e s r s1 Hname Hrun Hok.
    destruct (call_tool_outcome name args1 e s) as (r' & s1' & Hrun' & Hout).
    rewrite Hrun in Hrun'. inv Hrun'.
    assert (Hserve : ∀ ts payload, payload ≠ PNone → ∀ s2,
              _cache s2 !! make_key name args1 = Some (ts, payload) →
              float_gt (float_sub (clock e (S (ticks s2))) ts) (float_of_Z 300) = false →
              call_tool name args2 e s2
                = (Ok (success payload),
                   after_tick (after_get (make_key name args1) (after_tick s2)))).
    { intros ts payload Hne s2 Hl Hyoung. apply call_tool_hit; [done| |done].
      rewrite (cache_get_present name args2 e (after_tick s2) ts payload)
        by (by rewrite <- (make_key_permutation name _ _ Hwf Hperm)).
      change (float_of_Z CACHE_TTL_SECONDS) with (float_of_Z 300).
      cbn [after_tick ticks]. by rewrite Hyoung, (make_key_permutation name _ _ Hwf Hperm). }
    destruct Hout as [Hn|data s0 Hn Hget Hdata|s0 payload s2 Hn Hget Hd|s0 x s2 Hn Hget Hd];
      try done.
    + destruct (cache_get_cases name args1 e (after_tick s))
        as [[_ H]|[(ts&data'&_&_&H)|(ts&data'&Hl&_&H)]];
        rewrite H in Hget; inv Hget; try done.
      exists ts, data. split; [done|]. split; [done|]. by apply Hserve.
    + exists (clock e (ticks s2)), payload. split.
      { cbn. apply lookup_insert_eq. }
      split; [done|]. apply Hserve. by eapply dispatch_payload_not_none.
Qed.

(* ================================================================== *)
(** * The query operations                                             *)
(* ================================================================== *)

Lemma tmdb_get_success path params e s body :
  answers_with e s body →
  _tmdb_get path params e s =
    (Ok body,
     after_request (TMDB_BASE_URL +:+ path)
       (dict_set "api_key" (PStr (default "" (TMDB_API_KEY e))) params) s).
Proof.
  intros (Hkey & status & Hnet & Hlt).
  unfold _tmdb_get, mbind, M_bind, get_api_key. rewrite Hkey. cbn [negb].
  change (seqZ 1 MAX_RETRIES) with [1; 2; 3].
  rewrite tmdb_attempts_cons, Hnet. cbn [status_code json].
  destruct (Z.eqb_spec status 429); [lia|].
  destruct (Z.leb_spec 500 status); [lia|].
  destruct (Z.leb_spec 400 status); [lia|]. reflexivity.
Qed.

Lemma with_year_ok year item_type params e s :
  year_ok year = true →
  with_year year item_type params e s
    = (Ok (match year with
           | PNone => params
           | _ => dict_set (if py_eq_str item_type "movie" then "primary_release_year"
                            else "first_air_date_year") year params
           end), s).
Proof.
  unfold year_ok, with_year. intros Hy.
  destruct year; try reflexivity; cbn in Hy |- *;
    try discriminate; by destruct (py_eq_str item_type "movie").
Qed.

Lemma with_year_rejects year item_type params e s :
  year_ok year = false →
  with_year year item_type params e s
    = (Raise (TMDBError "year must be an integer" "VALIDATION_ERROR" 400), s).
Proof.
  unfold year_ok, with_year. intros Hy.
  destruct year; try discriminate; reflexivity.
Qed.

Lemma fetch_returns_first_attempt e s body :
  answers_with e s body → fetch_returns e s body.
Proof. intros Hans path params. by rewrite (tmdb_get_success _ _ _ _ _ Hans). Qed.

Lemma fetch_returns_run e s body path params :
  fetch_returns e s body →
  ∃ s1, _tmdb_get path params e s = (Ok body, s1).
Proof.
  intros Hf. specialize (Hf path params).
  destruct (_tmdb_get path params e s) as [r s1]. cbn in Hf. subst r. by exists s1.
Qed.

(** C2.  When the upstream client returns a body whose result list has
    length zero: [_search_title] (called with arguments it accepts) fails with
    [TITLE_NOT_FOUND], status 404, while [_get_recommendations] and
    [_discover] succeed with a payload whose [results] is the empty list. *)
Theorem zero_results e s body :
  fetch_returns e s body → no_results body →
  (∀ args q,
     default (PStr "") (dict_get "query" args) = PStr q →
     search_title_accepts args = true →
     ∃ s',
       _search_title args e s =
         (Raise (TMDBError ("No results for query '" +:+ strip q +:+ "'")
                   "TITLE_NOT_FOUND" 404), s'))
  ∧ (∀ args, get_recommendations_accepts args = true →
       ∃ fetched_at s',
         _get_recommendations args e s =
           (Ok (PDict [("results", PList []); ("source", PStr "TMDB");
                       ("fetched_at", PFloat fetched_at)]), s'))
  ∧ (∀ args, discover_accepts args = true →
       ∃ fetched_at s',
         _discover args e s =
           (Ok (PDict [("results", PList []); ("source", PStr "TMDB");
                       ("fetched_at", PFloat fetched_at)]), s')).
Proof.
  intros Hfetch (d & -> & Hres). split; [|split].
  - intros args q Hquery Hacc. unfold search_title_accepts in Hacc. unfold _search_title.
    rewrite Hquery in Hacc |- *.
    apply andb_prop in Hacc as [Hacc Hyear]. apply andb_prop in Hacc as [Hq Htype].
    unfold mbind at 1, M_bind at 1, lift, py_strip.
    destruct (String.eqb (strip q) ""); [discriminate|].
    rewrite Htype. cbn [negb].
    unfold mbind at 1, M_bind at 1. rewrite (with_year_ok _ _ _ _ _ Hyear).
    unfold mbind at 1, M_bind at 1.
    match goal with
    | |- context [_tmdb_get ?p ?ps e s] =>
        destruct (fetch_returns_run e s _ p ps Hfetch) as [s1 ->]
    end.
    unfold mbind at 1, M_bind at 1, lift, py_get. rewrite Hres. cbn [truthy negb].
    by eexists.
  - intros args Hacc. unfold get_recommendations_accepts in Hacc. unfold _get_recommendations.
    destruct (py_int (arg args "id")) as [n|]; [|discriminate].
    unfold mbind at 1, M_bind at 1. cbn [mret M_ret].
    rewrite Hacc. cbn [negb].
    unfold mbind at 1, M_bind at 1.
    match goal with
    | |- context [_tmdb_get ?p ?ps e s] =>
        destruct (fetch_returns_run e s _ p ps Hfetch) as [s1 ->]
    end.
    unfold mbind at 1, M_bind at 1, lift, py_get. rewrite Hres.
    by eexists _, _.
  - intros args Hacc. unfold discover_accepts in Hacc. unfold _discover.
    apply andb_prop in Hacc as [Hacc Hyear]. apply andb_prop in Hacc as [Htype Hsort].
    rewrite Htype, Hsort. cbn [negb].
    unfold mbind at 1, M_bind at 1. rewrite (with_year_ok _ _ _ _ _ Hyear).
    unfold mbind at 1, M_bind at 1.
    match goal with
    | |- context [_tmdb_get ?p ?ps e s] =>
        destruct (fetch_returns_run e s _ p ps Hfetch) as [s1 ->]
    end.
    unfold mbind at 1, M_bind at 1, lift, py_get. rewrite Hres.
    by eexists _, _.
Qed.

Lemma zero_results_witness :
  (∃ s', _search_title [("query", PStr " Inception ")] empty_env initial_state =
           (Raise (TMDBError "No results for query 'Inception'" "TITLE_NOT_FOUND" 404), s'))
  ∧ (∃ fetched_at s',
       _get_recommendations [("id", PInt 27205); ("type", PStr "movie")]
         empty_env initial_state =
         (Ok (PDict [("results", PList []); ("source", PStr "TMDB");
                     ("fetched_at", PFloat fetched_at)]), s'))
  ∧ (∃ fetched_at s',
       _discover [("type", PStr "tv"); ("genre", PList [PStr "Drama"])]
         empty_env initial_state =
         (Ok (PDict [("results", PList []); ("source", PStr "TMDB");
                     ("fetched_at", PFloat fetched_at)]), s')).
Proof.
  assert (Hfetch : fetch_returns empty_env initial_state
                     (PDict [("page", PInt 1); ("results", PList [])])).
  { apply fetch_returns_first_attempt. split; [reflexivity|].
    exists 200. split; [reflexivity|lia]. }
  assert (Hnone : no_results (PDict [("page", PInt 1); ("results", PList [])])).
  { eexists. split; reflexivity. }
  destruct (zero_results empty_env initial_state _ Hfetch Hnone) as (Hsearch & Hrec & Hdisc).
  split; [|split].
  - apply (Hsearch [("query", PStr " Inception ")] " Inception "); reflexivity.
  - apply (Hrec [("id", PInt 27205); ("type", PStr "movie")]). reflexivity.
  - apply (Hdisc [("type", PStr "tv"); ("genre", PList [PStr "Drama"])]). reflexivity.
Defined.

(** ** What [_discover] sends *)

Lemma tmdb_attempts_trace attempts backoff url params e s :
  ∃ evs,
    trace (tmdb_attempts attempts backoff url params e s).2 = trace s ++ evs
    ∧ requests_only url params evs
    ∧ (attempts ≠ [] → ∃ rest, evs = EvRequest url params :: rest).
Proof.
  revert backoff s. induction attempts as [|attempt rest IH]; intros backoff s.
  { exists []. split; [by rewrite app_nil_r|]. split; [constructor|done]. }
  rewrite tmdb_attempts_cons. cbn zeta.
  destruct (IH (float_mul backoff (float_of_Z 2))
              (log (EvSleep backoff) (after_request url params s)))
    as (evs & Ht & Hall & _).
  assert (Hstop : ∃ evs0,
            trace (after_request url params s) = trace s ++ evs0
            ∧ requests_only url params evs0
            ∧ (attempt :: rest ≠ [] → ∃ rest0, evs0 = EvRequest url params :: rest0)).
  { exists [EvRequest url params]. split; [done|]. split.
    - apply Forall_cons_2; [by left|constructor].
    - intros _. by eexists. }
  assert (Hretry : ∃ evs0,
            trace (tmdb_attempts rest (float_mul backoff (float_of_Z 2)) url params e
                     (log (EvSleep backoff) (after_request url params s))).2
              = trace s ++ evs0
            ∧ requests_only url params evs0
            ∧ (attempt :: rest ≠ [] → ∃ rest0, evs0 = EvRequest url params :: rest0)).
  { exists (EvRequest url params :: EvSleep backoff :: evs). split.
    - rewrite Ht. cbn. by rewrite <- !app_assoc.
    - split.
      + apply Forall_cons_2; [by left|]. apply Forall_cons_2; [right; by eexists|done].
      + intros _. by eexists. }
  destruct (net e (sent s)) as [cls msg|resp].
  - destruct cls; try exact Hstop. by destruct (attempt =? MAX_RETRIES).
  - destruct (status_code resp =? 429); [by destruct (attempt =? MAX_RETRIES)|].
    destruct (500 <=? status_code resp); [by destruct (attempt =? MAX_RETRIES)|].
    destruct (400 <=? status_code resp); [exact Hstop|].
    by destruct (json resp).
Qed.

Lemma arg_agree (args args' : dict) k :
  dict_get k args = dict_get k args' → arg args k = arg args' k.
Proof. unfold arg. by intros ->. Qed.

(** the part of the three operations after the request: it reads the clock
    at most *)
Lemma after_fetch_trace {A} (r : result A) (k : A → pyval) e s :
  trace ((x ← lift r; fetched_at ← time_time; mret (k x)) e s).2 = trace s.
Proof. unfold mbind, M_bind, lift. by destruct r. Qed.

Lemma arg_dict_set_ne args k k' v :
  k ≠ k' → dict_get k (dict_set k' v args) = dict_get k args.
Proof.
  intros Hne. induction args as [|[k0 v0] args IH]; cbn.
  - destruct (String.eqb_spec k k'); [done|reflexivity].
  - destruct (String.eqb_spec k' k0) as [->|Hk0]; cbn.
    + destruct (String.eqb_spec k k0); [done|reflexivity].
    + destruct (String.eqb_spec k k0); [reflexivity|exact IH].
Qed.

(** C9.  The [genre] argument of [_discover] changes nothing: it is never
    checked (any value is accepted), arguments that agree on every other key
    behave alike in every environment and state, and the request of an
    accepted call carries the parameters [language], [include_adult],
    [sort_by], the year filter if a year was given, and [api_key], built from
    the other arguments only. *)
Theorem discover_never_forwards_genre (args : dict) :
  (∀ g, discover_accepts (dict_set "genre" g args) = discover_accepts args)
  ∧ (∀ args' : dict,
       (∀ k, k ≠ "genre" → dict_get k args' = dict_get k args) →
       ∀ e s, _discover args' e s = _discover args e s)
  ∧ (∀ e s,
       discover_accepts args = true →
       key_configured (TMDB_API_KEY e) = true →
       ∃ sort rest,
         py_or (arg args "sort_by") (PStr "popularity") = PStr sort
         ∧ let url :=
             TMDB_BASE_URL +:+
               (if py_eq_str (arg args "type") "movie" then "/discover/movie"
                else "/discover/tv") in
           let params : dict :=
             [("language", py_or (arg args "language") (PStr "en-US"));
              ("include_adult", PBool false);
              ("sort_by", PStr (sort +:+ ".desc"))]
             ++ year_param (arg args "type") (arg args "year")
             ++ [("api_key", PStr (default "" (TMDB_API_KEY e)))] in
           trace (_discover args e s).2 = trace s ++ EvRequest url params :: rest
           ∧ requests_only url params rest).
Proof.
  assert (Hagree : ∀ args' : dict,
            (∀ k, k ≠ "genre" → dict_get k args' = dict_get k args) →
            arg args' "type" = arg args "type"
            ∧ arg args' "year" = arg args "year"
            ∧ arg args' "language" = arg args "language"
            ∧ arg args' "sort_by" = arg args "sort_by").
  { intros args' H. repeat split; apply arg_agree, H; discriminate. }
  split; [|split].
  - intros g. unfold discover_accepts.
    destruct (Hagree (dict_set "genre" g args)) as (-> & -> & _ & ->); [|done].
    intros k Hk. by apply arg_dict_set_ne.
  - intros args' H e s. unfold _discover.
    destruct (Hagree args' H) as (-> & -> & -> & ->). reflexivity.
  - intros e s Hacc Hkey. unfold discover_accepts in Hacc.
    apply andb_prop in Hacc as [Hacc Hyear]. apply andb_prop in Hacc as [Htype Hsort].
    destruct (py_or (arg args "sort_by") (PStr "popularity")) as [| | | |sort| |] eqn:Hs;
      try discriminate.
    exists sort. unfold _discover. rewrite Htype, Hs, Hsort. cbn [negb].
    unfold mbind at 1, M_bind at 1. rewrite (with_year_ok _ _ _ _ _ Hyear).
    set (url := TMDB_BASE_URL +:+
                  (if py_eq_str (arg args "type") "movie" then "/discover/movie"
                   else "/discover/tv")).
    set (params := [("language", py_or (arg args "language") (PStr "en-US"));
                    ("include_adult", PBool false);
                    ("sort_by", PStr (sort +:+ ".desc"))]
                   ++ year_param (arg args "type") (arg args "year")
                   ++ [("api_key", PStr (default "" (TMDB_API_KEY e)))]).
    unfold mbind at 1, M_bind at 1.
    unfold _tmdb_get at 1, mbind at 1, M_bind at 1, get_api_key. rewrite Hkey. cbn [negb].
    change (seqZ 1 MAX_RETRIES) with [1; 2; 3].
    match goal with
    | |- context [tmdb_attempts _ _ ?u ?p e s] =>
        replace u with url by (subst url; by destruct (py_eq_str (arg args "type") "movie"));
        replace p with params
    end.
    2:{ subst params. unfold year_param.
        destruct (arg args "year"); try reflexivity;
          by destruct (py_eq_str (arg args "type") "movie"). }
    destruct (tmdb_attempts_trace [1; 2; 3] INITIAL_BACKOFF_SECONDS url params e s)
      as (evs & Ht & Hall & Hfirst).
    destruct Hfirst as [rest ->]; [done|]. exists rest.
    apply Forall_cons in Hall as [_ Hall]. split; [reflexivity|].
    fold url params. cbn zeta. split; [|exact Hall].
    destruct (tmdb_attempts [1; 2; 3] INITIAL_BACKOFF_SECONDS url params e s)
      as [[data|x] s1]; [|exact Ht].
    cbn [snd] in Ht. rewrite <- Ht.
    unfold mbind, M_bind, lift.
    destruct (py_get data "results" (PList [])) as [results|]; [|done].
    destruct (py_iter results) as [items|]; [|done].
    by destruct (result_map _ items).
Qed.

(* ================================================================== *)
(** * Validation comes before the network                              *)
(* ================================================================== *)

Lemma search_title_refuses args :
  search_title_accepts args = false →
  ∃ x, (∀ e s, _search_title args e s = (Raise x, s))
       ∧ ((∃ q, default (PStr "") (dict_get "query" args) = PStr q) →
          ∃ message, x = TMDBError message "VALIDATION_ERROR" 400)
       ∧ (∀ v, default (PStr "") (dict_get "query" args) = v → (∀ q, v ≠ PStr q) →
          x = PyError AttributeError
                ("'" +:+ type_name v +:+ "' object has no attribute 'strip'")).
Proof.
  intros Hacc. unfold search_title_accepts in Hacc. unfold _search_title.
  destruct (default (PStr "") (dict_get "query" args)) as [|b|z|f|q|l|d] eqn:Hq.
  1-4,6-7:
    eexists; split; [intros e s; reflexivity|]; split;
      [by intros [q [=]] | by intros v <- Hv].
  unfold mbind at 1, M_bind at 1, lift, py_strip.
  destruct (String.eqb (strip q) "") eqn:Hblank.
  { eexists. split; [intros e s; reflexivity|]. split; [by eexists|].
    intros v <- Hv. by destruct (Hv q). }
  cbn [negb andb] in Hacc.
  destruct (py_in2 (py_or (arg args "type") (PStr "movie")) "movie" "tv") eqn:Htype.
  2:{ eexists. split; [intros e s; reflexivity|]. split; [by eexists|].
      intros v <- Hv. by destruct (Hv q). }
  cbn [negb andb] in Hacc.
  eexists. split.
  { intros e s. cbn [negb]. unfold mbind at 1, M_bind at 1.
    by rewrite (with_year_rejects _ _ _ _ _ Hacc). }
  split; [by eexists|]. intros v <- Hv. by destruct (Hv q).
Qed.

Lemma get_recommendations_refuses args :
  get_recommendations_accepts args = false →
  ∃ x, (∀ e s, _get_recommendations args e s = (Raise x, s))
       ∧ (validation_rejects "get_recommendations" args = true →
          ∃ message, x = TMDBError message "VALIDATION_ERROR" 400).
Proof.
  intros Hacc. unfold get_recommendations_accepts in Hacc.
  unfold validation_rejects. cbn [String.eqb Ascii.eqb Bool.eqb].
  unfold _get_recommendations.
  destruct (py_int (arg args "id")) as [n|[message code status|cls message]].
  - unfold mbind at 1, M_bind at 1. cbn [mret M_ret]. rewrite Hacc. cbn [negb].
    eexists. split; [intros e s; reflexivity|]. by eexists.
  - eexists. split; [intros e s; reflexivity|]. done.
  - destruct cls; (eexists; split; [intros e s; reflexivity|]); try done; by eexists.
Qed.

Lemma discover_refuses args :
  discover_accepts args = false →
  ∃ message, ∀ e s,
    _discover args e s = (Raise (TMDBError message "VALIDATION_ERROR" 400), s).
Proof.
  intros Hacc. unfold discover_accepts in Hacc. unfold _discover.
  destruct (py_in2 (arg args "type") "movie" "tv").
  2:{ eexists. intros e s. reflexivity. }
  destruct (py_in2 (py_or (arg args "sort_by") (PStr "popularity")) "popularity" "vote_average").
  2:{ eexists. intros e s. reflexivity. }
  cbn [andb] in Hacc. eexists. intros e s. cbn [negb].
  unfold mbind at 1, M_bind at 1. by rewrite (with_year_rejects _ _ _ _ _ Hacc).
Qed.

(** What is not accepted fails before anything happens. *)
Lemma dispatch_refuses name args :
  accepts name args = false →
  ∃ x, ∀ e s, dispatch name args e s = (Raise x, s).
Proof.
  unfold accepts, dispatch. intros Hacc.
  destruct (String.eqb name "search_title").
  { destruct (search_title_refuses args Hacc) as (x & Hx & _). by exists x. }
  destruct (String.eqb name "get_recommendations").
  { destruct (get_recommendations_refuses args Hacc) as (x & Hx & _). by exists x. }
  destruct (String.eqb name "discover").
  { destruct (discover_refuses args Hacc) as (m & Hx). by eexists. }
  by eexists.
Qed.

Lemma validation_rejects_not_accepted name args :
  validation_rejects name args = true → accepts name args = false.
Proof.
  unfold validation_rejects, accepts.
  destruct (String.eqb name "search_title").
  { destruct (default (PStr "") (dict_get "query" args)) eqn:Hq; try done.
    by intros ->%negb_true_iff. }
  destruct (String.eqb name "get_recommendations").
  { unfold get_recommendations_accepts.
    destruct (py_int (arg args "id")); [by intros ->%negb_true_iff|done]. }
  destruct (String.eqb name "discover"); [by intros ->%negb_true_iff|done].
Qed.

Lemma dispatch_validation_error name args :
  validation_rejects name args = true →
  ∃ message, ∀ e s,
    dispatch name args e s = (Raise (TMDBError message "VALIDATION_ERROR" 400), s).
Proof.
  intros Hrej. pose proof (validation_rejects_not_accepted _ _ Hrej) as Hacc.
  unfold validation_rejects in Hrej. unfold accepts in Hacc. unfold dispatch.
  destruct (String.eqb name "search_title").
  { destruct (search_title_refuses args Hacc) as (x & Hx & Hval & _).
    destruct (default (PStr "") (dict_get "query" args)) as [| | | |q| |] eqn:Hq; try done.
    destruct Hval as [message ->]; [by eexists|]. by exists message. }
  destruct (String.eqb name "get_recommendations") eqn:Hname.
  { destruct (get_recommendations_refuses args Hacc) as (x & Hx & Hval).
    destruct Hval as [message ->]; [|by exists message].
    unfold validation_rejects. cbn [String.eqb Ascii.eqb Bool.eqb]. exact Hrej. }
  destruct (String.eqb name "discover"); [|done].
  by apply discover_refuses.
Qed.

(** ** Cached keys come from accepted arguments *)

Lemma dispatch_ok_accepts name args e s payload s' :
  dispatch name args e s = (Ok payload, s') → accepts name args = true.
Proof.
  intros Hd. destruct (accepts name args) eqn:Hacc; [done|].
  destruct (dispatch_refuses name args Hacc) as [x Hx]. by rewrite Hx in Hd.
Qed.

Lemma cache_keys_accepted_call name args e s :
  dict_wf args → cache_keys_accepted s →
  cache_keys_accepted (call_tool name args e s).2.
Proof.
  intros Hwf Hok. destruct (call_tool_outcome name args e s) as (r & s' & Hrun & Hout).
  rewrite Hrun. cbn [snd].
  destruct Hout as [Hn|data s1 Hn Hget Hdata|s1 payload s2 Hn Hget Hd|s1 x s2 Hn Hget Hd].
  - exact Hok.
  - destruct (cache_get_frame _ _ _ _ _ _ Hget) as (evs & _ & _ & Hsub & _).
    intros name' text entry Hl. apply Hsub in Hl. by eapply Hok.
  - destruct (cache_get_frame _ _ _ _ _ _ Hget) as (evs & _ & _ & Hsub & _).
    destruct (dispatch_frame _ _ _ _ _ _ Hd) as (Hc2 & _).
    intros name' text entry Hl b Hb Htext. cbn in Hl.
    destruct (decide ((name', text) = make_key name args)) as [Hkey|Hne].
    + unfold make_key in Hkey. inv Hkey.
      rewrite (same_key_accepts name b args Hb Hwf) by done.
      by eapply dispatch_ok_accepts.
    + rewrite lookup_insert_ne in Hl by done. rewrite Hc2 in Hl.
      apply Hsub in Hl. by eapply Hok.
  - destruct (cache_get_frame _ _ _ _ _ _ Hget) as (evs & _ & _ & Hsub & _).
    destruct (dispatch_frame _ _ _ _ _ _ Hd) as (Hc2 & _).
    intros name' text entry Hl. rewrite Hc2 in Hl. apply Hsub in Hl. by eapply Hok.
Qed.

Lemma reachable_cache_keys_accepted e s : reachable e s → cache_keys_accepted s.
Proof.
  induction 1 as [|s name args _ IH Hwf].
  - intros name text entry Hl. cbn in Hl. by rewrite lookup_empty in Hl.
  - by apply cache_keys_accepted_call.
Qed.

(** In a reachable state, arguments that are not accepted have no entry. *)
Lemma refused_arguments_miss name args e s :
  reachable e s → dict_wf args → accepts name args = false →
  _cache s !! make_key name args = None.
Proof.
  intros Hreach Hwf Hacc.
  destruct (_cache s !! make_key name args) as [entry|] eqn:Hl; [|done].
  pose proof (reachable_cache_keys_accepted _ _ Hreach) as Hok.
  unfold make_key in Hl. rewrite (Hok _ _ _ Hl args Hwf eq_refl) in Hacc. done.
Qed.

(** Their calls read the cache, miss, and are answered with the envelope of
    what the operation raises; nothing else happens. *)
Lemma call_tool_refused name args e s x :
  reachable e s → dict_wf args → name ≠ "health" →
  accepts name args = false →
  (∀ e' s', dispatch name args e' s' = (Raise x, s')) →
  call_tool name args e s
    = (Ok (failure x), log (EvCacheGet (make_key name args)) (after_tick s)).
Proof.
  intros Hreach Hwf Hname Hacc Hx.
  pose proof (refused_arguments_miss _ _ _ _ Hreach Hwf Hacc) as Hmiss.
  rewrite (call_tool_miss name args e s (log (EvCacheGet (make_key name args)) (after_tick s)));
    [by rewrite Hx|done|].
  by apply cache_get_absent.
Qed.

(** A validation failure is not free of cache reads, and not every argument
    object outside the declared types is turned down: the dispatcher looks
    the call up in the cache before it routes it, and an [id] given as the
    string "12" is converted and requested. *)
Lemma validation_counterexample :
  let e := {| TMDB_API_KEY := Some "k";
              net := λ _, Responds (Response 200 (inr (PDict [("results", PList [])])));
              clock := λ _, float_of_Z 1700000000; utcnow := λ _, "" |} in
  (call_tool "search_title" [] e initial_state).1
    = Ok (validation_envelope "query is required")
  ∧ trace (call_tool "search_title" [] e initial_state).2
    = [EvCacheGet ("search_title", [TLBrace; TRBrace])]
  ∧ isError <$> (call_tool "get_recommendations" [("id", PStr "12"); ("type", PStr "movie")]
                   e initial_state).1 = Ok false
  ∧ trace (_get_recommendations [("id", PStr "12"); ("type", PStr "movie")] e initial_state).2
    = [EvRequest "https://api.themoviedb.org/3/movie/12/recommendations"
         [("language", PStr "en-US"); ("api_key", PStr "k")]].
Proof. repeat split; vm_compute; reflexivity. Qed.



(* ================================================================== *)
(** * The result normaliser                                            *)
(* ================================================================== *)


Lemma map_search_item_run (item : dict) item_type :
  _map_search_item (PDict item) item_type =
    (year ← (if truthy (date_field item) then
               match date_field item with
               | PStr s => PInt <$> py_int (PStr (split_first "-" s))
               | _ => no_attribute (date_field item) "split"
               end
             else Ok PNone);
     rating ← py_float (py_or (arg item "vote_average") (PFloat (S754_zero false)));
     id ← (raw ← py_getitem (PDict item) "id"; py_int raw);
     Ok (PDict [("id", PInt id);
                ("title", title_of item);
                ("type", item_type);
                ("year", year);
                ("rating", PFloat rating);
                ("overview", default (PStr "") (dict_get "overview" item));
                ("poster_path", arg item "poster_path")])).
Proof.
  unfold _map_search_item, get_none, py_get, title_of, date_field, py_or, arg.
  unfold mbind, result_bind.
  destruct (truthy (default PNone (dict_get "title" item)));
    destruct (truthy (default PNone (dict_get "release_date" item))) eqn:Hd;
    cbn match; rewrite ?Hd; reflexivity.
Qed.

Lemma py_int_exceptions v x :
  py_int v = Raise x →
  ∃ cls message,
    x = PyError cls message ∧ (cls = TypeError ∨ cls = ValueError ∨ cls = OverflowError).
Proof.
  destruct v as [| | |f|q| |]; cbn; try (intros [= <-]; eexists _, _; by eauto); try done.
  - destruct f; try done; intros [= <-]; eexists _, _; by eauto.
  - destruct (exceeds_digit_limit q); [intros [= <-]; eexists _, _; by eauto|].
    destruct (parse_int q); [done|]. intros [= <-]. eexists _, _; by eauto.
Qed.

Lemma py_float_exceptions v x :
  py_float v = Raise x →
  ∃ cls message,
    x = PyError cls message ∧ (cls = TypeError ∨ cls = ValueError ∨ cls = OverflowError).
Proof.
  destruct v as [| |z| |q| |]; cbn; try (intros [= <-]; eexists _, _; by eauto); try done.
  - unfold float_of_int. destruct (float_is_finite _); [done|].
    intros [= <-]. eexists _, _; by eauto.
  - destruct (parse_float q); [done|]. intros [= <-]. eexists _, _; by eauto.
Qed.

(** the exceptions of the normaliser, in the order it evaluates: the year,
    the rating, the id *)
Lemma map_search_item_exceptions (item : dict) item_type x :
  _map_search_item (PDict item) item_type = Raise x →
  ∃ cls message,
    x = PyError cls message
    ∧ cls ∈ [KeyError; ValueError; AttributeError; TypeError; OverflowError]
    ∧ (cls = KeyError → dict_get "id" item = None)
    ∧ (cls = AttributeError →
       truthy (date_field item) = true ∧ ∀ s, date_field item ≠ PStr s).
Proof.
  rewrite map_search_item_run. unfold mbind, result_bind.
  assert (Hnum : ∀ cls, cls = TypeError ∨ cls = ValueError ∨ cls = OverflowError →
            cls ∈ [KeyError; ValueError; AttributeError; TypeError; OverflowError]
            ∧ (cls = KeyError → dict_get "id" item = None)
            ∧ (cls = AttributeError →
               truthy (date_field item) = true ∧ ∀ s, date_field item ≠ PStr s)).
  { intros cls [-> | [-> | ->]]; (split; [|by split]); apply list_elem_of_In; cbn; tauto. }
  destruct (truthy (date_field item)) eqn:Htruthy.
  - destruct (date_field item) as [| | | |s| |] eqn:Hdate;
      try (intros [= <-]; eexists _, _; split; [reflexivity|];
           split; [apply list_elem_of_In; cbn; tauto|]; by split).
    destruct (py_int (PStr (split_first "-" s))) as [y|x0] eqn:Hy.
    + cbn [fmap result_fmap].
      destruct (py_float _) as [f|x1] eqn:Hf.
      * cbn [py_getitem]. destruct (dict_get "id" item) as [raw|] eqn:Hid.
        -- destruct (py_int raw) as [n|x2] eqn:Hint; [done|]. intros [= <-].
           destruct (py_int_exceptions _ _ Hint) as (cls & message & -> & Hcls).
           exists cls, message. split; [done|]. by apply Hnum.
        -- intros [= <-]. eexists _, _. split; [reflexivity|].
           split; [apply list_elem_of_In; cbn; tauto|]. by split.
      * intros [= <-].
        destruct (py_float_exceptions _ _ Hf) as (cls & message & -> & Hcls).
        exists cls, message. split; [done|]. by apply Hnum.
    + cbn [fmap result_fmap]. intros [= <-].
      destruct (py_int_exceptions _ _ Hy) as (cls & message & -> & Hcls).
      exists cls, message. split; [done|]. by apply Hnum.
  - destruct (py_float _) as [f|x1] eqn:Hf.
    + cbn [py_getitem]. destruct (dict_get "id" item) as [raw|] eqn:Hid.
      * destruct (py_int raw) as [n|x2] eqn:Hint; [done|]. intros [= <-].
        destruct (py_int_exceptions _ _ Hint) as (cls & message & -> & Hcls).
        exists cls, message. split; [done|]. by apply Hnum.
      * intros [= <-]. eexists _, _. split; [reflexivity|].
        split; [apply list_elem_of_In; cbn; tauto|]. by split.
    + intros [= <-].
      destruct (py_float_exceptions _ _ Hf) as (cls & message & -> & Hcls).
      exists cls, message. split; [done|]. by apply Hnum.
Qed.



(* ================================================================== *)
(** * More on the upstream client                                      *)
(* ================================================================== *)

(** A turn that observes anything else ends the loop. *)
Lemma tmdb_attempts_final attempt rest backoff url params e s :
  transient (net e (sent s)) = None →
  tmdb_attempts (attempt :: rest) backoff url params e s
    = (attempt_result (net e (sent s)), after_request url params s).
Proof.
  intros Hx. rewrite tmdb_attempts_cons. cbn zeta. unfold attempt_result.
  rewrite Hx. unfold transient in Hx.
  destruct (net e (sent s)) as [cls msg|resp].
  - by destruct cls.
  - destruct (status_code resp =? 429); [discriminate|].
    destruct (500 <=? status_code resp); [discriminate|]. 
    destruct (400 <=? status_code resp); [reflexivity|].
    by destruct (json resp).
Qed.

(** The loop of [_tmdb_get], unrolled. *)
Lemma tmdb_get_unrolled path params e s :
  key_configured (TMDB_API_KEY e) = true →
  _tmdb_get path params e s
    = (attempt_result (net e (sent s + attempts_made e s - 1)%nat),
       after_fetch e path params (attempts_made e s) s).
Proof.
  intros Hkey.
  unfold _tmdb_get, mbind, M_bind, get_api_key. rewrite Hkey. cbn [negb].
  change (seqZ 1 MAX_RETRIES) with [1; 2; 3].
  unfold attempts_made, after_fetch, request_of.
  destruct (transient (net e (sent s))) as [x0|] eqn:H0.
  2:{ rewrite tmdb_attempts_final by done.
      replace (sent s + 1 - 1)%nat with (sent s) by lia.
      unfold after_request. cbn. do 2 f_equal. lia. }
  rewrite (tmdb_attempts_transient _ _ _ _ _ _ _ x0) by exact H0.
  cbn [Z.eqb Pos.eqb MAX_RETRIES].
  destruct (transient (net e (S (sent s)))) as [x1|] eqn:H1.
  2:{ rewrite tmdb_attempts_final by exact H1.
      replace (sent s + 2 - 1)%nat with (S (sent s)) by lia.
      unfold after_request, log. cbn. f_equal. f_equal; [lia|].
      by rewrite <- !app_assoc. }
  rewrite (tmdb_attempts_transient _ _ _ _ _ _ _ x1) by exact H1.
  cbn [Z.eqb Pos.eqb MAX_RETRIES].
  replace (sent s + 3 - 1)%nat with (S (S (sent s))) by lia.
  rewrite backoff_doubles_once.
  destruct (transient (net e (S (S (sent s))))) as [x2|] eqn:H2.
  - rewrite (tmdb_attempts_transient _ _ _ _ _ _ _ x2) by exact H2.
    cbn [Z.eqb Pos.eqb MAX_RETRIES]. unfold attempt_result. rewrite H2.
    unfold after_request, log. cbn. f_equal. f_equal; [lia|].
    by rewrite <- !app_assoc.
  - rewrite tmdb_attempts_final by exact H2.
    unfold after_request, log. cbn. f_equal. f_equal; [lia|].
    by rewrite <- !app_assoc.
Qed.

Lemma tmdb_get_unconfigured path params e s :
  key_configured (TMDB_API_KEY e) = false →
  _tmdb_get path params e s
    = (Raise (TMDBError "TMDB_API_KEY missing in environment" "CONFIG_ERROR" 500), s).
Proof.
  intros Hkey. unfold _tmdb_get, mbind, M_bind, get_api_key. by rewrite Hkey.
Qed.

(** X1.  In every environment a fetch with the credential configured makes
    one, two or three attempts: it goes on exactly while the attempts are
    transient failures, sleeps 1.0 then 2.0 seconds between attempts, sends
    the same request each time (the parameters with [api_key] added), leaves
    the cache and the clock alone, and returns what the attempt it stopped at
    gives. *)
Theorem tmdb_get_retry_discipline path params e s :
  key_configured (TMDB_API_KEY e) = true →
  ∃ n,
    (1 ≤ n ≤ 3)%nat
    ∧ _tmdb_get path params e s
      = (attempt_result (net e (sent s + n - 1)%nat),
         {| _cache := _cache s; ticks := ticks s; sent := (sent s + n)%nat;
            trace := trace s ++ retry_events (request_of e path params) n |})
    ∧ (∀ i, (i + 1 < n)%nat → is_Some (transient (net e (sent s + i)%nat)))
    ∧ ((n < 3)%nat → transient (net e (sent s + n - 1)%nat) = None).
Proof.
  intros Hkey. exists (attempts_made e s).
  rewrite (tmdb_get_unrolled _ _ _ _ Hkey). unfold attempts_made, after_fetch.
  destruct (transient (net e (sent s))) as [x0|] eqn:H0.
  2:{ split; [lia|]. split; [done|]. split; [intros i Hi; lia|].
      intros _. by replace (sent s + 1 - 1)%nat with (sent s) by lia. }
  destruct (transient (net e (S (sent s)))) as [x1|] eqn:H1.
  2:{ split; [lia|]. split; [done|]. split.
      - intros i Hi. assert (i = 0)%nat as -> by lia.
        rewrite Nat.add_0_r, H0. by eexists.
      - intros _. by replace (sent s + 2 - 1)%nat with (S (sent s)) by lia. }
  split; [lia|]. split; [done|]. split; [|lia].
  intros i Hi. assert (i = 0 ∨ i = 1)%nat as [-> | ->] by lia.
  - rewrite Nat.add_0_r, H0. by eexists.
  - replace (sent s + 1)%nat with (S (sent s)) by lia. rewrite H1. by eexists.
Qed.

Lemma tmdb_get_retry_discipline_witness :
  ∃ n, (1 ≤ n ≤ 3)%nat
       ∧ _tmdb_get "/search/movie" [("query", PStr "Inception")] demo_env initial_state
         = (attempt_result (net demo_env (n - 1)%nat),
            {| _cache := ∅; ticks := 0; sent := n;
               trace := retry_events
                          (request_of demo_env "/search/movie" [("query", PStr "Inception")])
                          n |}).
Proof.
  destruct (tmdb_get_retry_discipline "/search/movie" [("query", PStr "Inception")]
              demo_env initial_state eq_refl) as (n & Hn & Hrun & _).
  exists n. split; [exact Hn|exact Hrun].
Defined.

(** X2.  A transient failure is forgotten when a later attempt succeeds: a
    success at the second attempt is returned after two requests and one
    sleep of 1.0, a success at the third after three requests and sleeps of
    1.0 and 2.0. *)
Theorem tmdb_get_recovers path params e s status body :
  key_configured (TMDB_API_KEY e) = true →
  status < 400 →
  is_Some (transient (net e (sent s))) →
  (net e (S (sent s)) = Responds (Response status (inr body)) →
   _tmdb_get path params e s = (Ok body, after_fetch e path params 2 s))
  ∧ (is_Some (transient (net e (S (sent s)))) →
     net e (S (S (sent s))) = Responds (Response status (inr body)) →
     _tmdb_get path params e s = (Ok body, after_fetch e path params 3 s)).
Proof.
  intros Hkey Hlt [x0 H0].
  assert (Hok : attempt_result (Responds (Response status (inr body))) = Ok body).
  { unfold attempt_result, transient. cbn [status_code json].
    destruct (Z.eqb_spec status 429); [lia|].
    destruct (Z.leb_spec 500 status); [lia|].
    destruct (Z.leb_spec 400 status); [lia|]. done. }
  assert (Hnt : transient (Responds (Response status (inr body))) = None).
  { unfold transient. cbn [status_code].
    destruct (Z.eqb_spec status 429); [lia|].
    destruct (Z.leb_spec 500 status); [lia|]. done. }
  rewrite (tmdb_get_unrolled _ _ _ _ Hkey). unfold attempts_made. rewrite H0. split.
  - intros H1. rewrite H1, Hnt.
    replace (sent s + 2 - 1)%nat with (S (sent s)) by lia. by rewrite H1, Hok.
  - intros [x1 H1] H2. rewrite H1.
    replace (sent s + 3 - 1)%nat with (S (S (sent s))) by lia. by rewrite H2, Hok.
Qed.

Lemma tmdb_get_recovers_witness :
  _tmdb_get "/search/movie" [] flaky_env initial_state
  = (Ok (PDict [("results", PList [inception])]),
     after_fetch flaky_env "/search/movie" [] 2 initial_state).
Proof.
  apply (proj1 (tmdb_get_recovers "/search/movie" [] flaky_env initial_state 200
                  (PDict [("results", PList [inception])]) eq_refl eq_refl
                  (ex_intro _ _ eq_refl))).
  reflexivity.
Defined.

(** X3.  What is not transient is final at the first attempt: a success
    status with a body that does not parse fails with [JSON_ERROR] carrying
    the parser's message, and an exception of the HTTP client other than
    [httpx.RequestError] propagates as it is; one request, no sleep. *)
Theorem tmdb_get_not_retried path params e s :
  key_configured (TMDB_API_KEY e) = true →
  (∀ status msg,
     net e (sent s) = Responds (Response status (inl msg)) → status < 400 →
     _tmdb_get path params e s
       = (Raise (TMDBError ("Failed to parse TMDB JSON: " +:+ msg) "JSON_ERROR" 500),
          after_fetch e path params 1 s))
  ∧ (∀ cls msg,
       net e (sent s) = Fails cls msg → cls ≠ RequestError →
       _tmdb_get path params e s = (Raise (PyError cls msg), after_fetch e path params 1 s)).
Proof.
  intros Hkey. split.
  - intros status msg Hnet Hlt.
    rewrite (tmdb_get_unrolled _ _ _ _ Hkey). unfold attempts_made.
    assert (Hnt : transient (net e (sent s)) = None).
    { rewrite Hnet. unfold transient. cbn [status_code].
      destruct (Z.eqb_spec status 429); [lia|].
      destruct (Z.leb_spec 500 status); [lia|]. done. }
    rewrite Hnt. replace (sent s + 1 - 1)%nat with (sent s) by lia.
    unfold attempt_result. rewrite Hnt, Hnet. cbn [status_code json].
    by destruct (Z.leb_spec 400 status); [lia|].
  - intros cls msg Hnet Hcls.
    rewrite (tmdb_get_unrolled _ _ _ _ Hkey). unfold attempts_made.
    assert (Hnt : transient (net e (sent s)) = None).
    { rewrite Hnet. by destruct cls. }
    rewrite Hnt. replace (sent s + 1 - 1)%nat with (sent s) by lia.
    unfold attempt_result. by rewrite Hnt, Hnet.
Qed.

Lemma tmdb_get_not_retried_witness :
  let e := {| TMDB_API_KEY := Some "k";
              net := λ _, Responds (Response 200 (inl "Expecting value"));
              clock := λ _, float_of_Z 0; utcnow := λ _, "" |} in
  _tmdb_get "/discover/tv" [] e initial_state
  = (Raise (TMDBError "Failed to parse TMDB JSON: Expecting value" "JSON_ERROR" 500),
     after_fetch e "/discover/tv" [] 1 initial_state).
Proof.
  intros e.
  apply (proj1 (tmdb_get_not_retried "/discover/tv" [] e initial_state eq_refl)
           200 "Expecting value" eq_refl).
  lia.
Defined.

(* ================================================================== *)
(** * More on the operations and the dispatcher                        *)
(* ================================================================== *)

Lemma same_but_clock_refl s : same_but_clock s s.
Proof. by repeat split. Qed.

Lemma same_but_clock_tick s : same_but_clock s (after_tick s).
Proof. repeat split. cbn. lia. Qed.

(** after the fetch an operation reads the clock at most *)
Lemma after_fetch_steps {A B C} (r1 : result A) (f2 : A → result B) (f3 : B → result C)
    (k : C → spec_float → pyval) e s :
  same_but_clock s
    ((x ← lift r1; y ← lift (f2 x); z ← lift (f3 y);
      fetched_at ← time_time; mret (k z fetched_at)) e s).2.
Proof.
  unfold mbind, M_bind, lift. destruct r1 as [x|]; [|apply same_but_clock_refl].
  destruct (f2 x) as [y|]; [|apply same_but_clock_refl].
  destruct (f3 y) as [z|]; [|apply same_but_clock_refl].
  apply same_but_clock_tick.
Qed.

Ltac tail_steps :=
  intros data e s1; unfold mbind, M_bind, lift;
  repeat match goal with
         | |- same_but_clock _ (let (_, _) := (?r, _) in _).2 =>
             first [destruct r as [?|?] | cbn beta iota]
         | |- same_but_clock _ (match ?r with Ok _ => _ | Raise _ => _ end).2 =>
             destruct r as [?|?]
         | |- same_but_clock _ (if ?b then _ else _ ).2 => destruct b
         | |- same_but_clock _ ((if ?b then _ else _) _ _).2 => destruct b
         end;
  first [apply same_but_clock_refl | apply same_but_clock_tick].

(** An accepted call is one fetch, of the target the arguments give, and
    then clock readings only. *)
Lemma dispatch_shape name args :
  accepts name args = true →
  ∃ path params (k : pyval → M pyval),
    request_target name args = Some (path, params)
    ∧ (∀ data e s1, same_but_clock s1 (k data e s1).2)
    ∧ ∀ e s, dispatch name args e s = (_tmdb_get path params ≫= k) e s.
Proof.
  unfold accepts, dispatch, request_target. intros Hacc.
  destruct (String.eqb name "search_title").
  { unfold search_title_accepts in Hacc. unfold _search_title.
    destruct (default (PStr "") (dict_get "query" args)) as [| | | |q| |]; try discriminate.
    apply andb_prop in Hacc as [Hacc Hyear]. apply andb_prop in Hacc as [Hq Htype].
    apply negb_true_iff in Hq.
    eexists _, _, _. split; [reflexivity|]. split; [|intros e s].
    2:{ unfold mbind at 1, M_bind at 1, lift, py_strip. rewrite Hq, Htype. cbn [negb].
        unfold mbind at 1, M_bind at 1. rewrite (with_year_ok _ _ _ _ _ Hyear).
        match goal with
        | |- context [_tmdb_get ?p ?ps] =>
            replace ps with
              ([("query", PStr (strip q));
                ("language", py_or (arg args "language") (PStr "en-US"));
                ("include_adult", PBool false)]
               ++ year_param (py_or (arg args "type") (PStr "movie")) (arg args "year"))
        end.
        - reflexivity.
        - unfold year_param. destruct (arg args "year"); try reflexivity;
            by destruct (py_eq_str _ "movie"). }
    tail_steps. }
  destruct (String.eqb name "get_recommendations").
  { unfold get_recommendations_accepts in Hacc. unfold _get_recommendations.
    destruct (py_int (arg args "id")) as [n|]; [|discriminate].
    eexists _, _, _. split; [reflexivity|]. split; [|intros e s].
    2:{ unfold mbind at 1, M_bind at 1. cbn [mret M_ret]. rewrite Hacc. cbn [negb].
        reflexivity. }
    tail_steps. }
  destruct (String.eqb name "discover"); [|discriminate].
  unfold discover_accepts in Hacc. unfold _discover.
  apply andb_prop in Hacc as [Hacc Hyear]. apply andb_prop in Hacc as [Htype Hsort].
  destruct (py_or (arg args "sort_by") (PStr "popularity")) as [| | | |sort| |] eqn:Hs;
    try discriminate.
  eexists _, _, _. split; [reflexivity|]. split; [|intros e s].
  2:{ rewrite Htype, Hsort. cbn [negb].
      unfold mbind at 1, M_bind at 1. rewrite (with_year_ok _ _ _ _ _ Hyear).
      match goal with
      | |- context [_tmdb_get ?p ?ps] =>
          replace ps with
            ([("language", py_or (arg args "language") (PStr "en-US"));
              ("include_adult", PBool false);
              ("sort_by", PStr (sort +:+ ".desc"))]
             ++ year_param (arg args "type") (arg args "year"))
      end.
      - reflexivity.
      - unfold year_param. destruct (arg args "year"); try reflexivity;
          by destruct (py_eq_str _ "movie"). }
  tail_steps.
Qed.

(** What a routed operation does to the state: nothing but clock readings,
    or the one fetch of its target. *)
Lemma dispatch_requests name args e s :
  same_but_clock s (dispatch name args e s).2
  ∨ (key_configured (TMDB_API_KEY e) = true
     ∧ accepts name args = true
     ∧ ∃ path params,
         request_target name args = Some (path, params)
         ∧ same_but_clock (after_fetch e path params (attempts_made e s) s)
             (dispatch name args e s).2).
Proof.
  destruct (accepts name args) eqn:Hacc.
  2:{ left. destruct (dispatch_refuses name args Hacc) as [x Hx]. rewrite Hx.
      apply same_but_clock_refl. }
  destruct (dispatch_shape name args Hacc) as (path & params & k & Ht & Hk & Hrun).
  rewrite Hrun. unfold mbind, M_bind.
  destruct (key_configured (TMDB_API_KEY e)) eqn:Hkey.
  - right. split; [done|]. split; [done|]. exists path, params. split; [done|].
    rewrite (tmdb_get_unrolled _ _ _ _ Hkey).
    destruct (attempt_result _) as [body|x]; [apply Hk|apply same_but_clock_refl].
  - left. rewrite (tmdb_get_unconfigured _ _ _ _ Hkey). apply same_but_clock_refl.
Qed.

Lemma retry_events_elem request n ev :
  ev ∈ retry_events request n → ev = request ∨ ∃ seconds, ev = EvSleep seconds.
Proof.
  destruct n as [|[|[|n]]]; cbn; intros Hin;
    repeat (apply elem_of_cons in Hin as [->|Hin]; [by eauto|]);
    by apply elem_of_nil in Hin.
Qed.

Lemma attempts_made_bound e s : (1 ≤ attempts_made e s ≤ 3)%nat.
Proof.
  unfold attempts_made. destruct (transient _); [|lia]. destruct (transient _); lia.
Qed.

(** A lookup sends nothing. *)
Lemma cache_get_no_request name args e s r1 s1 :
  _cache_get name args e s = (r1, s1) →
  ∃ evs1, trace s1 = trace s ++ evs1
          ∧ (∀ url ps, EvRequest url ps ∉ evs1)
          ∧ sent s1 = sent s.
Proof.
  intros Hg.
  destruct (cache_get_cases name args e s)
    as [[_ H]|[(ts&data&_&_&H)|(ts&data&_&_&H)]]; rewrite H in Hg; inv Hg;
    eexists; (split; [reflexivity|]); (split; [|reflexivity]);
    intros url ps Hin;
    repeat (apply elem_of_cons in Hin as [Hin|Hin]; [discriminate|]);
    by apply elem_of_nil in Hin.
Qed.

(** The requests of a routed operation. *)
Lemma dispatch_request_events name args e s1 :
  ∃ evs2,
    trace (dispatch name args e s1).2 = trace s1 ++ evs2
    ∧ (sent s1 ≤ sent (dispatch name args e s1).2 ≤ sent s1 + 3)%nat
    ∧ ∀ url sent_params,
        EvRequest url sent_params ∈ evs2 →
        key_configured (TMDB_API_KEY e) = true
        ∧ ∃ path params,
            request_target name args = Some (path, params)
            ∧ url = TMDB_BASE_URL +:+ path
            ∧ sent_params = dict_set "api_key" (PStr (default "" (TMDB_API_KEY e))) params.
Proof.
  destruct (dispatch_requests name args e s1)
    as [Hsame|(Hkey & _ & path & params & Ht & Hsame)];
    destruct Hsame as (_ & Hs & Htr & _).
  - exists []. split; [by rewrite app_nil_r|]. split; [lia|].
    intros url ps Hin. by apply elem_of_nil in Hin.
  - exists (retry_events (request_of e path params) (attempts_made e s1)).
    split; [by rewrite Htr|].
    pose proof (attempts_made_bound e s1).
    split; [rewrite Hs; cbn; lia|].
    intros url ps Hin.
    apply retry_events_elem in Hin as [Heq|[sec Heq]]; [|done].
    unfold request_of in Heq. inv Heq. split; [done|]. by exists path, params.
Qed.

(** X4.  Every call makes at most three HTTP attempts, and every request
    it sends is the one request its name and arguments determine: the base
    URL followed by the path of the operation, and the parameters of the
    operation with the configured credential as [api_key]. *)
Theorem call_tool_request_budget name args e s :
  ∃ evs,
    trace (call_tool name args e s).2 = trace s ++ evs
    ∧ (sent s ≤ sent (call_tool name args e s).2 ≤ sent s + 3)%nat
    ∧ ∀ url sent_params,
        EvRequest url sent_params ∈ evs →
        key_configured (TMDB_API_KEY e) = true
        ∧ ∃ path params,
            request_target name args = Some (path, params)
            ∧ url = TMDB_BASE_URL +:+ path
            ∧ sent_params = dict_set "api_key" (PStr (default "" (TMDB_API_KEY e))) params.
Proof.
  destruct (call_tool_outcome name args e s) as (r & s' & Hrun & Hout).
  rewrite Hrun. cbn [snd].
  destruct Hout as [Hn|data s1 Hn Hg Hdata|s1 payload s2 Hn Hg Hd|s1 x s2 Hn Hg Hd].
  - exists []. split; [by rewrite app_nil_r|]. split; [cbn; lia|].
    intros ?? Hin. by apply elem_of_nil in Hin.
  - destruct (cache_get_no_request _ _ _ _ _ _ Hg) as (evs1 & Ht1 & Hnoreq & Hs1).
    exists evs1. split; [done|]. split; [cbn in *; lia|].
    intros url ps Hin. by destruct (Hnoreq url ps).
  - destruct (cache_get_no_request _ _ _ _ _ _ Hg) as (evs1 & Ht1 & Hnoreq & Hs1).
    destruct (dispatch_request_events name args e s1) as (evs2 & Ht2 & Hb & Hreq).
    rewrite Hd in Ht2, Hb. cbn [snd] in Ht2, Hb.
    exists (evs1 ++ evs2 ++ [EvCacheSet (make_key name args) (clock e (ticks s2), payload)]).
    split; [cbn; rewrite Ht2, Ht1; cbn; by rewrite <- !app_assoc|].
    split; [cbn in *; lia|].
    intros url ps Hin.
    apply elem_of_app in Hin as [Hin|Hin]; [by destruct (Hnoreq url ps)|].
    apply elem_of_app in Hin as [Hin|Hin]; [by apply Hreq|].
    apply list_elem_of_singleton in Hin. discriminate.
  - destruct (cache_get_no_request _ _ _ _ _ _ Hg) as (evs1 & Ht1 & Hnoreq & Hs1).
    destruct (dispatch_request_events name args e s1) as (evs2 & Ht2 & Hb & Hreq).
    rewrite Hd in Ht2, Hb. cbn [snd] in Ht2, Hb.
    exists (evs1 ++ evs2).
    split; [rewrite Ht2, Ht1; cbn; by rewrite <- !app_assoc|].
    split; [cbn in *; lia|].
    intros url ps Hin.
    apply elem_of_app in Hin as [Hin|Hin]; [by destruct (Hnoreq url ps)|].
    by apply Hreq.
Qed.

Lemma call_tool_request_budget_witness :
  (sent (call_tool "discover" [("type", PStr "movie")] flaky_env initial_state).2 ≤ 3)%nat
  ∧ ∀ url sent_params,
      EvRequest url sent_params
        ∈ trace (call_tool "discover" [("type", PStr "movie")] flaky_env initial_state).2 →
      url = "https://api.themoviedb.org/3/discover/movie".
Proof.
  destruct (call_tool_request_budget "discover" [("type", PStr "movie")]
              flaky_env initial_state) as (evs & Htrace & Hbudget & Hreq).
  split; [exact (proj2 Hbudget)|].
  intros url sent_params Hin. rewrite Htrace in Hin. cbn [initial_state trace app] in Hin.
  destruct (Hreq url sent_params Hin) as (_ & path & params & Ht & -> & _).
  vm_compute in Ht. by inv Ht.
Defined.

(* ================================================================== *)
(** * What the operations return                                       *)
(* ================================================================== *)

Lemma result_map_ok {A B} (f : A → result B) l ys :
  result_map f l = Ok ys ↔ Forall2 (λ x y, f x = Ok y) l ys.
Proof.
  revert ys. induction l as [|x l IH]; intros ys; cbn.
  - split; [intros [= <-]; constructor|by inversion 1].
  - unfold mbind, result_bind. split.
    + destruct (f x) as [y|] eqn:Hy; [|done].
      destruct (result_map f l) as [ys'|]; [|done].
      intros [= <-]. constructor; [done|by apply IH].
    + inversion 1 as [|? y ? ys' Hy Hrest]; subst. rewrite Hy.
      apply IH in Hrest. by rewrite Hrest.
Qed.

(** the list comprehension stops at the first item that raises *)
Lemma result_map_raise {A B} (f : A → result B) l x :
  result_map f l = Raise x ↔
  ∃ pre item rest ys,
    l = pre ++ item :: rest ∧ Forall2 (λ a y, f a = Ok y) pre ys ∧ f item = Raise x.
Proof.
  induction l as [|a l IH]; cbn.
  - split; [done|]. intros (pre & item & rest & ys & Hl & _). by destruct pre.
  - unfold mbind, result_bind. destruct (f a) as [y|x0] eqn:Hy.
    + destruct (result_map f l) as [ys'|x1] eqn:Hrest.
      * split; [done|]. intros (pre & item & rest & ys & Hl & Hpre & Hitem).
        destruct pre as [|a' pre]; cbn in Hl; inv Hl; [congruence|].
        inversion Hpre; subst.
        assert (Hc : Ok ys' = Raise x); [|done].
        apply IH. by eexists pre, item, rest, _.
      * split.
        -- intros [= ->].
           destruct (proj1 IH eq_refl) as (pre & item & rest & ys & -> & Hd & Hi).
           exists (a :: pre), item, rest, (y :: ys).
           split; [done|]. split; [by constructor|done].
        -- intros (pre & item & rest & ys & Hl & Hpre & Hitem).
           destruct pre as [|a' pre]; cbn in Hl; inv Hl; [congruence|].
           inversion Hpre; subst.
           apply IH. by eexists pre, item, rest, _.
    + split.
      * intros [= ->]. exists [], a, l, []. split; [done|]. split; [constructor|done].
      * intros (pre & item & rest & ys & Hl & Hpre & Hitem).
        destruct pre as [|a' pre]; cbn in Hl; inv Hl; [congruence|].
        inversion Hpre; subst. congruence.
Qed.

Lemma accepts_target name args :
  accepts name args = true → is_Some (request_target name args).
Proof.
  intros Hacc. destruct (dispatch_shape name args Hacc) as (path & params & _ & -> & _).
  by eexists.
Qed.

(** An accepted call, run: the fetch of its target, then what [collect]
    makes of the body, stamped with the clock. *)
Lemma dispatch_run name args e s path params :
  accepts name args = true →
  key_configured (TMDB_API_KEY e) = true →
  request_target name args = Some (path, params) →
  dispatch name args e s =
    match attempt_result (net e (sent s + attempts_made e s - 1)%nat)
          ≫= collect name args with
    | Ok mapped =>
        (Ok (operation_payload mapped (clock e (ticks s))),
         after_tick (after_fetch e path params (attempts_made e s) s))
    | Raise x => (Raise x, after_fetch e path params (attempts_made e s) s)
    end.
Proof.
  unfold accepts, dispatch, request_target. intros Hacc Hkey Ht.
  destruct (String.eqb_spec name "search_title") as [->|Hn1].
  { unfold search_title_accepts in Hacc. unfold _search_title, collect, query_of.
    destruct (default (PStr "") (dict_get "query" args)) as [| | | |q| |]; try discriminate.
    apply andb_prop in Hacc as [Hacc Hyear]. apply andb_prop in Hacc as [Hq Htype].
    apply negb_true_iff in Hq. inv Ht.
    unfold mbind at 1, M_bind at 1, lift, py_strip. rewrite Hq, Htype. cbn [negb].
    unfold mbind at 1, M_bind at 1. rewrite (with_year_ok _ _ _ _ _ Hyear).
    match goal with
    | |- context [_tmdb_get ?p ?ps] =>
        replace ps with
          ([("query", PStr (strip q));
            ("language", py_or (arg args "language") (PStr "en-US"));
            ("include_adult", PBool false)]
           ++ year_param (py_or (arg args "type") (PStr "movie")) (arg args "year"))
    end.
    2:{ unfold year_param. destruct (arg args "year"); try reflexivity;
          by destruct (py_eq_str _ "movie"). }
    unfold mbind at 1, M_bind at 1. rewrite (tmdb_get_unrolled _ _ _ _ Hkey).
    destruct (attempt_result _) as [body|x]; [|reflexivity].
    unfold mbind, M_bind, result_bind, lift. cbn [String.eqb Ascii.eqb Bool.eqb andb].
    destruct (py_get body "results" (PList [])) as [results|x]; [|reflexivity].
    destruct (truthy results); cbn [negb]; [|reflexivity].
    destruct (py_iter results) as [items|x]; [|reflexivity].
    unfold normalise, item_type_of. cbn [String.eqb Ascii.eqb Bool.eqb].
    by destruct (result_map _ items). }
  destruct (String.eqb_spec name "get_recommendations") as [->|Hn2].
  { unfold get_recommendations_accepts in Hacc. unfold _get_recommendations, collect.
    destruct (py_int (arg args "id")) as [n|]; [|discriminate]. inv Ht.
    unfold mbind at 1, M_bind at 1. cbn [mret M_ret]. rewrite Hacc. cbn [negb].
    unfold mbind at 1, M_bind at 1. rewrite (tmdb_get_unrolled _ _ _ _ Hkey).
    destruct (attempt_result _) as [body|x]; [|reflexivity].
    unfold mbind, M_bind, result_bind, lift. cbn [String.eqb Ascii.eqb Bool.eqb andb].
    destruct (py_get body "results" (PList [])) as [results|x]; [|reflexivity].
    destruct (py_iter results) as [items|x]; [|reflexivity].
    unfold normalise, item_type_of. cbn [String.eqb Ascii.eqb Bool.eqb].
    by destruct (result_map _ items). }
  destruct (String.eqb_spec name "discover") as [->|Hn3]; [|discriminate].
  unfold discover_accepts in Hacc. unfold _discover, collect.
  apply andb_prop in Hacc as [Hacc Hyear]. apply andb_prop in Hacc as [Htype Hsort].
  destruct (py_or (arg args "sort_by") (PStr "popularity")) as [| | | |sort| |] eqn:Hs;
    try discriminate.
  inv Ht. rewrite Htype, Hsort. cbn [negb].
  unfold mbind at 1, M_bind at 1. rewrite (with_year_ok _ _ _ _ _ Hyear).
  match goal with
  | |- context [_tmdb_get ?p ?ps] =>
      replace ps with
        ([("language", py_or (arg args "language") (PStr "en-US"));
          ("include_adult", PBool false);
          ("sort_by", PStr (sort +:+ ".desc"))]
         ++ year_param (arg args "type") (arg args "year"))
  end.
  2:{ unfold year_param. destruct (arg args "year"); try reflexivity;
        by destruct (py_eq_str _ "movie"). }
  unfold mbind at 1, M_bind at 1. rewrite (tmdb_get_unrolled _ _ _ _ Hkey).
  destruct (attempt_result _) as [body|x]; [|reflexivity].
  unfold mbind, M_bind, result_bind, lift. cbn [String.eqb Ascii.eqb Bool.eqb andb].
  destruct (py_get body "results" (PList [])) as [results|x]; [|reflexivity].
  destruct (py_iter results) as [items|x]; [|reflexivity].
  unfold normalise, item_type_of. cbn [String.eqb Ascii.eqb Bool.eqb].
  by destruct (result_map _ items).
Qed.

Lemma dispatch_unconfigured name args e s :
  key_configured (TMDB_API_KEY e) = false →
  ∃ x, dispatch name args e s = (Raise x, s)
       ∧ (accepts name args = true →
          x = TMDBError "TMDB_API_KEY missing in environment" "CONFIG_ERROR" 500).
Proof.
  intros Hkey. destruct (accepts name args) eqn:Hacc.
  - destruct (dispatch_shape name args Hacc) as (path & params & k & _ & _ & Hrun).
    rewrite Hrun. unfold mbind, M_bind. rewrite (tmdb_get_unconfigured _ _ _ _ Hkey).
    by eexists.
  - destruct (dispatch_refuses name args Hacc) as [x Hx]. exists x. by rewrite Hx.
Qed.

Lemma dispatch_ok_configured name args e s payload s' :
  dispatch name args e s = (Ok payload, s') → key_configured (TMDB_API_KEY e) = true.
Proof.
  intros Hd. destruct (key_configured (TMDB_API_KEY e)) eqn:Hkey; [done|].
  destruct (dispatch_unconfigured name args e s Hkey) as (x & Hx & _). congruence.
Qed.

Lemma py_iter_truthy results items :
  truthy results = true → py_iter results = Ok items → items ≠ [].
Proof.
  destruct results as [| | | |q|l|d]; cbn; try done.
  - destruct q; [done|]. by intros _ [= <-].
  - destruct l; [done|]. by intros _ [= <-].
  - destruct d; [done|]. by intros _ [= <-].
Qed.

(** X5.  What a data operation returns when it succeeds: the client's last
    attempt gave a body; the payload has one record for each item of the
    body's [results], in the provider's order, each the normalisation of its
    item (nothing is filtered, sorted or cut); [source] is TMDB and
    [fetched_at] is the clock when the operation ends.  [search_title] never
    succeeds with an empty list. *)
Theorem operation_results_in_order name args e s payload s' :
  dispatch name args e s = (Ok payload, s') →
  ∃ body results items mapped,
    attempt_result (net e (sent s + attempts_made e s - 1)%nat) = Ok body
    ∧ py_get body "results" (PList []) = Ok results
    ∧ py_iter results = Ok items
    ∧ Forall2 (λ item out, normalise name args item = Ok out) items mapped
    ∧ (name = "search_title" → mapped ≠ [])
    ∧ payload = PDict [("results", PList mapped);
                       ("source", PStr "TMDB");
                       ("fetched_at", PFloat (clock e (ticks s)))].
Proof.
  intros Hd.
  pose proof (dispatch_ok_accepts _ _ _ _ _ _ Hd) as Hacc.
  pose proof (dispatch_ok_configured _ _ _ _ _ _ Hd) as Hkey.
  destruct (accepts_target name args Hacc) as [[path params] Ht].
  rewrite (dispatch_run _ _ _ _ _ _ Hacc Hkey Ht) in Hd.
  destruct (attempt_result _) as [body|x]; [|discriminate].
  unfold mbind at 1, result_bind at 1 in Hd. unfold collect in Hd.
  unfold mbind at 1, result_bind at 1 in Hd.
  destruct (py_get body "results" (PList [])) as [results|x] eqn:Hres; [|discriminate].
  destruct (String.eqb name "search_title" && negb (truthy results)) eqn:Hempty;
    [discriminate|].
  unfold mbind at 1, result_bind at 1 in Hd.
  destruct (py_iter results) as [items|x] eqn:Hiter; [|discriminate].
  destruct (result_map (normalise name args) items) as [mapped|x] eqn:Hmap; [|discriminate].
  inv Hd. apply result_map_ok in Hmap.
  exists body, results, items, mapped.
  split; [done|]. split; [done|]. split; [done|]. split; [done|]. split; [|done].
  intros -> ->. cbn in Hempty. apply negb_false_iff in Hempty.
  inversion Hmap; subst. by apply (py_iter_truthy results []).
Qed.

Lemma operation_results_in_order_witness :
  ∃ out,
    (dispatch "discover" [("type", PStr "movie")] test_env initial_state).1
      = Ok (PDict [("results", PList [out]);
                   ("source", PStr "TMDB");
                   ("fetched_at", PFloat (clock test_env 0))])
    ∧ _map_search_item inception (PStr "movie") = Ok out.
Proof.
  destruct (dispatch "discover" [("type", PStr "movie")] test_env initial_state)
    as [[payload|x] s'] eqn:Hd; [|by vm_compute in Hd].
  destruct (operation_results_in_order _ _ _ _ _ _ Hd)
    as (body & results & items & mapped & Hbody & Hres & Hiter & Hmap & _ & ->).
  vm_compute in Hbody. inv Hbody. vm_compute in Hres. inv Hres.
  vm_compute in Hiter. inv Hiter.
  inversion Hmap as [|? out ? rest Hout Hrest]; subst. inversion Hrest; subst.
  exists out. split; [reflexivity|exact Hout].
Defined.

Lemma result_map_exists_raise {A B} (f : A → result B) l :
  Exists (λ a, ∃ x, f a = Raise x) l →
  ∃ x item, result_map f l = Raise x ∧ item ∈ l ∧ f item = Raise x.
Proof.
  induction 1 as [a l [x Hx]|a l _ (x & item & Hrun & Hin & Hitem)]; cbn;
    unfold mbind, result_bind.
  - rewrite Hx. exists x, a. split; [done|]. split; [by left|done].
  - destruct (f a) as [y|x0] eqn:Hy.
    + rewrite Hrun. exists x, item. split; [done|]. split; [by right|done].
    + exists x0, a. split; [done|]. split; [by left|done].
Qed.

Lemma unclassified_normalise name args item : unclassified (normalise name args item).
Proof.
  unfold normalise. destruct (String.eqb name "get_recommendations");
    [apply unclassified_recommendation|apply unclassified_map_search_item].
Qed.



(* ================================================================== *)
(** * A server without the credential                                  *)
(* ================================================================== *)

(** Without the credential nothing is ever sent or stored. *)
Lemma unconfigured_reachable e s :
  key_configured (TMDB_API_KEY e) = false → reachable e s →
  _cache s = ∅ ∧ sent s = 0%nat.
Proof.
  intros Hkey. induction 1 as [|s name args Hreach [Hcache Hsent] Hwf]; [done|].
  destruct (call_tool_outcome name args e s) as (r & s' & Hrun & Hout).
  rewrite Hrun. cbn [snd].
  assert (Hget : _cache_get name args e (after_tick s)
                 = (Ok PNone, log (EvCacheGet (make_key name args)) (after_tick s))).
  { apply cache_get_absent. cbn. by rewrite Hcache. }
  destruct Hout as [Hn|data s1 Hn Hg Hdata|s1 payload s2 Hn Hg Hd|s1 x s2 Hn Hg Hd].
  - done.
  - rewrite Hget in Hg. by inv Hg.
  - by rewrite (dispatch_ok_configured _ _ _ _ _ _ Hd) in Hkey.
  - rewrite Hget in Hg. inv Hg.
    destruct (dispatch_unconfigured name args e
                (log (EvCacheGet (make_key name args)) (after_tick s)) Hkey)
      as (x' & Hx' & _).
    rewrite Hx' in Hd. by inv Hd.
Qed.

(** X7.  A server started without the credential never sends a request and
    never stores anything: whatever calls it has answered, its cache is empty,
    the health check reports the key as missing and zero entries, and every
    other call is answered with an error after the cache lookup alone; the
    error is [CONFIG_ERROR] whenever the arguments pass the checks of the
    operation. *)
Theorem unconfigured_server_only_errors e s :
  key_configured (TMDB_API_KEY e) = false → reachable e s →
  _cache s = ∅ ∧ sent s = 0%nat
  ∧ (∀ args,
       call_tool "health" args e s
       = (Ok (success (health_payload false 0 (utcnow e (ticks s)))), after_tick s))
  ∧ ∀ name args,
      name ≠ "health" →
      ∃ x,
        call_tool name args e s
        = (Ok (failure x), log (EvCacheGet (make_key name args)) (after_tick s))
        ∧ isError (failure x) = true
        ∧ (accepts name args = true →
           x = TMDBError "TMDB_API_KEY missing in environment" "CONFIG_ERROR" 500).
Proof.
  intros Hkey Hreach.
  destruct (unconfigured_reachable e s Hkey Hreach) as [Hcache Hsent].
  split; [done|]. split; [done|]. split.
  - intros args. unfold call_tool. cbn [String.eqb Ascii.eqb Bool.eqb].
    unfold mbind, M_bind, get_api_key, cache_len, datetime_now_isoformat. cbn [mret M_ret].
    assert (Hsize : size (_cache s) = 0%nat) by (by rewrite Hcache).
    rewrite Hkey, Hsize. reflexivity.
  - intros name args Hname.
    destruct (dispatch_unconfigured name args e
                (log (EvCacheGet (make_key name args)) (after_tick s)) Hkey)
      as (x & Hx & Hconfig).
    exists x. split; [|done].
    rewrite (call_tool_miss name args e s
               (log (EvCacheGet (make_key name args)) (after_tick s)) Hname).
    + by rewrite Hx.
    + apply cache_get_absent. cbn. by rewrite Hcache.
Qed.

Lemma unconfigured_server_only_errors_witness :
  let s := (call_tool "discover" [("type", PStr "movie")] unconfigured_env initial_state).2 in
  _cache s = ∅ ∧ sent s = 0%nat
  ∧ (call_tool "search_title" [("query", PStr "Inception")] unconfigured_env s).1
    = Ok (failure (TMDBError "TMDB_API_KEY missing in environment" "CONFIG_ERROR" 500)).
Proof.
  intros s.
  assert (Hreach : reachable unconfigured_env s).
  { apply reachable_call; [apply reachable_initial|].
    unfold dict_wf. cbn. apply NoDup_singleton. }
  destruct (unconfigured_server_only_errors unconfigured_env s eq_refl Hreach)
    as (Hcache & Hsent & _ & Hcalls).
  split; [exact Hcache|]. split; [exact Hsent|].
  destruct (Hcalls "search_title" [("query", PStr "Inception")]) as (x & Hrun & _ & Hx);
    [done|].
  rewrite Hrun. cbn [fst]. by rewrite (Hx eq_refl).
Defined.

(* ================================================================== *)
(** * The reason of a recommendation                                   *)
(* ================================================================== *)

(** X8.  A recommendation is made from objects only, and keeps the id, the
    title and the year of the normalised item (type, rating, overview and
    poster are dropped).  Its [reason] is [None] exactly when [vote_average]
    and [popularity] are both falsy (missing, [None], zero, empty); a truthy
    [vote_average] is quoted with one decimal, a truthy [popularity] adds the
    fixed phrase, and the two are joined by a semicolon. *)
Theorem recommendation_reason_cases item_type item out :
  recommendation item_type item = Ok out →
  ∃ (d : dict) base id title year reason,
    item = PDict d
    ∧ _map_search_item item item_type = Ok base
    ∧ py_getitem base "id" = Ok id
    ∧ py_getitem base "title" = Ok title
    ∧ py_getitem base "year" = Ok year
    ∧ out = PDict [("id", id); ("title", title); ("year", year); ("reason", reason)]
    ∧ match truthy (arg d "vote_average"), truthy (arg d "popularity") with
      | false, false => reason = PNone
      | false, true => reason = PStr "popular among similar viewers"
      | true, false =>
          ∃ shown, py_format_1f (arg d "vote_average") = Ok shown
                   ∧ reason = PStr ("high user rating " +:+ shown)
      | true, true =>
          ∃ shown, py_format_1f (arg d "vote_average") = Ok shown
                   ∧ reason = PStr (("high user rating " +:+ shown)
                                    +:+ "; popular among similar viewers")
      end.
Proof.
  unfold recommendation. intros H. unfold mbind, result_bind in H.
  destruct (_map_search_item item item_type) as [base|] eqn:Hbase; [|discriminate].
  destruct item as [| | | | | |d]; try (cbn in Hbase; discriminate).
  exists d, base.
  unfold get_none, py_get in H. fold (arg d "vote_average") in H.
  fold (arg d "popularity") in H.
  assert (Hva : truthy (arg d "vote_average") = true →
                py_getitem (PDict d) "vote_average" = Ok (arg d "vote_average")).
  { unfold arg. cbn [py_getitem]. by destruct (dict_get "vote_average" d). }
  destruct (truthy (arg d "vote_average")) eqn:Htva.
  - rewrite (Hva eq_refl) in H.
    destruct (py_format_1f (arg d "vote_average")) as [shown|] eqn:Hshown; [|discriminate].
    destruct (py_getitem base "id") as [id|]; [|discriminate].
    destruct (py_getitem base "title") as [title|]; [|discriminate].
    destruct (py_getitem base "year") as [year|]; [|discriminate].
    destruct (truthy (arg d "popularity")); inv H;
      eexists _, _, _, _; (split; [done|]); (split; [done|]); (split; [done|]);
      (split; [done|]); (split; [done|]); (split; [reflexivity|]);
      exists shown; (split; [done|]); reflexivity.
  - destruct (py_getitem base "id") as [id|]; [|discriminate].
    destruct (py_getitem base "title") as [title|]; [|discriminate].
    destruct (py_getitem base "year") as [year|]; [|discriminate].
    destruct (truthy (arg d "popularity")); inv H;
      eexists _, _, _, _; (split; [done|]); (split; [done|]); (split; [done|]);
      (split; [done|]); (split; [done|]); (split; [reflexivity|]); reflexivity.
Qed.

Lemma recommendation_reason_cases_witness :
  ∃ year,
    recommendation (PStr "movie")
      (PDict [("id", PInt 27205); ("title", PStr "Inception");
              ("release_date", PStr "2010-07-16");
              ("vote_average", PInt 8); ("popularity", PInt 90)])
    = Ok (PDict [("id", PInt 27205); ("title", PStr "Inception"); ("year", year);
                 ("reason", PStr "high user rating 8.0; popular among similar viewers")]).
Proof.
  destruct (recommendation (PStr "movie")
              (PDict [("id", PInt 27205); ("title", PStr "Inception");
                      ("release_date", PStr "2010-07-16");
                      ("vote_average", PInt 8); ("popularity", PInt 90)]))
    as [out|x] eqn:Hrun; [|by vm_compute in Hrun].
  destruct (recommendation_reason_cases _ _ _ Hrun)
    as (d & base & id & title & year & reason & Hd & Hbase & Hid & Htitle & Hyear & -> & Hr).
  inv Hd. vm_compute in Hbase. inv Hbase.
  vm_compute in Hid. inv Hid. vm_compute in Htitle. inv Htitle.
  vm_compute in Hyear. inv Hyear.
  cbn [arg dict_get String.eqb Ascii.eqb Bool.eqb default truthy Z.eqb negb] in Hr.
  destruct Hr as (shown & Hshown & ->). vm_compute in Hshown. inv Hshown.
  by eexists.
Defined.

(* ================================================================== *)
(** * The advertised schemas and the checks of the operations          *)
(* ================================================================== *)

Lemma elem_of_list_tools tool :
  tool ∈ list_tools →
  name tool = "search_title" ∧ required (inputSchema tool) = ["query"]
  ∨ name tool = "get_recommendations" ∧ required (inputSchema tool) = ["id"; "type"]
  ∨ name tool = "discover" ∧ required (inputSchema tool) = ["type"]
  ∨ name tool = "health" ∧ required (inputSchema tool) = [].
Proof.
  unfold list_tools. intros Hin.
  repeat (apply elem_of_cons in Hin as [->|Hin]; [tauto|]).
  by apply elem_of_nil in Hin.
Qed.

(** X9.  Every property a tool advertises as required is enforced by its
    operation: arguments without it are refused before any request, with the
    state untouched.  The refusal is a [VALIDATION_ERROR]; the one exception
    is [get_recommendations] given an [id] that [int] refuses with
    [OverflowError] (and no [type]). *)
Theorem required_arguments_enforced tool k (args : dict) :
  tool ∈ list_tools →
  k ∈ required (inputSchema tool) →
  dict_get k args = None →
  ∃ x,
    (∀ e s, dispatch (name tool) args e s = (Raise x, s))
    ∧ ((name tool = "get_recommendations" →
        ∀ message, py_int (arg args "id") ≠ Raise (PyError OverflowError message)) →
       ∃ message, x = TMDBError message "VALIDATION_ERROR" 400).
Proof.
  intros Htool Hk Hmissing.
  assert (Hacc : accepts (name tool) args = false
                 ∧ ((name tool = "get_recommendations" →
                     ∀ message, py_int (arg args "id") ≠ Raise (PyError OverflowError message)) →
                    validation_rejects (name tool) args = true)).
  { destruct (elem_of_list_tools tool Htool)
      as [[-> Hr]|[[-> Hr]|[[-> Hr]|[-> Hr]]]]; rewrite Hr in Hk.
    - apply list_elem_of_singleton in Hk as ->.
      unfold accepts, validation_rejects, search_title_accepts.
      cbn [String.eqb Ascii.eqb Bool.eqb]. rewrite Hmissing. by cbn.
    - unfold accepts, validation_rejects, get_recommendations_accepts.
      cbn [String.eqb Ascii.eqb Bool.eqb].
      apply elem_of_cons in Hk as [->|Hk].
      + unfold arg. rewrite Hmissing. by cbn.
      + apply list_elem_of_singleton in Hk as ->.
        assert (Htype : arg args "type" = PNone) by (unfold arg; by rewrite Hmissing).
        rewrite Htype. cbn [py_in2 py_eq_str orb negb].
        destruct (py_int (arg args "id")) as [n|x] eqn:Hint; [done|].
        split; [done|]. intros Hover.
        destruct (py_int_exceptions _ _ Hint) as (cls & message & Hx & Hcls).
        subst x. destruct Hcls as [Hc|[Hc|Hc]]; subst cls;
          [done|done|by destruct (Hover eq_refl message)].
    - apply list_elem_of_singleton in Hk as ->.
      unfold accepts, validation_rejects, discover_accepts.
      cbn [String.eqb Ascii.eqb Bool.eqb].
      assert (Htype : arg args "type" = PNone) by (unfold arg; by rewrite Hmissing).
      rewrite Htype. by cbn.
    - by apply elem_of_nil in Hk. }
  destruct Hacc as [Hacc Hrej].
  destruct (dispatch_refuses _ _ Hacc) as [x Hx]. exists x. split; [exact Hx|].
  intros Hover. destruct (dispatch_validation_error _ _ (Hrej Hover)) as [message Hm].
  exists message. pose proof (Hx unconfigured_env initial_state) as H1.
  rewrite Hm in H1. by inv H1.
Qed.

Lemma required_arguments_enforced_witness :
  ∃ message, ∀ e s,
    dispatch "get_recommendations" [("id", PInt 603)] e s
    = (Raise (TMDBError message "VALIDATION_ERROR" 400), s).
Proof.
  assert (Hin : ∃ tool, tool ∈ list_tools ∧ name tool = "get_recommendations"
                        ∧ "type" ∈ required (inputSchema tool)).
  { eexists. split; [right; left|]. split; [reflexivity|]. cbn. right. left. }
  destruct Hin as (tool & Hin & Hname & Hk).
  destruct (required_arguments_enforced tool "type" [("id", PInt 603)] Hin Hk eq_refl)
    as (x & Hx & Hval).
  rewrite Hname in Hx. destruct Hval as [message ->]; [done|].
  exists message. exact Hx.
Defined.

Lemma py_eq_str_true v s : py_eq_str v s = true → v = PStr s.
Proof. destruct v; cbn; try done. intros H. apply String.eqb_eq in H. by subst. Qed.

Lemma not_in_pair v s1 s2 :
  truthy v = true → v ∉ [PStr s1; PStr s2] → ∀ dflt, py_in2 (py_or v dflt) s1 s2 = false.
Proof.
  intros Ht Hnot dflt. unfold py_or. rewrite Ht. unfold py_in2.
  apply orb_false_intro.
  - destruct (py_eq_str v s1) eqn:H; [|done]. apply py_eq_str_true in H. subst.
    destruct Hnot. by left.
  - destruct (py_eq_str v s2) eqn:H; [|done]. apply py_eq_str_true in H. subst.
    destruct Hnot. right. by left.
Qed.

Lemma enum_of_list_tools tool k allowed :
  tool ∈ list_tools →
  enum_of (inputSchema tool) k = Some allowed →
  (k = "type" ∧ allowed = [PStr "movie"; PStr "tv"] ∧ name tool ∈ data_operations)
  ∨ (k = "sort_by" ∧ allowed = [PStr "popularity"; PStr "vote_average"]
     ∧ name tool = "discover").
Proof.
  unfold list_tools. intros Hin.
  repeat (apply elem_of_cons in Hin as [->|Hin]); [..|by apply elem_of_nil in Hin];
    cbn [enum_of inputSchema name dict_get String.eqb Ascii.eqb Bool.eqb];
    repeat match goal with
           | |- context [String.eqb k ?b] => destruct (String.eqb_spec k b) as [->|?]
           end;
    cbn [dict_get String.eqb Ascii.eqb Bool.eqb]; try done;
    intros [= <-]; [left|left|left|right]; (split; [done|]); (split; [done|]);
    try done; unfold data_operations; set_solver.
Qed.

(** X10.  The values the schemas list under [enum] are the only truthy
    values the operations let through: a call whose [type] (for the three
    data tools) or [sort_by] (for [discover]) is truthy and is not one of the
    advertised values is refused before any request, with the state untouched.
    (A falsy value is another matter: [search_title] takes a falsy [type] as
    movie, and [discover] a falsy [sort_by] as popularity.) *)
Theorem advertised_enum_enforced tool k allowed (args : dict) v :
  tool ∈ list_tools →
  enum_of (inputSchema tool) k = Some allowed →
  dict_get k args = Some v →
  truthy v = true →
  v ∉ allowed →
  ∃ x,
    (∀ e s, dispatch (name tool) args e s = (Raise x, s))
    ∧ (name tool = "discover" → ∃ message, x = TMDBError message "VALIDATION_ERROR" 400).
Proof.
  intros Htool Henum Hget Htruthy Hnot.
  assert (Harg : arg args k = v) by (unfold arg; by rewrite Hget).
  assert (Hacc : accepts (name tool) args = false).
  { destruct (enum_of_list_tools tool k allowed Htool Henum)
      as [(-> & -> & Hname)|(-> & -> & Hname)].
    - pose proof (not_in_pair v "movie" "tv" Htruthy Hnot) as Hout.
      assert (Haux : py_in2 v "movie" "tv" = false).
      { specialize (Hout PNone). unfold py_or in Hout. by rewrite Htruthy in Hout. }
      unfold accepts.
      destruct (String.eqb (name tool) "search_title").
      { unfold search_title_accepts. rewrite Harg, (Hout (PStr "movie")).
        destruct (default (PStr "") (dict_get "query" args)); try done.
        by rewrite andb_false_r. }
      destruct (String.eqb (name tool) "get_recommendations").
      { unfold get_recommendations_accepts. rewrite Harg, Haux.
        by destruct (py_int (arg args "id")). }
      destruct (String.eqb (name tool) "discover"); [|done].
      unfold discover_accepts. by rewrite Harg, Haux.
    - rewrite Hname. unfold accepts. cbn [String.eqb Ascii.eqb Bool.eqb].
      unfold discover_accepts.
      rewrite Harg, (not_in_pair v "popularity" "vote_average" Htruthy Hnot).
      by rewrite andb_false_r. }
  destruct (dispatch_refuses _ _ Hacc) as [x Hx]. exists x. split; [exact Hx|].
  intros Hname. rewrite Hname in Hacc, Hx. unfold accepts in Hacc.
  cbn [String.eqb Ascii.eqb Bool.eqb] in Hacc.
  destruct (discover_refuses args Hacc) as [message Hm]. exists message.
  pose proof (Hx unconfigured_env initial_state) as H1. unfold dispatch in H1.
  cbn [String.eqb Ascii.eqb Bool.eqb] in H1. rewrite Hm in H1. by inv H1.
Qed.

Lemma advertised_enum_enforced_witness :
  ∃ message, ∀ e s,
    dispatch "discover" [("type", PStr "movie"); ("sort_by", PStr "release_date")] e s
    = (Raise (TMDBError message "VALIDATION_ERROR" 400), s).
Proof.
  assert (Hin : ∃ tool, tool ∈ list_tools ∧ name tool = "discover"
                        ∧ enum_of (inputSchema tool) "sort_by"
                          = Some [PStr "popularity"; PStr "vote_average"]).
  { eexists. split; [right; right; left|]. split; reflexivity. }
  destruct Hin as (tool & Hin & Hname & Henum).
  destruct (advertised_enum_enforced tool "sort_by" _
              [("type", PStr "movie"); ("sort_by", PStr "release_date")]
              (PStr "release_date") Hin Henum eq_refl eq_refl)
    as (x & Hx & Hval).
  { intros Hbad. apply list_elem_of_In in Hbad. cbn in Hbad. intuition discriminate. }
  rewrite Hname in Hx. destruct (Hval Hname) as [message ->].
  exists message. exact Hx.
Defined.

(* ================================================================== *)
(** * The errors of the upstream client                                *)
(* ================================================================== *)

Lemma transient_codes_status o message code status :
  transient o = Some (TMDBError message code status) →
  (code = "NETWORK_ERROR" ∧ status = 500 ∧ ∃ msg, o = Fails RequestError msg)
  ∨ (code = "RATE_LIMIT" ∧ status = 429 ∧ ∃ body, o = Responds (Response 429 body))
  ∨ (code = "UPSTREAM_ERROR" ∧ 500 ≤ status ∧ ∃ body, o = Responds (Response status body)).
Proof.
  unfold transient. destruct o as [cls msg|[st body]]; cbn [status_code].
  - destruct cls; try done. intros [= <- <- <-]. left. by eauto.
  - destruct (Z.eqb_spec st 429) as [->|Hne].
    + intros [= <- <- <-]. right. left. by eauto.
    + destruct (Z.leb_spec 500 st); [|done].
      intros [= <- <- <-]. right. right. by eauto.
Qed.

Lemma attempt_result_codes o message code status :
  attempt_result o = Raise (TMDBError message code status) →
  transient o = Some (TMDBError message code status)
  ∨ (transient o = None
     ∧ ((code = "BAD_REQUEST" ∧ 400 ≤ status < 500 ∧ status ≠ 429
         ∧ ∃ body, o = Responds (Response status body))
        ∨ (code = "JSON_ERROR" ∧ status = 500))).
Proof.
  unfold attempt_result. destruct (transient o) as [x|] eqn:Ht.
  - intros [= ->]. by left.
  - intros H. right. split; [done|].
    destruct o as [cls msg|[st body]]; [done|]. cbn [status_code json] in H.
    unfold transient in Ht. cbn [status_code] in Ht.
    destruct (Z.eqb_spec st 429); [done|].
    destruct (Z.leb_spec 500 st); [done|].
    destruct (Z.leb_spec 400 st).
    + inv H. left. split; [done|]. split; [lia|]. split; [done|]. by eauto.
    + destruct body; inv H. by right.
Qed.

Ltac code_cases :=
  repeat match goal with
         | |- _ ∧ _ => split
         | |- _ ↔ _ => split
         | |- _ ∈ _ => apply list_elem_of_In; cbn [In]; auto 10
         | |- _ → _ => intros ?
         | H : _ ∈ _ |- _ =>
             apply list_elem_of_In in H; unfold transient_codes in H; cbn [In] in H
         | H : _ ∨ _ |- _ => destruct H
         | H : False |- _ => destruct H
         | H : @eq string _ _ |- _ => discriminate H
         | H : @eq bool _ _ |- _ => discriminate H
         end;
  try done; try lia.

(** X11.  The classified errors of the upstream client.  Its codes are
    [CONFIG_ERROR], [NETWORK_ERROR], [RATE_LIMIT], [UPSTREAM_ERROR],
    [BAD_REQUEST] and [JSON_ERROR]: the [UNKNOWN_ERROR] after the loop is never
    raised.  [CONFIG_ERROR] is raised exactly when the credential is missing,
    and then nothing is sent; the three transient codes are raised after the
    third attempt only; [RATE_LIMIT] carries status 429, [UPSTREAM_ERROR] and
    [BAD_REQUEST] the status of the provider's last answer (500 or more, or
    from 400 to 499 and not 429), the other codes status 500. *)
Theorem tmdb_get_error_codes path params e s message code status :
  (_tmdb_get path params e s).1 = Raise (TMDBError message code status) →
  let s' := (_tmdb_get path params e s).2 in
  code ∈ ["CONFIG_ERROR"; "NETWORK_ERROR"; "RATE_LIMIT"; "UPSTREAM_ERROR";
          "BAD_REQUEST"; "JSON_ERROR"]
  ∧ (code = "CONFIG_ERROR" ↔ key_configured (TMDB_API_KEY e) = false)
  ∧ (code = "CONFIG_ERROR" → s' = s)
  ∧ (code ∈ transient_codes → sent s' = (sent s + 3)%nat)
  ∧ (code = "RATE_LIMIT" → status = 429)
  ∧ (code = "UPSTREAM_ERROR" →
     500 ≤ status ∧ ∃ body, net e (sent s' - 1)%nat = Responds (Response status body))
  ∧ (code = "BAD_REQUEST" →
     400 ≤ status < 500 ∧ status ≠ 429
     ∧ ∃ body, net e (sent s' - 1)%nat = Responds (Response status body))
  ∧ (code ∈ ["CONFIG_ERROR"; "NETWORK_ERROR"; "JSON_ERROR"] → status = 500).
Proof.
  intros Hrun s'. subst s'.
  destruct (key_configured (TMDB_API_KEY e)) eqn:Hkey.
  2:{ rewrite (tmdb_get_unconfigured _ _ _ _ Hkey) in Hrun |- *. cbn [fst snd] in *.
      inv Hrun. code_cases. }
  rewrite (tmdb_get_unrolled _ _ _ _ Hkey) in Hrun |- *. cbn [fst snd] in *.
  unfold after_fetch. cbn [sent].
  replace (sent s + attempts_made e s - 1)%nat
    with (sent s + (attempts_made e s - 1))%nat in *
    by (pose proof (attempts_made_bound e s); lia).
  assert (Hthird : is_Some (transient (net e (sent s + (attempts_made e s - 1))%nat)) →
                   attempts_made e s = 3%nat).
  { unfold attempts_made. intros [x Hx]. revert Hx.
    destruct (transient (net e (sent s))) as [x0|] eqn:H0; cbn [Nat.sub].
    - destruct (transient (net e (S (sent s)))) as [x1|] eqn:H1; [done|].
      cbn [Nat.sub]. replace (sent s + 1)%nat with (S (sent s)) by lia. congruence.
    - rewrite Nat.add_0_r. congruence. }
  apply attempt_result_codes in Hrun as [Ht|[Ht Hrun]].
  - specialize (Hthird (ex_intro _ _ Ht)). rewrite Hthird in *. cbn [Nat.sub] in Ht.
    replace (sent s + 3 - 1)%nat with (sent s + 2)%nat by lia.
    unfold transient_codes.
    apply transient_codes_status in Ht
      as [(-> & -> & _)|[(-> & -> & _)|(-> & Hst & body & Hbody)]]; code_cases.
    by exists body.
  - unfold transient_codes.
    destruct Hrun as [(-> & Hst & Hne & body & Hbody)|(-> & ->)]; code_cases.
    by exists body.
Qed.

Lemma tmdb_get_error_codes_witness :
  let e := {| TMDB_API_KEY := Some "k";
              net := λ _, Responds (Response 503 (inl "unavailable"));
              clock := λ _, float_of_Z 0; utcnow := λ _, "" |} in
  (_tmdb_get "/discover/tv" [] e initial_state).1
    = Raise (TMDBError "TMDB service unavailable" "UPSTREAM_ERROR" 503)
  ∧ sent (_tmdb_get "/discover/tv" [] e initial_state).2 = 3%nat.
Proof.
  intros e.
  assert (Hrun : (_tmdb_get "/discover/tv" [] e initial_state).1
                 = Raise (TMDBError "TMDB service unavailable" "UPSTREAM_ERROR" 503)).
  { by vm_compute. }
  split; [exact Hrun|].
  destruct (tmdb_get_error_codes _ _ _ _ _ _ _ Hrun) as (_ & _ & _ & Hthree & _).
  apply Hthree. unfold transient_codes. right. right. left.
Defined.

(* ================================================================== *)
(** * Which calls share a cache entry                                  *)
(* ================================================================== *)

Lemma dict_get_elem (d : dict) k v :
  dict_wf d → dict_get k d = Some v ↔ (k, v) ∈ d.
Proof.
  intros Hd. induction d as [|[k0 v0] d IHd]; cbn.
  - split; [done|]. intros H. by apply elem_of_nil in H.
  - apply NoDup_cons in Hd as [Hnotin Hd].
    destruct (String.eqb_spec k k0) as [->|Hne].
    + split.
      * intros [= ->]. by left.
      * intros Hin. apply elem_of_cons in Hin as [[= ->]|Hin]; [done|].
        destruct Hnotin. apply list_elem_of_fmap. by exists (k0, v).
    + rewrite IHd by done. split.
      * intros Hin. by right.
      * intros Hin. apply elem_of_cons in Hin as [[= -> ->]|Hin]; done.
Qed.

(** dictionaries with the same lookups hold the same items *)
Lemma dict_lookup_perm (a b : dict) :
  dict_wf a → dict_wf b → (∀ k, dict_get k a = dict_get k b) → a ≡ₚ b.
Proof.
  intros Ha Hb Hsame. apply NoDup_Permutation.
  - by apply (NoDup_fmap_1 fst).
  - by apply (NoDup_fmap_1 fst).
  - intros [k v]. by rewrite <- !dict_get_elem, Hsame.
Qed.

(** the text of a list gives the texts of its elements *)
Lemma json_dumps_list_texts sort_keys l l' :
  json_dumps sort_keys (PList l) = json_dumps sort_keys (PList l') →
  json_dumps sort_keys <$> l = json_dumps sort_keys <$> l'.
Proof.
  rewrite !json_dumps_list. intros Heq. inv Heq.
  assert (H1 : comma_sep (id <$> (json_dumps sort_keys <$> l)) ++ TRBrack :: []
               = comma_sep (id <$> (json_dumps sort_keys <$> l')) ++ TRBrack :: []) by done.
  apply comma_sep_inj in H1 as [Hl _]; [done|done| |].
  - intros x Hx. apply elem_of_app in Hx as [Hx|Hx];
      apply list_elem_of_fmap in Hx as (v0 & -> & _);
      destruct (json_dumps_head sort_keys v0) as (t & ts & -> & Ht);
      exists t, ts; (split; [done|]); by intros ->.
  - intros x x' q q' Hx Hx' Hq.
    apply list_elem_of_fmap in Hx as (v0 & -> & Hv0).
    apply list_elem_of_fmap in Hx' as (v0' & -> & _).
    by apply (json_dumps_self_delimiting sort_keys v0 v0').
Qed.

(** A value without objects inside can be read back from its text. *)
Lemma json_dumps_flat_inj sort_keys v :
  flat v = true → ∀ v', flat v' = true →
  json_dumps sort_keys v = json_dumps sort_keys v' → v = v'.
Proof.
  induction v as [|b|z|f|s|l IH|d IH] using pyval_nested_ind; intros Hf v' Hf' Heq.
  1-5: destruct v' as [|b'| | | | |]; try destruct b; try destruct b';
       cbn in Heq; try (by inv Heq); try done.
  - destruct v' as [|[]| | | |l'|]; try (cbn in Heq; by inv Heq); try done.
    apply json_dumps_list_texts in Heq. f_equal.
    cbn [flat] in Hf, Hf'. rewrite forallb_forall in Hf, Hf'.
    revert l' Hf' Heq. induction l as [|x l IHl]; intros [|x' l'] Hf' Heq;
      try done.
    cbn in Heq. injection Heq as Hx Hrest.
    apply Forall_cons in IH as [IHx IH]. f_equal.
    + apply IHx; [apply Hf; by left|apply Hf'; by left|done].
    + apply IHl; [done|intros y Hy; apply Hf; by right|
                  intros y Hy; apply Hf'; by right|done].
  - done.
Qed.

(** X12.  Which calls share a cache entry.  For arguments without objects
    inside (all that the advertised schemas allow), two calls have the same
    cache key exactly when they name the same tool and their arguments are the
    same items up to the order of the keys. *)
Theorem cache_key_shared_iff name1 name2 (args1 args2 : dict) :
  dict_wf args1 → dict_wf args2 →
  Forall (λ kv, flat kv.2 = true) args1 →
  Forall (λ kv, flat kv.2 = true) args2 →
  make_key name1 args1 = make_key name2 args2 ↔ name1 = name2 ∧ args1 ≡ₚ args2.
Proof.
  intros Hwf1 Hwf2 Hflat1 Hflat2. split.
  - unfold make_key. intros Heq.
    pose proof (f_equal fst Heq) as Hname. pose proof (f_equal snd Heq) as Htext.
    cbn [fst snd] in Hname, Htext. split; [done|].
    apply dict_lookup_perm; [done|done|]. intros k.
    pose proof (key_text_lookup args1 args2 k Hwf1 Hwf2 Htext) as Hk.
    destruct (dict_get k args1) as [v1|] eqn:H1, (dict_get k args2) as [v2|] eqn:H2;
      try done.
    f_equal. injection Hk as Hk.
    apply (dict_get_elem _ _ _ Hwf1) in H1. apply (dict_get_elem _ _ _ Hwf2) in H2.
    rewrite Forall_forall in Hflat1, Hflat2.
    apply (json_dumps_flat_inj true); [apply (Hflat1 _ H1)|apply (Hflat2 _ H2)|done].
  - intros [-> Hperm]. by apply make_key_permutation.
Qed.

Lemma cache_key_shared_iff_witness :
  let args1 : dict := [("id", PInt 603); ("type", PStr "movie")] in
  let args2 : dict := [("id", PStr "603"); ("type", PStr "movie")] in
  make_key "get_recommendations" args1 = make_key "get_recommendations" args2
  ↔ "get_recommendations" = "get_recommendations" ∧ args1 ≡ₚ args2.
Proof.
  intros args1 args2.
  assert (Hwf : ∀ v, dict_wf [("id", v); ("type", PStr "movie")]).
  { intros v. unfold dict_wf. cbn. apply NoDup_cons. split; [|apply NoDup_singleton].
    intros Hin. apply list_elem_of_singleton in Hin. discriminate. }
  apply (cache_key_shared_iff "get_recommendations" "get_recommendations" args1 args2
           (Hwf _) (Hwf _)).
  - by repeat constructor.
  - by repeat constructor.
Defined.

(* ================================================================== *)
(** * What the cache holds                                             *)
(* ================================================================== *)

(** X13.  The cache holds results of the operations only.  In a server
    that started with an empty cache, every entry is a payload that the routed
    operation returned to an earlier call with that key, stamped with the
    clock read right after the operation returned; so whatever a hit serves,
    the operation once returned for the same tool and the same serialised
    arguments. *)
Theorem cached_entries_are_results e s name text ts payload :
  reachable e s →
  _cache s !! (name, text) = Some (ts, payload) →
  name ∈ data_operations
  ∧ ∃ args s1 s2,
      dict_wf args
      ∧ make_key name args = (name, text)
      ∧ dispatch name args e s1 = (Ok payload, s2)
      ∧ ts = clock e (ticks s2).
Proof.
  intros Hreach. revert name text ts payload.
  induction Hreach as [|s name0 args0 Hreach IH Hwf]; intros name text ts payload Hl.
  { unfold initial_state in Hl. cbn [_cache] in Hl. by rewrite lookup_empty in Hl. }
  destruct (call_tool_outcome name0 args0 e s) as (r & s' & Hrun & Hout).
  rewrite Hrun in Hl. cbn [snd] in Hl.
  destruct Hout as [Hn|data s1 Hn Hg Hdata|s1 payload0 s2 Hn Hg Hd|s1 x s2 Hn Hg Hd].
  - by apply IH.
  - destruct (cache_get_frame _ _ _ _ _ _ Hg) as (_ & _ & _ & Hsub & _).
    apply IH. by apply Hsub in Hl.
  - destruct (cache_get_frame _ _ _ _ _ _ Hg) as (_ & _ & _ & Hsub & _).
    destruct (dispatch_frame _ _ _ _ _ _ Hd) as [Hc _].
    cbn [after_tick after_set _cache] in Hl.
    destruct (decide (make_key name0 args0 = (name, text))) as [Hkey|Hkey].
    + rewrite Hkey, lookup_insert_eq in Hl. inv Hl.
      assert (Hname : name0 = name) by (by inv Hkey). subst name0.
      split.
      * pose proof (dispatch_ok_accepts _ _ _ _ _ _ Hd) as Hacc. unfold accepts in Hacc.
        unfold data_operations.
        destruct (String.eqb_spec name "search_title") as [->|_]; [by left|].
        destruct (String.eqb_spec name "get_recommendations") as [->|_]; [right; by left|].
        destruct (String.eqb_spec name "discover") as [->|_]; [right; right; by left|done].
      * by exists args0, s1, s2.
    + rewrite lookup_insert_ne in Hl by done. rewrite Hc in Hl.
      apply IH. by apply Hsub in Hl.
  - destruct (cache_get_frame _ _ _ _ _ _ Hg) as (_ & _ & _ & Hsub & _).
    destruct (dispatch_frame _ _ _ _ _ _ Hd) as [Hc _].
    rewrite Hc in Hl. apply IH. by apply Hsub in Hl.
Qed.

Lemma cached_entries_are_results_witness :
  let args : dict := [("type", PStr "movie")] in
  let s := (call_tool "discover" args test_env initial_state).2 in
  ∃ ts payload args' s1 s2,
    _cache s !! make_key "discover" args = Some (ts, payload)
    ∧ make_key "discover" args' = make_key "discover" args
    ∧ dispatch "discover" args' test_env s1 = (Ok payload, s2).
Proof.
  intros args s.
  assert (Hreach : reachable test_env s).
  { apply reachable_call; [apply reachable_initial|].
    unfold dict_wf. cbn. apply NoDup_singleton. }
  destruct (_cache s !! make_key "discover" args) as [[ts payload]|] eqn:Hl;
    [|by vm_compute in Hl].
  destruct (cached_entries_are_results test_env s "discover" _ ts payload Hreach Hl)
    as (_ & args' & s1 & s2 & _ & Hkey & Hd & _).
  by exists ts, payload, args', s1, s2.
Defined.

(* ================================================================== *)
(** * The fields the normaliser reads                                  *)
(* ================================================================== *)

(** X14.  The normaliser reads eight fields of a record and nothing else:
    records that agree on [id], [title], [name], [release_date],
    [first_air_date], [vote_average], [overview] and [poster_path] are
    normalised alike (result or exception), whatever other fields they carry
    and in whatever order; the record of a recommendation depends on
    [popularity] besides. *)
Theorem normaliser_reads_eight_fields (item item' : dict) (item_type : pyval) :
  (∀ k, k ∈ ["id"; "title"; "name"; "release_date"; "first_air_date";
             "vote_average"; "overview"; "poster_path"] →
        dict_get k item' = dict_get k item) →
  _map_search_item (PDict item') item_type = _map_search_item (PDict item) item_type
  ∧ (dict_get "popularity" item' = dict_get "popularity" item →
     recommendation item_type (PDict item') = recommendation item_type (PDict item)).
Proof.
  intros Hsame.
  assert (Hk : ∀ k, In k ["id"; "title"; "name"; "release_date"; "first_air_date";
                         "vote_average"; "overview"; "poster_path"] →
                    dict_get k item' = dict_get k item).
  { intros k Hin. apply Hsame. by apply list_elem_of_In. }
  assert (Hid := Hk "id"). assert (Htitle := Hk "title"). assert (Hname := Hk "name").
  assert (Hrel := Hk "release_date"). assert (Hair := Hk "first_air_date").
  assert (Hva := Hk "vote_average"). assert (Hov := Hk "overview").
  assert (Hpo := Hk "poster_path"). cbn [In] in *.
  assert (Hmap : _map_search_item (PDict item') item_type
                 = _map_search_item (PDict item) item_type).
  { rewrite !map_search_item_run. unfold date_field, title_of, arg. cbn [py_getitem].
    rewrite Hid, Htitle, Hname, Hrel, Hair, Hva, Hov, Hpo by tauto. reflexivity. }
  split; [exact Hmap|]. intros Hpop.
  unfold recommendation. rewrite Hmap. unfold get_none, py_get. cbn [py_getitem].
  rewrite Hva, Hpop by tauto. reflexivity.
Qed.

Lemma normaliser_reads_eight_fields_witness :
  _map_search_item
    (PDict [("adult", PBool false); ("id", PInt 123); ("title", PStr "Inception");
            ("genre_ids", PList [PInt 28; PInt 878]);
            ("release_date", PStr "2010-07-16")])
    (PStr "movie")
  = _map_search_item
      (PDict [("id", PInt 123); ("title", PStr "Inception");
              ("release_date", PStr "2010-07-16")])
      (PStr "movie").
Proof.
  apply (normaliser_reads_eight_fields
           [("id", PInt 123); ("title", PStr "Inception");
            ("release_date", PStr "2010-07-16")]
           [("adult", PBool false); ("id", PInt 123); ("title", PStr "Inception");
            ("genre_ids", PList [PInt 28; PInt 878]);
            ("release_date", PStr "2010-07-16")]
           (PStr "movie")).
  intros k Hin. apply list_elem_of_In in Hin. cbn [In] in Hin.
  repeat (destruct Hin as [<-|Hin]; [reflexivity|]). destruct Hin.
Defined.

(* ================================================================== *)
(** * Validation errors, exactly                                       *)
(* ================================================================== *)

Lemma unclassified_not_tmdb {A} (r : result A) message code status :
  unclassified r → r ≠ Raise (TMDBError message code status).
Proof. by intros Hr ->. Qed.

(** An accepted call does not end in a validation error. *)
Lemma accepted_not_validation_error name args e s message status :
  accepts name args = true →
  (dispatch name args e s).1 ≠ Raise (TMDBError message "VALIDATION_ERROR" status).
Proof.
  intros Hacc Hrun.
  destruct (key_configured (TMDB_API_KEY e)) eqn:Hkey.
  2:{ destruct (dispatch_unconfigured name args e s Hkey) as (x & Hx & Hconfig).
      rewrite Hx, (Hconfig Hacc) in Hrun. discriminate. }
  destruct (accepts_target name args Hacc) as [[path params] Ht].
  rewrite (dispatch_run _ _ _ _ _ _ Hacc Hkey Ht) in Hrun.
  destruct (attempt_result _) as [body|x] eqn:Hres.
  - unfold mbind at 1, result_bind at 1 in Hrun.
    destruct (collect name args body) as [mapped|x] eqn:Hcollect; [discriminate|].
    cbn [fst] in Hrun. injection Hrun as ->.
    unfold collect in Hcollect. unfold mbind at 1, result_bind at 1 in Hcollect.
    destruct (py_get body "results" (PList [])) as [results|x] eqn:Hget.
    2:{ injection Hcollect as Hx.
        by apply (unclassified_not_tmdb (py_get body "results" (PList [])) message
                    "VALIDATION_ERROR" status (unclassified_py_get _ _ _)); rewrite Hget, Hx. }
    destruct (String.eqb name "search_title" && negb (truthy results)); [discriminate|].
    unfold mbind at 1, result_bind at 1 in Hcollect.
    destruct (py_iter results) as [items|x] eqn:Hiter.
    2:{ injection Hcollect as Hx.
        by apply (unclassified_not_tmdb (py_iter results) message
                    "VALIDATION_ERROR" status (unclassified_py_iter _)); rewrite Hiter, Hx. }
    by apply (unclassified_not_tmdb (result_map (normalise name args) items) message
                "VALIDATION_ERROR" status
                (unclassified_result_map _ _ (unclassified_normalise name args))).
  - unfold mbind at 1, result_bind at 1 in Hrun. cbn [fst] in Hrun. injection Hrun as ->.
    apply attempt_result_codes in Hres as [Ht'|[_ [(Hc & _)|(Hc & _)]]]; [|done|done].
    apply transient_codes_status in Ht' as [(Hc & _)|[(Hc & _)|(Hc & _)]]; done.
Qed.

(** What an operation answers with [VALIDATION_ERROR], its validation
    rejected. *)
Lemma validation_error_rejected name args e s message status :
  (dispatch name args e s).1 = Raise (TMDBError message "VALIDATION_ERROR" status) →
  validation_rejects name args = true.
Proof.
  intros Hrun. destruct (validation_rejects name args) eqn:Hrej; [done|]. exfalso.
  destruct (accepts name args) eqn:Hacc.
  { by apply (accepted_not_validation_error name args e s message status). }
  unfold validation_rejects in Hrej. unfold accepts in Hacc. unfold dispatch in Hrun.
  destruct (String.eqb name "search_title").
  { destruct (search_title_refuses args Hacc) as (x & Hx & _ & Hattr).
    rewrite Hx in Hrun. cbn [fst] in Hrun. injection Hrun as ->.
    destruct (default (PStr "") (dict_get "query" args)) as [| | | |q| |] eqn:Hq;
      try (by specialize (Hattr _ eq_refl ltac:(done))).
    by rewrite Hacc in Hrej. }
  destruct (String.eqb name "get_recommendations").
  { unfold get_recommendations_accepts in Hacc. unfold _get_recommendations in Hrun.
    pose proof (unclassified_py_int (arg args "id")) as Hun.
    destruct (py_int (arg args "id")) as [n|[m c st|cls m]]; [by rewrite Hacc in Hrej|done|].
    by destruct cls. }
  destruct (String.eqb name "discover"); [by rewrite Hacc in Hrej|].
  cbn in Hrun. discriminate.
Qed.

(** C7, as the code has it.  Arguments that the validation of an operation
    rejects (see [validation_rejects]) make the operation raise
    [VALIDATION_ERROR] at once, the state untouched: no HTTP attempt, no
    sleep, no clock reading, no cache access.  Through the dispatcher, in any
    state reached from the empty cache, such a call is answered with the
    [VALIDATION_ERROR] envelope after the dispatcher's own cache lookup, which
    comes before the validation and misses: one cache read, no cache write, no
    HTTP attempt.  The empty argument object of [search_title] is rejected.
    And these are all the validation errors there are: whatever the
    environment and the state, an operation that ends in [VALIDATION_ERROR]
    was given arguments its validation rejects. *)
Theorem validation_fails_before_network :
  validation_rejects "search_title" [] = true
  ∧ (∀ name args,
       validation_rejects name args = true →
       ∃ message,
         (∀ e s, dispatch name args e s
                 = (Raise (TMDBError message "VALIDATION_ERROR" 400), s))
         ∧ (∀ e s, reachable e s → dict_wf args →
              _cache s !! make_key name args = None
              ∧ call_tool name args e s =
                  (Ok (validation_envelope message),
                   {| _cache := _cache s; ticks := S (ticks s); sent := sent s;
                      trace := trace s ++ [EvCacheGet (make_key name args)] |})))
  ∧ (∀ name args e s message status,
       (dispatch name args e s).1 = Raise (TMDBError message "VALIDATION_ERROR" status) →
       validation_rejects name args = true).
Proof.
  split; [reflexivity|]. split; [|exact validation_error_rejected].
  intros name args Hrej.
  destruct (dispatch_validation_error name args Hrej) as [message Hraise].
  exists message. split; [exact Hraise|]. intros e s Hreach Hwf.
  pose proof (validation_rejects_not_accepted _ _ Hrej) as Hacc.
  split; [by eapply refused_arguments_miss|].
  assert (Hname : name ≠ "health").
  { intros ->. discriminate Hrej. }
  by rewrite (call_tool_refused name args e s _ Hreach Hwf Hname Hacc Hraise).
Qed.

Lemma validation_fails_before_network_witness :
  let e := {| TMDB_API_KEY := Some "k";
              net := λ _, Responds (Response 200 (inr (PDict [("results", PList [])])));
              clock := λ _, float_of_Z 1700000000; utcnow := λ _, "" |} in
  ∃ message,
    _search_title [] e initial_state
      = (Raise (TMDBError message "VALIDATION_ERROR" 400), initial_state)
    ∧ call_tool "search_title" [] e initial_state =
        (Ok (validation_envelope message),
         {| _cache := ∅; ticks := 1; sent := 0;
            trace := [EvCacheGet (make_key "search_title" [])] |}).
Proof.
  intros e.
  destruct (proj1 (proj2 validation_fails_before_network) "search_title" [] eq_refl)
    as (message & Hop & Hcall).
  exists message. split; [apply (Hop e initial_state)|].
  apply (Hcall e initial_state); [constructor|constructor].
Defined.

(* ================================================================== *)
(** * The properties at work on concrete calls                         *)
(* ================================================================== *)

Lemma reordered_arguments_hit_witness :
  let args1 : dict := [("query", PStr "Inception"); ("type", PStr "movie")] in
  let args2 : dict := [("type", PStr "movie"); ("query", PStr "Inception")] in
  make_key "search_title" args1 = make_key "search_title" args2
  ∧ ∃ r s1 s2,
      call_tool "search_title" args1 demo_env initial_state = (Ok r, s1)
      ∧ isError r = false
      ∧ call_tool "search_title" args2 demo_env s1 = (Ok r, s2)
      ∧ sent s2 = sent s1.
Proof.
  intros args1 args2.
  assert (Hwf : dict_wf args1).
  { unfold dict_wf. cbn. apply NoDup_cons. split; [|apply NoDup_singleton].
    intros Hin. apply list_elem_of_singleton in Hin. discriminate. }
  assert (Hperm : args1 ≡ₚ args2) by apply perm_swap.
  destruct (reordered_arguments_hit "search_title" args1 args2 Hwf Hperm)
    as (Hkey & _ & Hcall).
  split; [exact Hkey|].
  destruct (call_tool "search_title" args1 demo_env initial_state) as [r s1] eqn:Hrun.
  assert (Hok : ∃ r0, r = Ok r0 ∧ isError r0 = false).
  { vm_compute in Hrun. inv Hrun. by eexists. }
  destruct Hok as (r0 & -> & Hr0).
  assert (Hname : "search_title" ≠ "health") by done.
  destruct (Hcall demo_env initial_state r0 s1 Hname Hrun Hr0)
    as (ts & payload & Hl & -> & Hserve).
  exists (success payload), s1. eexists. split; [done|]. split; [done|].
  split; [apply (Hserve s1 Hl)|reflexivity].
  vm_compute in Hrun. inv Hrun. vm_compute in Hl. inv Hl. vm_compute. reflexivity.
Defined.

Lemma cache_entry_expires_on_read_witness :
  let key := make_key "search_title" [("query", PStr "Inception")] in
  (∃ s', _cache_get "search_title" [("query", PStr "Inception")] demo_env stale_state
           = (Ok PNone, s')
         ∧ _cache s' !! key = None
         ∧ trace s' = [EvCacheGet key; EvCachePop key])
  ∧ sent (call_tool "search_title" [("query", PStr "Inception")] demo_env stale_state).2
    = 1%nat.
Proof.
  intros key.
  destruct (cache_entry_expires_on_read "search_title" [("query", PStr "Inception")] demo_env)
    as (Hget & Hcall & _ & _).
  split.
  - destruct (Hget stale_state (float_of_Z 0) (PDict [("results", PList [])]))
      as (s' & Hrun & _ & Hgone & Htrace); [by vm_compute|by vm_compute|].
    exists s'. split; [exact Hrun|]. split; [exact Hgone|exact Htrace].
  - rewrite (Hcall stale_state (float_of_Z 0) (PDict [("results", PList [])]));
      [by vm_compute|done|by vm_compute|by vm_compute].
Defined.

Lemma errors_never_cached_witness :
  ∃ r s',
    call_tool "get_recommendations" [("id", PStr "nine")] demo_env stale_state = (Ok r, s')
    ∧ isError r = true
    ∧ ∀ key entry, _cache s' !! key = Some entry → _cache stale_state !! key = Some entry.
Proof.
  destruct (errors_never_cached "get_recommendations" [("id", PStr "nine")]
              demo_env stale_state) as (r & s' & evs & Hrun & _ & _ & Herr).
  exists r, s'. split; [exact Hrun|].
  assert (Hr : isError r = true).
  { vm_compute in Hrun. by inv Hrun. }
  split; [exact Hr|]. by destruct (Herr Hr).
Defined.


Lemma discover_never_forwards_genre_witness :
  let args : dict := [("type", PStr "movie"); ("genre", PList [PStr "Drama"]);
                      ("year", PInt 2010)] in
  discover_accepts args = true
  ∧ _discover args demo_env initial_state
    = _discover [("type", PStr "movie"); ("year", PInt 2010)] demo_env initial_state
  ∧ ∃ rest,
      trace (_discover args demo_env initial_state).2
      = EvRequest "https://api.themoviedb.org/3/discover/movie"
          [("language", PStr "en-US"); ("include_adult", PBool false);
           ("sort_by", PStr "popularity.desc"); ("primary_release_year", PInt 2010);
           ("api_key", PStr "k")] :: rest.
Proof.
  intros args.
  destruct (discover_never_forwards_genre [("type", PStr "movie"); ("year", PInt 2010)])
    as (_ & Hsame & _).
  destruct (discover_never_forwards_genre args) as (_ & _ & Hsent).
  split; [reflexivity|]. split.
  - apply Hsame. intros k Hk. cbn.
    destruct (String.eqb_spec k "type"); [done|].
    destruct (String.eqb_spec k "genre"); [done|reflexivity].
  - destruct (Hsent demo_env initial_state eq_refl eq_refl)
      as (sort & rest & Hsort & Htrace & _).
    exists rest. vm_compute in Hsort. inv Hsort. exact Htrace.
Defined.

(* ================================================================== *)
(** * The repository's tests                                           *)
(* ================================================================== *)

(** 8.8 is the float the literal denotes. *)
Example vote_average_literal :
  parse_float "8.8" = Some (S754_finite false 4953959590107546 (-49)).
Proof. vm_compute. reflexivity. Qed.

(** [test_search_title_validation_error] *)
Example test_search_title_validation_error :
  _search_title [] test_env initial_state
  = (Raise (TMDBError "query is required" "VALIDATION_ERROR" 400), initial_state).
Proof. reflexivity. Qed.

(** [test_search_title_success], and the example of the specification *)
Example test_search_title_success :
  (_search_title [("query", PStr "Inception"); ("type", PStr "movie")]
     test_env initial_state).1
  = Ok (PDict
          [("results",
            PList [PDict [("id", PInt 123); ("title", PStr "Inception");
                          ("type", PStr "movie"); ("year", PInt 2010);
                          ("rating", PFloat (S754_finite false 4953959590107546 (-49)));
                          ("overview", PStr "Dream heist.");
                          ("poster_path", PStr "/poster.jpg")]]);
           ("source", PStr "TMDB");
           ("fetched_at", PFloat (float_of_Z 1700000000))]).
Proof. vm_compute. reflexivity. Qed.

(** the reason of a recommendation *)
Example recommendation_reason :
  recommendation (PStr "movie")
    (PDict [("id", PInt 27205); ("title", PStr "Inception");
            ("vote_average", PFloat (S754_finite false 4953959590107546 (-49)));
            ("popularity", PInt 51)])
  = Ok (PDict [("id", PInt 27205); ("title", PStr "Inception"); ("year", PNone);
               ("reason", PStr "high user rating 8.8; popular among similar viewers")]).
Proof. vm_compute. reflexivity. Qed.

(** the health check reports the credential and the size of the cache *)
Example health_check :
  (call_tool "health" [] test_env stale_state).1
  = Ok (success (PDict [("status", PStr "ok"); ("tmdb_api_key_configured", PBool true);
                        ("cache_entries", PInt 1);
                        ("timestamp_utc", PStr "2023-11-14T22:13:20+00:00")])).
Proof. vm_compute. reflexivity. Qed.

(** without the credential nothing is requested *)
Example missing_credential :
  _tmdb_get "/search/movie" []
    {| TMDB_API_KEY := None; net := net test_env; clock := clock test_env;
       utcnow := utcnow test_env |} initial_state
  = (Raise (TMDBError "TMDB_API_KEY missing in environment" "CONFIG_ERROR" 500),
     initial_state).
Proof. reflexivity. Qed.
